(** * Schema-mapping knowledge engine and orchestration pipeline

    A shallow embedding of the Python sources

      - [models/knowledge_base.py]   (class [KnowledgeBase])
      - [agents/data_processing.py]  (class [DataProcessingAgent])
      - [agents/quality_assurance.py] (class [QualityAssuranceAgent])
      - [agents/orchestrator.py]     (class [Orchestrator])

    together with the properties the specification states about them.

    Conventions of the embedding.
      - A Python [float] is the rational number ([Q]) its binary64 value
        denotes. A literal of the source ([0.05], [0.1], [0.6], ...) is the
        decimal fraction rounded to the nearest binary64 value, and [+] and
        [-] round their exact result the same way ([Float64.round]: to
        nearest, ties to even, with the subnormal range). Comparisons,
        [min] and [max] are exact. Infinities and NaN are not values of the
        model: the numbers of these sources stay far below the overflow
        threshold. The quality score only meets multiples of 0.5 between 0
        and 10, on which binary64 [-] is exact; it is written with the
        exact operation.
      - Python [str] values are [string]s of ASCII characters; [str.lower]
        and [str.title] act on the letters [A-Z]/[a-z] and leave every other
        character alone.
      - A [dict] keyed by strings is a [gmap string _]; a Python [list] is a
        [list]; a method that mutates [self] is a function from the object
        state to the new object state; a method that may raise returns an
        [outcome]. *)

From Stdlib Require Import QArith Qminmax Qround Qabs Lqa.
From Stdlib Require Import Ascii String DecimalString.
From stdpp Require Import gmap strings list fin_maps.

Local Open Scope string_scope.
Local Open Scope list_scope.

(** ** Results of calls that may raise *)

Inductive outcome (A : Type) : Type :=
| Return (a : A)
| Raise (exn : string).

Arguments Return {A} a.
Arguments Raise {A} exn.

(** ** The Python built-ins the sources call *)

Module Py.

Definition is_upper (c : ascii) : bool :=
  let n := nat_of_ascii c in (65 <=? n)%nat && (n <=? 90)%nat.

Definition is_lower (c : ascii) : bool :=
  let n := nat_of_ascii c in (97 <=? n)%nat && (n <=? 122)%nat.

(** A cased character: one that has an upper- and a lower-case form. *)
Definition is_cased (c : ascii) : bool := is_upper c || is_lower c.

Definition lower_char (c : ascii) : ascii :=
  if is_upper c then ascii_of_nat (nat_of_ascii c + 32) else c.

Definition upper_char (c : ascii) : ascii :=
  if is_lower c then ascii_of_nat (nat_of_ascii c - 32) else c.

Fixpoint map_chars (f : ascii -> ascii) (s : string) : string :=
  match s with
  | EmptyString => EmptyString
  | String c rest => String (f c) (map_chars f rest)
  end.

(** [s.lower()] *)
Definition lower (s : string) : string := map_chars lower_char s.

(** [s.replace(a, b)] for one-character [a] and [b]. *)
Definition replace (a b : ascii) (s : string) : string :=
  map_chars (fun c => if Ascii.eqb c a then b else c) s.

(** [s.title()]: a cased character is upper-cased when the character before
    it is not cased (or there is none) and lower-cased otherwise. *)
Fixpoint title_from (previous_is_cased : bool) (s : string) : string :=
  match s with
  | EmptyString => EmptyString
  | String c rest =>
      String (if previous_is_cased then lower_char c else upper_char c)
             (title_from (is_cased c) rest)
  end.

Definition title (s : string) : string := title_from false s.

(** [sub in s] on strings. *)
Fixpoint contains (sub s : string) : bool :=
  String.prefix sub s ||
  match s with
  | EmptyString => false
  | String _ rest => contains sub rest
  end.

(** [str(n)] for a non-negative [int]. *)
Definition str_of_nat (n : nat) : string :=
  NilZero.string_of_uint (Nat.to_uint n).

End Py.

(** ** Python's [float]: IEEE 754 binary64 *)

Module Float64.

(** [2 ** e] for an integer [e] of either sign. *)
Definition pow2 (e : Z) : Q :=
  if (0 <=? e)%Z then inject_Z (2 ^ e) else / inject_Z (2 ^ (- e)).

(** The binary exponent of a non-zero number: [2 ** e <= |q| < 2 ** (e+1)]. *)
Definition magnitude (q : Q) : Z :=
  let n := Z.abs (Qnum q) in
  let e := (Z.log2 n - Z.log2 (Zpos (Qden q)))%Z in
  if Qle_bool (pow2 e) (Qabs q) then e else (e - 1)%Z.

(** The nearest integer, the even one of two that are equally near. *)
Definition nearest_even (x : Q) : Z :=
  let f := Qfloor x in
  match (x - inject_Z f ?= 1 # 2)%Q with
  | Lt => f
  | Gt => (f + 1)%Z
  | Eq => if Z.even f then f else (f + 1)%Z
  end.

(** The exponent of the unit in the last place: 53 significant bits, and
    no unit below [2 ** -1074]. *)
Definition ulp_exponent (q : Q) : Z := Z.max (magnitude q - 52) (-1074).

(** The binary64 value nearest to [q]. *)
Definition round (q : Q) : Q :=
  if Qeq_bool q 0 then 0%Q
  else let u := ulp_exponent q in
       Qred (inject_Z (nearest_even (q / pow2 u)) * pow2 u).

(** A decimal literal of the source. *)
Definition float (literal : Q) : Q := round literal.

(** [a + b] and [a - b] on floats: the exact result, rounded. The operands
    are floats, which [round] leaves as they are; rounding them lets a
    decimal fraction stand for the float it is the literal of. *)
Definition add (a b : Q) : Q := round (round a + round b).
Definition sub (a b : Q) : Q := round (round a - round b).

(** [2 ** -53]: half a unit in the last place of the numbers from 1 to 2,
    the most that rounding moves a number below 2. *)
Definition half_ulp : Q := 1 # 9007199254740992.

(** [2 ** -51]: room for the rounding of an operand, of a literal and of
    the result. *)
Definition slack : Q := 1 # 2251799813685248.

(** [b] is [a] up to [eps]. *)
Definition near (eps a b : Q) : Prop := (a - eps <= b)%Q ∧ (b <= a + eps)%Q.

End Float64.

Arguments Float64.round : simpl never.
Arguments Float64.float : simpl never.
Arguments Float64.add : simpl never.
Arguments Float64.sub : simpl never.

(** ** [models/knowledge_base.py] *)

Module KnowledgeBase.

(** One element of a record's ["mappings"] list:
    [{"business_entity": _, "confidence": _, "count": _}]. *)
Record mapping : Type := Mapping {
  business_entity : string;
  confidence : Q;  (* a float *)
  count : nat
}.

(** [self.mappings]: technical name to the list under its ["mappings"] key
    (the inner dict has that single key). *)
Abbreviation store := (gmap string (list mapping)).

(** The file at [storage_path], by what [__init__] meets there:
    no file ([os.path.exists] is false); a place where [os.makedirs],
    [open] or the reading raises something other than
    [json.JSONDecodeError], which [__init__] does not catch (bytes that are
    not valid text raise [UnicodeDecodeError]); text that [json.load]
    rejects with [json.JSONDecodeError]; or the JSON text of a store, as
    [save] writes it. JSON text of another shape is loaded as it is and is
    not a state of this model. *)
Inductive file : Type :=
| Missing
| Unreadable (exn : string)
| Undecodable
| Json (content : store).

(** The object: [self.mappings] and the file [self.storage_path] names. *)
Record t : Type := KB {
  mappings : store;
  storage : file
}.


(** [save]: dump [self.mappings] to the file. *)
Definition save (self : t) : t :=
  KB (mappings self) (Json (mappings self)).

(** [technical.replace('_', ' ').title()] *)
Definition humanize (technical : string) : string :=
  Py.title (Py.replace "_" " " technical).

Definition same_entity (m : mapping) (business : string) : bool :=
  String.eqb (Py.lower (business_entity m)) (Py.lower business).

(** The [for mapping in ...: if ...: <update>; found = True; break] loop
    shared by [add_mappings] and [add_feedback]: [update] is applied to the
    first case-insensitive match; [None] stands for [found == False]. *)
Fixpoint update_first (update : mapping -> mapping) (business : string)
    (l : list mapping) : option (list mapping) :=
  match l with
  | [] => None
  | m :: rest =>
      if same_entity m business then Some (update m :: rest)
      else cons m <$> update_first update business rest
  end.

(** The default of the [confidence] argument of [add_mappings]. *)
Definition default_confidence : Q := Float64.float 0.8.

(** Lines 43-44. *)
Definition reinforce (m : mapping) : mapping :=
  Mapping (business_entity m)
          (Qmin 1 (Float64.add (confidence m) (Float64.float 0.05)))
          (count m + 1).

(** One iteration of the loop over [mappings.items()] in [add_mappings]. *)
Definition add_mapping (confidence : Q) (st : store) (item : string * string)
    : store :=
  let '(technical, business) := item in
  match st !! technical with
  | None => <[technical := [Mapping business confidence 1]]> st
  | Some l =>
      match update_first reinforce business l with
      | Some l' => <[technical := l']> st
      | None => <[technical := l ++ [Mapping business confidence 1]]> st
      end
  end.

(** [add_mappings(mappings, confidence)]; the dict argument is given by its
    items in iteration order. *)
Definition add_mappings (items : list (string * string)) (confidence : Q)
    (self : t) : t :=
  save (KB (fold_left (add_mapping confidence) items (mappings self))
           (storage self)).

(** The key [lambda x: (x["confidence"], x["count"])] and Python's tuple
    comparison [key(a) > key(b)]. *)
Definition key_gt (a b : mapping) : bool :=
  match (confidence a ?= confidence b)%Q with
  | Gt => true
  | Lt => false
  | Eq => (count b <? count a)%nat
  end.

(** [max(l, key=...)]: the running best is replaced only by a strictly
    greater key. *)
Fixpoint max_from (best : mapping) (rest : list mapping) : mapping :=
  match rest with
  | [] => best
  | m :: rest' => max_from (if key_gt m best then m else best) rest'
  end.

Definition max_by_key (l : list mapping) : outcome mapping :=
  match l with
  | [] => Raise "ValueError"
  | m :: rest => Return (max_from m rest)
  end.

(** [get_mapping(technical)]: the result and the object afterwards. *)
Definition get_mapping (technical : string) (self : t)
    : outcome string * t :=
  match mappings self !! technical with
  | None => (Return (humanize technical), self)
  | Some l =>
      match max_by_key l with
      | Return best_mapping => (Return (business_entity best_mapping), self)
      | Raise e => (Raise e, self)
      end
  end.

(** [get_all_mappings(technical)] *)
Definition get_all_mappings (technical : string) (self : t)
    : list mapping * t :=
  match mappings self !! technical with
  | None => ([Mapping (humanize technical) 0.5 0], self)
  | Some l => (l, self)
  end.

(** Lines 97-101. *)
Definition nudge (positive : bool) (m : mapping) : mapping :=
  Mapping (business_entity m)
          (if positive
           then Qmin 1 (Float64.add (confidence m) (Float64.float 0.1))
           else Qmax (Float64.float 0.1)
                     (Float64.sub (confidence m) (Float64.float 0.1)))
          (count m + 1).

(** [add_feedback(technical, business, positive)] *)
Definition add_feedback (technical business : string) (positive : bool)
    (self : t) : t :=
  match mappings self !! technical with
  | None =>
      let confidence :=
        if positive then Float64.float 0.6 else Float64.float 0.4 in
      save (KB (<[technical := [Mapping business confidence 1]]> (mappings self))
               (storage self))
  | Some l =>
      match update_first (nudge positive) business l with
      | Some l' => save (KB (<[technical := l']> (mappings self)) (storage self))
      | None =>
          if positive
          then save (KB (<[technical :=
                            l ++ [Mapping business (Float64.float 0.6) 1]]>
                           (mappings self)) (storage self))
          else save self
      end
  end.

(** *** Vocabulary for the properties of the store *)

(** Position of the first candidate whose label matches [business] without
    regard to case. *)
Fixpoint first_match (business : string) (l : list mapping) : option nat :=
  match l with
  | [] => None
  | m :: rest =>
      if same_entity m business then Some 0%nat
      else S <$> first_match business rest
  end.

(** The labels of a candidate list are pairwise different without regard to
    case. *)
Definition unique_labels (l : list mapping) : Prop :=
  NoDup (map (fun m => Py.lower (business_entity m)) l).

Definition unique_store (st : store) : Prop :=
  map_Forall (fun _ l => unique_labels l) st.

(** Every record has a candidate. *)
Definition nonempty_store (st : store) : Prop :=
  map_Forall (fun _ l => l ≠ []) st.

(** The confidence one repeated merge leaves: line 44 on [c]. *)
Definition raised (c : Q) : Q :=
  Qmin 1 (Float64.add c (Float64.float 0.05)).

(** Every confidence is within the data model's range. *)
Definition in_range (m : mapping) : Prop :=
  (0 <= confidence m)%Q ∧ (confidence m <= 1)%Q.

Definition bounded_store (st : store) : Prop :=
  map_Forall (fun _ l => Forall in_range l) st.

(** The order on [(confidence, count)] pairs: first by confidence, then by
    count. *)
Definition key_lt (a b : mapping) : Prop :=
  (confidence a < confidence b)%Q ∨
  ((confidence a == confidence b)%Q ∧ (count a < count b)%nat).

Definition key_le (a b : mapping) : Prop :=
  (confidence a < confidence b)%Q ∨
  ((confidence a == confidence b)%Q ∧ (count a <= count b)%nat).

(** The calls that change the store. *)
Inductive operation : Type :=
| Merge (items : list (string * string)) (confidence : Q)
| Feedback (technical business : string) (positive : bool).

Definition apply (self : t) (op : operation) : t :=
  match op with
  | Merge items confidence => add_mappings items confidence self
  | Feedback technical business positive =>
      add_feedback technical business positive self
  end.

Definition run (ops : list operation) (self : t) : t :=
  fold_left apply ops self.

(** The confidence an operation passes, if any, is within the range. *)
Definition bounded_operation (op : operation) : Prop :=
  match op with
  | Merge _ confidence => (0 <= confidence)%Q ∧ (confidence <= 1)%Q
  | Feedback _ _ _ => True
  end.

(** The character [humanize] puts where the name has [c], given the
    character [before] it (if any). *)
Definition humanized_char (before : option ascii) (c : ascii) : ascii :=
  let c' := if Ascii.eqb c "_" then " "%char else c in
  match before with
  | Some p => if Py.is_cased p then Py.lower_char c' else Py.upper_char c'
  | None => Py.upper_char c'
  end.

(** A store in which one candidate has been pushed down to the floor by
    repeated negative feedback. *)
Definition floor_example : t :=
  run (replicate 5 (Feedback "cust_id" "Customer" false)) (KB ∅ Missing).

(** A store with two candidates of equal confidence for one name. *)
Definition tie_example : t :=
  KB {[ "cust_id" := [Mapping "Client" 0.9 2; Mapping "Customer" 0.9 5] ]}
     Missing.

(** A store that has seen one merge. *)
Definition merged_example : t :=
  add_mappings [("cust_id", "Customer")] default_confidence (KB ∅ Missing).

End KnowledgeBase.


(** ** [agents/data_processing.py] *)

Module DataProcessingAgent.

(** A JSON value, as the interpreter's instructions carry them. *)
#[warnings="-register-all"]
Inductive value : Type :=
| VNone
| VBool (b : bool)
| VNum (q : Q)
| VStr (s : string)
| VList (l : list value)
| VDict (d : list (string * value)).

(** [isinstance(value, list)] *)
Definition is_list (v : value) : bool :=
  match v with VList _ => true | _ => false end.

(** A table cell: a number, a text, or a missing value. *)
Inductive cell : Type :=
| CNum (q : Q)
| CStr (s : string)
| CNaN.

(** What [select_dtypes(include=["number"])] tells apart. *)
Inductive dtype : Type := Number | Object.

Record Series : Type := mkSeries {
  s_dtype : dtype;
  s_values : list cell
}.

(** A [pandas.DataFrame]: the column labels with their dtypes, and the rows;
    the i-th cell of a row belongs to the i-th column. *)
Record DataFrame : Type := mkDataFrame {
  columns : list (string * dtype);
  rows : list (list cell)
}.

(** Position of a column label. *)
Fixpoint column_index (name : string) (cols : list (string * dtype))
    : option (nat * dtype) :=
  match cols with
  | [] => None
  | (n, d) :: rest =>
      if String.eqb n name then Some (0%nat, d)
      else (fun '(i, d') => (S i, d')) <$> column_index name rest
  end.

(** [df[column]]: the column, or [KeyError]. *)
Definition getitem (df : DataFrame) (column : string) : outcome Series :=
  match column_index column (columns df) with
  | Some (i, d) => Return (mkSeries d (map (fun r => nth i r CNaN) (rows df)))
  | None => Raise "KeyError"
  end.

(** [df[mask]] for a boolean mask aligned with the rows. *)
Fixpoint mask_rows (rs : list (list cell)) (mask : list bool)
    : list (list cell) :=
  match rs, mask with
  | r :: rs', b :: mask' =>
      if b then r :: mask_rows rs' mask' else mask_rows rs' mask'
  | _, _ => []
  end.

Definition getitem_mask (df : DataFrame) (mask : list bool) : DataFrame :=
  mkDataFrame (columns df) (mask_rows (rows df) mask).

(** [df.select_dtypes(include=["number"]).columns] *)
Definition number_columns (df : DataFrame) : list string :=
  map fst (List.filter (fun c => match snd c with Number => true | Object => false end)
                       (columns df)).

(** [Index.any()]: some label is truthy, that is, a non-empty string. *)
Definition index_any (labels : list string) : bool :=
  existsb (fun n => negb (String.eqb n "")) labels.

(** [df.rename(columns={old: new}, inplace=True)] *)
Definition rename (old new : string) (df : DataFrame) : DataFrame :=
  mkDataFrame
    (map (fun c => if String.eqb (fst c) old then (new, snd c) else c)
         (columns df))
    (rows df).

(** [name in df.columns] *)
Definition has_column (name : string) (df : DataFrame) : bool :=
  existsb (fun c => String.eqb (fst c) name) (columns df).

(** The comparison operators of [_apply_filters]. *)
Inductive comparison_op : Type := OpEq | OpNe | OpGt | OpGe | OpLt | OpLe.

(** A number cell against a number: what the elementwise comparison of a
    numeric column with a numeric scalar gives; a missing value compares
    false, except under [!=]. *)
Definition compare_number (op : comparison_op) (c : cell) (v : Q) : bool :=
  match c with
  | CNum x =>
      match op with
      | OpEq => Qeq_bool x v
      | OpNe => negb (Qeq_bool x v)
      | OpGt => negb (Qle_bool x v)
      | OpGe => Qle_bool v x
      | OpLt => negb (Qle_bool v x)
      | OpLe => Qle_bool x v
      end
  | _ => match op with OpNe => true | _ => false end
  end.

(** One element of [instructions["filters"]]; [None] is a missing key. *)
Record filter_obj : Type := mkFilter {
  f_column : option string;
  f_operation : option string;
  f_value : value
}.

(** [instructions["aggregation"]] *)
Record aggregation : Type := mkAggregation {
  a_method : option string;
  a_column : option string
}.

(** The part of [instructions] the transformations read. *)
Record instructions : Type := mkInstructions {
  i_filters : option (list filter_obj);
  i_groupby : option (list string);
  i_aggregation : option aggregation
}.

(** Python truth value of a string, and of an optional one ([None] and [""]
    are false). *)
Definition nonempty (s : string) : bool := negb (String.eqb s "").

Definition truthy (s : option string) : bool :=
  match s with
  | Some s' => nonempty s'
  | None => false
  end.

Section Pandas.

(** The pandas operations whose results the agent only passes on. *)

(** [s <op> value] for a column and a scalar. *)
Variable series_compare : comparison_op -> Series -> value -> outcome (list bool).
(** [s.isin(values)] *)
Variable series_isin : Series -> list value -> outcome (list bool).
(** [s.str.contains(str(value), na=False)] *)
Variable series_str_contains : Series -> value -> outcome (list bool).
(** [df.groupby(cols).size().reset_index(name="count")] *)
Variable groupby_size : DataFrame -> list string -> outcome DataFrame.
(** [df.groupby(cols).agg({column: method}).reset_index()] *)
Variable groupby_agg :
  DataFrame -> list string -> string -> string -> outcome DataFrame.

(** [filtered_df[filtered_df[column] <op> value]] *)
Definition filter_compare (op : comparison_op) (df : DataFrame)
    (column : string) (v : value) : outcome DataFrame :=
  match getitem df column with
  | Raise e => Raise e
  | Return s =>
      match series_compare op s v with
      | Raise e => Raise e
      | Return mask => Return (getitem_mask df mask)
      end
  end.

(** The body of the [try] in [_apply_filters] (lines 59-75). *)
Definition apply_operation (df : DataFrame) (column operation : string)
    (v : value) : outcome DataFrame :=
  if String.eqb operation "==" then filter_compare OpEq df column v
  else if String.eqb operation "!=" then filter_compare OpNe df column v
  else if String.eqb operation ">" then filter_compare OpGt df column v
  else if String.eqb operation ">=" then filter_compare OpGe df column v
  else if String.eqb operation "<" then filter_compare OpLt df column v
  else if String.eqb operation "<=" then filter_compare OpLe df column v
  else if String.eqb operation "in" then
    match v with
    | VList l =>
        match getitem df column with
        | Raise e => Raise e
        | Return s =>
            match series_isin s l with
            | Raise e => Raise e
            | Return mask => Return (getitem_mask df mask)
            end
        end
    | _ => Return df
    end
  else if String.eqb operation "contains" then
    match getitem df column with
    | Raise e => Raise e
    | Return s =>
        match series_str_contains s v with
        | Raise e => Raise e
        | Return mask => Return (getitem_mask df mask)
        end
    end
  else Return df.

(** One iteration of the loop of [_apply_filters]. *)
Definition apply_filter (filtered_df : DataFrame) (f : filter_obj)
    : DataFrame :=
  if negb (truthy (f_column f)) || negb (truthy (f_operation f))
  then filtered_df
  else
    match apply_operation filtered_df (default "" (f_column f))
                          (default "" (f_operation f)) (f_value f) with
    | Return df' => df'
    | Raise _ => filtered_df
    end.

(** [_apply_filters(df, filters)] *)
Definition _apply_filters (df : DataFrame) (filters : list filter_obj)
    : DataFrame :=
  fold_left apply_filter filters df.

(** Lines 93-95: the column to aggregate. *)
Definition resolve_agg_column (df : DataFrame) (agg_column : string)
    : string :=
  if negb (nonempty agg_column) && index_any (number_columns df)
  then default "" (head (number_columns df))
  else agg_column.

(** Lines 98-109: group, aggregate and rename. *)
Definition aggregate (df : DataFrame) (groupby_cols : list string)
    (agg_method agg_column : string) : outcome DataFrame :=
  if String.eqb agg_method "count" then groupby_size df groupby_cols
  else
    match groupby_agg df groupby_cols agg_column agg_method with
    | Raise e => Raise e
    | Return grouped_df =>
        let suffixed := (agg_column ++ "_" ++ agg_method)%string in
        let prefixed := (agg_method ++ "_" ++ agg_column)%string in
        if has_column suffixed grouped_df
        then Return (rename suffixed prefixed grouped_df)
        else if has_column agg_column grouped_df
                && negb (has_column prefixed grouped_df)
        then Return (rename agg_column prefixed grouped_df)
        else Return grouped_df
    end.

(** [_apply_groupby_aggregation(df, instructions)] *)
Definition _apply_groupby_aggregation (df : DataFrame) (ins : instructions)
    : DataFrame :=
  let groupby_cols := default [] (i_groupby ins) in
  match groupby_cols with
  | [] => df
  | _ :: _ =>
      let agg_info := default (mkAggregation None None) (i_aggregation ins) in
      let agg_method := default "sum" (a_method agg_info) in
      let agg_column := resolve_agg_column df (default "" (a_column agg_info)) in
      if nonempty agg_column then
        match aggregate df groupby_cols agg_method agg_column with
        | Return grouped_df => grouped_df
        | Raise _ => df
        end
      else df
  end.

(** Lines 26-31 of [process_data]: the two transformations in order. *)
Definition transform (df : DataFrame) (ins : instructions) : DataFrame :=
  let df1 :=
    match i_filters ins with
    | Some (f :: fs) => _apply_filters df (f :: fs)
    | _ => df
    end in
  match i_groupby ins with
  | Some (g :: gs) => _apply_groupby_aggregation df1 ins
  | _ => df1
  end.

End Pandas.

(** *** Vocabulary for the properties of the transformations *)

(** The cell holds a number above the threshold. *)
Definition exceeds (v : Q) (c : cell) : bool :=
  match c with
  | CNum x => negb (Qle_bool x v)
  | _ => false
  end.

(** The cell at position [i] of a row is a number or missing, as the cells
    of a numeric column are. *)
Definition numeric_at (i : nat) (r : list cell) : Prop :=
  match nth i r CNaN with
  | CStr _ => False
  | _ => True
  end.

(** The first numeric column that is not one of [groupby_cols]. *)
Definition first_number_outside (df : DataFrame) (groupby_cols : list string)
    : option string :=
  head (List.filter (fun n => negb (existsb (String.eqb n) groupby_cols))
                    (number_columns df)).

(** What [_apply_groupby_aggregation] returns when it aggregates [target]. *)
Definition aggregated_or_unchanged
    (groupby_size : DataFrame -> list string -> outcome DataFrame)
    (groupby_agg :
       DataFrame -> list string -> string -> string -> outcome DataFrame)
    (df : DataFrame) (groupby_cols : list string) (agg_method target : string)
    : DataFrame :=
  match aggregate groupby_size groupby_agg df groupby_cols agg_method target with
  | Return grouped_df => grouped_df
  | Raise _ => df
  end.

(** A comparison that knows numeric columns against numbers only. *)
Definition numbers_compare (op : comparison_op) (s : Series) (v : value)
    : outcome (list bool) :=
  match s_dtype s, v with
  | Number, VNum q => Return (map (fun c => compare_number op c q) (s_values s))
  | _, _ => Raise "TypeError"
  end.

Definition no_isin (s : Series) (l : list value) : outcome (list bool) :=
  Raise "TypeError".

Definition no_str_contains (s : Series) (v : value) : outcome (list bool) :=
  Raise "AttributeError".

(** Grouping stand-ins that show which column they were asked to aggregate:
    the result has the group-by columns and the aggregated column, no rows. *)
Definition probe_size (df : DataFrame) (groupby_cols : list string)
    : outcome DataFrame :=
  Return (mkDataFrame (map (fun n => (n, Object)) groupby_cols ++ [("count", Number)]) []).

Definition probe_agg (df : DataFrame) (groupby_cols : list string)
    (agg_column agg_method : string) : outcome DataFrame :=
  Return (mkDataFrame (map (fun n => (n, Object)) groupby_cols ++ [(agg_column, Number)]) []).

Definition people : DataFrame :=
  mkDataFrame [("name", Object); ("age", Number)]
    [ [CStr "ann"; CNum 25]; [CStr "bob"; CNum 41];
      [CStr "cy"; CNaN]; [CStr "dee"; CNum 30]; [CStr "eve"; CNum 30.5] ].

Definition sales : DataFrame :=
  mkDataFrame [("region", Object); ("year", Number); ("revenue", Number)]
    [ [CStr "north"; CNum 2023; CNum 10]; [CStr "south"; CNum 2023; CNum 7];
      [CStr "north"; CNum 2024; CNum 12] ].

Definition names_only : DataFrame :=
  mkDataFrame [("region", Object); ("city", Object)]
    [ [CStr "north"; CStr "oslo"]; [CStr "south"; CStr "rome"] ].

End DataProcessingAgent.

(** ** [agents/quality_assurance.py] *)

Module QualityAssuranceAgent.

(** [{"severity": _, "message": _}] *)
Record issue : Type := Issue {
  severity : string;
  message : string
}.

(** The keys of [visualization_info] the checks read; [None] is a missing
    key. *)
Record viz_info : Type := mkVizInfo {
  v_type : option string;
  v_x_axis : option string;
  v_color : option string
}.

(** The dict [create_visualization] returns, as far as the review reads it. *)
Record viz_result : Type := mkVizResult {
  visualization_info : option viz_info
}.

(** One entry of [data_summary["categorical_summary"]]. *)
Record categorical : Type := mkCategorical {
  unique_values : option nat
}.

Record data_summary : Type := mkSummary {
  row_count : option nat;
  categorical_summary : option (gmap string categorical)
}.

Definition pie_message (unique_values : nat) : string :=
  ("Pie chart has " ++ Py.str_of_nat unique_values ++
   " categories, which may be too many for effective visualization. Consider using a bar chart instead.")%string.

Definition bar_message (unique_values : nat) : string :=
  ("Bar chart has " ++ Py.str_of_nat unique_values ++
   " categories, which may be difficult to read. Consider filtering to show only top categories.")%string.

Definition scatter_message : string :=
  "For scatter plots with many data points, using color to encode an additional variable can reveal patterns.".

Definition keyword_message (keyword best : string) : string :=
  ("Requirements mention '" ++ keyword ++ "' which often works best with " ++ best)%string.

(** Lines 41-61: the check shared by the pie and the bar chart, for the
    chart type [chart], the limit [limit] and the message [msg]. *)
Definition check_categories (chart : string) (limit : nat)
    (msg : nat -> string) (viz_type : string) (info : viz_info)
    (summary : data_summary) (issues : list issue) : list issue :=
  if String.eqb viz_type chart && bool_decide (is_Some (categorical_summary summary))
  then
    let x_axis := default "" (v_x_axis info) in
    match default ∅ (categorical_summary summary) !! x_axis with
    | Some c =>
        let unique_values := default 0%nat (unique_values c) in
        if (limit <? unique_values)%nat
        then issues ++ [Issue "warning" (msg unique_values)]
        else issues
    | None => issues
    end
  else issues.

(** Lines 63-69. *)
Definition check_scatter (viz_type : string) (info : viz_info)
    (summary : data_summary) (issues : list issue) : list issue :=
  if String.eqb viz_type "scatter" && (50 <? default 0%nat (row_count summary))%nat
  then
    if negb (DataProcessingAgent.truthy (v_color info))
    then issues ++ [Issue "suggestion" scatter_message]
    else issues
  else issues.

Definition important_keywords : list string :=
  ["time"; "trend"; "compare"; "distribution"; "relationship"; "correlation"].

(** Lines 75-95: the body of the loop over [important_keywords]. *)
Definition check_keyword (requirements viz_type : string)
    (issues : list issue) (keyword : string) : list issue :=
  if Py.contains keyword (Py.lower requirements) then
    if String.eqb keyword "time" && negb (String.eqb viz_type "line")
       && negb (String.eqb viz_type "area")
    then issues ++ [Issue "suggestion"
                      (keyword_message keyword "a line chart or area chart.")]
    else if String.eqb keyword "trend" && negb (String.eqb viz_type "line")
    then issues ++ [Issue "suggestion" (keyword_message keyword "a line chart.")]
    else if String.eqb keyword "distribution"
            && negb (String.eqb viz_type "histogram")
            && negb (String.eqb viz_type "density")
    then issues ++ [Issue "suggestion"
                      (keyword_message keyword "a histogram or density plot.")]
    else if String.eqb keyword "correlation"
            && negb (String.eqb viz_type "scatter")
    then issues ++ [Issue "suggestion" (keyword_message keyword "a scatter plot.")]
    else issues
  else issues.

(** [_check_for_issues(requirements, viz_result, data_summary)] *)
Definition _check_for_issues (requirements : string) (viz : viz_result)
    (summary : data_summary) : list issue :=
  let issues := [] in
  let info := default (mkVizInfo None None None) (visualization_info viz) in
  let viz_type := default "" (v_type info) in
  let issues := check_categories "pie" 7 pie_message viz_type info summary issues in
  let issues := check_categories "bar" 15 bar_message viz_type info summary issues in
  let issues := check_scatter viz_type info summary issues in
  fold_left (check_keyword requirements viz_type) important_keywords issues.

(** Lines 105-111: the body of the loop of [_calculate_quality_score]. *)
Definition deduct (score : Q) (i : issue) : Q :=
  if String.eqb (severity i) "error" then (score - 2.0)%Q
  else if String.eqb (severity i) "warning" then (score - 1.0)%Q
  else if String.eqb (severity i) "suggestion" then (score - 0.5)%Q
  else score.

(** [_calculate_quality_score(issues)] *)
Definition _calculate_quality_score (issues : list issue) : Q :=
  Qmax 0 (fold_left deduct issues 10.0%Q).

(** What [review_visualization] returns. *)
Record review : Type := mkReview {
  explanation : string;
  issues : list issue;
  quality_score : Q
}.

(** [review_visualization]; [explain] stands for the text the language
    model returns for [generate_explanation]. *)
Definition review_visualization (explain : string) (requirements : string)
    (viz : viz_result) (summary : data_summary) : review :=
  let issues := _check_for_issues requirements viz summary in
  mkReview explain issues (_calculate_quality_score issues).

(** *** Vocabulary for the properties of the review *)

(** The number of issues of one severity, as a rational. *)
Definition tally (sev : string) (l : list issue) : Q :=
  inject_Z (Z.of_nat (length (List.filter (fun i => String.eqb (severity i) sev) l))).

(** A rule on its own: its issue when it applies, nothing otherwise. *)
Definition rule (applies : bool) (i : issue) : list issue :=
  if applies then [i] else [].

(** The number of distinct values the summary records for the x-axis
    column, when it records any. *)
Definition x_axis_categories (info : viz_info) (summary : data_summary)
    : option nat :=
  match categorical_summary summary with
  | Some cats =>
      match cats !! default "" (v_x_axis info) with
      | Some c => Some (default 0%nat (unique_values c))
      | None => None
      end
  | None => None
  end.

(** A chart of type [chart] with more than [limit] categories on its
    x-axis: a warning. *)
Definition categories_rule (chart : string) (limit : nat) (msg : nat -> string)
    (viz_type : string) (info : viz_info) (summary : data_summary)
    : list issue :=
  match x_axis_categories info summary with
  | Some n =>
      rule (String.eqb viz_type chart && (limit <? n)%nat)
           (Issue "warning" (msg n))
  | None => []
  end.

(** A scatter chart of more than 50 rows without a colour column: a
    suggestion. *)
Definition scatter_rule (viz_type : string) (info : viz_info)
    (summary : data_summary) : list issue :=
  rule (String.eqb viz_type "scatter"
        && (50 <? default 0%nat (row_count summary))%nat
        && negb (DataProcessingAgent.truthy (v_color info)))
       (Issue "suggestion" scatter_message).

(** The requirements mention [keyword] and the chart type is none of
    [fits]: a suggestion. *)
Definition keyword_rule (requirements viz_type keyword : string)
    (fits : list string) (best : string) : list issue :=
  rule (Py.contains keyword (Py.lower requirements)
        && negb (existsb (String.eqb viz_type) fits))
       (Issue "suggestion" (keyword_message keyword best)).

(** The rules of the reviewer, one after the other. *)
Definition issues_by_rule (requirements : string) (viz : viz_result)
    (summary : data_summary) : list issue :=
  let info := default (mkVizInfo None None None) (visualization_info viz) in
  let viz_type := default "" (v_type info) in
  categories_rule "pie" 7 pie_message viz_type info summary ++
  categories_rule "bar" 15 bar_message viz_type info summary ++
  scatter_rule viz_type info summary ++
  keyword_rule requirements viz_type "time" ["line"; "area"]
    "a line chart or area chart." ++
  keyword_rule requirements viz_type "trend" ["line"] "a line chart." ++
  keyword_rule requirements viz_type "distribution" ["histogram"; "density"]
    "a histogram or density plot." ++
  keyword_rule requirements viz_type "correlation" ["scatter"]
    "a scatter plot.".

End QualityAssuranceAgent.


(** ** [agents/orchestrator.py] *)

Module Orchestrator.

(** A file under [data/visualizations/]: a complete dump, or what an
    interrupted [json.dump] left behind. *)
Inductive mirror (A : Type) : Type :=
| Dumped (data : A)
| Truncated.

Arguments Dumped {A} data.
Arguments Truncated {A}.

Section Agents.

(** The JSON-like values passed between the agents, and everything the
    agents read or change themselves: the uploaded files, the knowledge
    base and its file, the language-model service. None of the agents
    touches [visualization_store] or [data/visualizations/]. *)
Variables (json World : Type).

(** What [process_data] returns: the keys the orchestrator reads. *)
Record processed_data : Type := mkProcessed {
  data : json;
  visualization_info : json;
  data_summary : json
}.

(** What [create_visualization] returns: the error dict, or the dict with
    ["viz_id"], ["visualization_html"] and ["visualization_info"]. *)
Inductive visualization : Type :=
| VizError (msg : string)
| Viz (viz_id visualization_html : string) (info : json).

Record qa_result : Type := mkQa {
  explanation : string;
  issues : list QualityAssuranceAgent.issue;
  quality_score : Q
}.

(** The dict [process_request] returns on success. *)
Record result : Type := mkResult {
  r_viz_id : string;
  r_visualization_html : string;
  r_explanation : string;
  r_issues : list QualityAssuranceAgent.issue;
  r_quality_score : Q
}.

(** The dict [process_request] stores. *)
Record stored : Type := mkStored {
  s_result : result;
  s_processed_data : processed_data;
  s_requirements : string;
  s_schema_mappings : json
}.

(** What a request answers: [{"error": message}] or the result. *)
Inductive response : Type :=
| Error (message : string)
| Ok (r : result).

(** The orchestrator: the agents' world, [self.visualization_store] and the
    files of [data/visualizations/] by identifier. *)
Record t : Type := mkOrchestrator {
  world : World;
  visualization_store : gmap string stored;
  files : gmap string (mirror stored)
}.

(** A call into an agent: it may raise, and it may change the world. *)
Definition call (A : Type) : Type := World -> outcome A * World.

Definition ret {A : Type} (a : A) : call A := fun w => (Return a, w).

Definition raise {A : Type} (e : string) : call A := fun w => (Raise e, w).

Definition bind {A B : Type} (c : call A) (k : A -> call B) : call B :=
  fun w =>
    match c w with
    | (Return a, w') => k a w'
    | (Raise e, w') => (Raise e, w')
    end.

Notation "'let*' x ':=' c 'in' k" := (bind c (fun x => k))
  (at level 10, x name, c at level 100, k at level 200).

Variable map_schema : string -> call json.
Variable get_sample_data : string -> call json.
Variable process_data : string -> string -> json -> json -> call processed_data.
Variable create_visualization : json -> json -> call visualization.
Variable review_visualization : string -> visualization -> json -> call qa_result.

(** Whether [open(path, 'w')] succeeds for an identifier, and whether
    [json.dump] can serialise the data. *)
Variable writable : string -> bool.
Variable serializable : stored -> bool.

(** [_store_visualization(viz_id, data)] *)
Definition _store_visualization (viz_id : string) (d : stored) (self : t) : t :=
  let memory := <[viz_id := d]> (visualization_store self) in
  if writable viz_id then
    if serializable d
    then mkOrchestrator (world self) memory (<[viz_id := Dumped d]> (files self))
    else mkOrchestrator (world self) memory (<[viz_id := Truncated]> (files self))
  else mkOrchestrator (world self) memory (files self).

(** [visualization["viz_id"]] and [visualization["visualization_html"]]:
    a [KeyError] on the error dict. *)
Definition viz_fields (v : visualization) : call (string * string) :=
  match v with
  | Viz viz_id html _ => ret (viz_id, html)
  | VizError _ => raise "'viz_id'"
  end.

(** Steps 1 to 6 of [process_request], up to the dict to store. *)
Definition run_stages (filepath requirements : string) : call stored :=
  let* schema_mappings := map_schema filepath in
  let* sample_data := get_sample_data filepath in
  let* processed :=
    process_data filepath requirements schema_mappings sample_data in
  let* visualization :=
    create_visualization (data processed) (visualization_info processed) in
  let* qa :=
    review_visualization requirements visualization (data_summary processed) in
  let* ids := viz_fields visualization in
  ret (mkStored
         (mkResult (fst ids) (snd ids) (explanation qa) (issues qa)
                   (quality_score qa))
         processed requirements schema_mappings).

(** [process_request(filepath, requirements)] *)
Definition process_request (filepath requirements : string) (self : t)
    : response * t :=
  match run_stages filepath requirements (world self) with
  | (Return full, w) =>
      (Ok (s_result full),
       _store_visualization (r_viz_id (s_result full)) full
         (mkOrchestrator w (visualization_store self) (files self)))
  | (Raise e, w) =>
      (Error e, mkOrchestrator w (visualization_store self) (files self))
  end.

(** [get_visualization(viz_id)] *)
Definition get_visualization (viz_id : string) (self : t)
    : (string + stored) * t :=
  match visualization_store self !! viz_id with
  | Some d => (inr d, self)
  | None =>
      match files self !! viz_id with
      | Some (Dumped d) =>
          (inr d, mkOrchestrator (world self)
                    (<[viz_id := d]> (visualization_store self)) (files self))
      | _ => (inl "Visualization not found", self)
      end
  end.

(** The stages of a request, in order. *)
Inductive stage : Type :=
| SchemaMapping | Sampling | Processing | Rendering | Reviewing | Combining.

(** [raises_at s filepath requirements w e]: started in world [w], the
    stages before [s] return and stage [s] raises [e]. *)
Definition raises_at (s : stage) (filepath requirements : string) (w : World)
    (e : string) : Prop :=
  match s with
  | SchemaMapping => ∃ w1, map_schema filepath w = (Raise e, w1)
  | Sampling =>
      ∃ sm w1 w2, map_schema filepath w = (Return sm, w1) ∧
        get_sample_data filepath w1 = (Raise e, w2)
  | Processing =>
      ∃ sm w1 sd w2 w3, map_schema filepath w = (Return sm, w1) ∧
        get_sample_data filepath w1 = (Return sd, w2) ∧
        process_data filepath requirements sm sd w2 = (Raise e, w3)
  | Rendering =>
      ∃ sm w1 sd w2 p w3 w4, map_schema filepath w = (Return sm, w1) ∧
        get_sample_data filepath w1 = (Return sd, w2) ∧
        process_data filepath requirements sm sd w2 = (Return p, w3) ∧
        create_visualization (data p) (visualization_info p) w3 = (Raise e, w4)
  | Reviewing =>
      ∃ sm w1 sd w2 p w3 v w4 w5, map_schema filepath w = (Return sm, w1) ∧
        get_sample_data filepath w1 = (Return sd, w2) ∧
        process_data filepath requirements sm sd w2 = (Return p, w3) ∧
        create_visualization (data p) (visualization_info p) w3 = (Return v, w4) ∧
        review_visualization requirements v (data_summary p) w4 = (Raise e, w5)
  | Combining =>
      ∃ sm w1 sd w2 p w3 m w4 qa w5, map_schema filepath w = (Return sm, w1) ∧
        get_sample_data filepath w1 = (Return sd, w2) ∧
        process_data filepath requirements sm sd w2 = (Return p, w3) ∧
        create_visualization (data p) (visualization_info p) w3
          = (Return (VizError m), w4) ∧
        review_visualization requirements (VizError m) (data_summary p) w4
          = (Return qa, w5) ∧
        e = "'viz_id'"
  end.

End Agents.

Arguments Viz {json} viz_id visualization_html info.
Arguments VizError {json} msg.
Arguments mkProcessed {json} data visualization_info data_summary.
Arguments mkOrchestrator {json World} world visualization_store files.
Arguments world {json World} _.
Arguments visualization_store {json World} _.
Arguments files {json World} _.

(** Stand-ins for the agents, over a world that counts the calls made: the
    uploaded file has an extension [read_file] rejects, so the first stage
    raises. *)
Definition rejecting_map_schema (filepath : string)
    : call nat unit :=
  fun w => (Raise "Unsupported file extension: txt", S w).

Definition idle_agent {A : Type} (a : A) : call nat A :=
  fun w => (Return a, S w).

Definition empty_orchestrator : t unit nat := mkOrchestrator 0%nat ∅ ∅.

End Orchestrator.

(** ** Python dicts with string keys, in insertion order *)

Module PyDict.

Section Dict.

Context {A : Type}.

(** [d[k] = v]: an existing key keeps its place, a new one goes last. *)
Fixpoint set (k : string) (v : A) (d : list (string * A)) : list (string * A) :=
  match d with
  | [] => [(k, v)]
  | (k', v') :: rest =>
      if String.eqb k' k then (k, v) :: rest else (k', v') :: set k v rest
  end.

(** [d.get(k)] *)
Fixpoint get (k : string) (d : list (string * A)) : option A :=
  match d with
  | [] => None
  | (k', v') :: rest => if String.eqb k' k then Some v' else get k rest
  end.

(** [k in d] *)
Definition mem (k : string) (d : list (string * A)) : bool :=
  match get k d with Some _ => true | None => false end.

(** [{k: f(k) for k in keys}] *)
Definition comprehension (f : string -> A) (keys : list string)
    : list (string * A) :=
  fold_left (fun d k => set k (f k) d) keys [].

End Dict.

End PyDict.

(** ** [utils/file_handler.py] *)

Module FileHandler.

Definition ALLOWED_EXTENSIONS : list string := ["csv"; "xls"; "xlsx"].

(** [s.rsplit('.', 1)[1]]: the text after the last dot; [None] stands for
    the [IndexError] of a name without a dot. *)
Fixpoint rsplit_tail (s : string) : option string :=
  match s with
  | EmptyString => None
  | String c rest =>
      match rsplit_tail rest with
      | Some ext => Some ext
      | None => if Ascii.eqb c "." then Some rest else None
      end
  end.

(** [allowed_file(filename)] *)
Definition allowed_file (filename : string) : bool :=
  Py.contains "." filename &&
  match rsplit_tail filename with
  | Some ext => existsb (String.eqb (Py.lower ext)) ALLOWED_EXTENSIONS
  | None => false
  end.

Section Readers.

(** [pd.read_csv] and [pd.read_excel] *)
Variable read_csv read_excel : string -> outcome DataProcessingAgent.DataFrame.

(** [read_file(filepath)] *)
Definition read_file (filepath : string)
    : outcome DataProcessingAgent.DataFrame :=
  match rsplit_tail filepath with
  | None => Raise "list index out of range"
  | Some ext =>
      let file_ext := Py.lower ext in
      if String.eqb file_ext "csv" then read_csv filepath
      else if existsb (String.eqb file_ext) ["xls"; "xlsx"]
      then read_excel filepath
      else Raise ("Unsupported file extension: " ++ file_ext)%string
  end.

(** [get_file_headers(filepath)] *)
Definition get_file_headers (filepath : string) : outcome (list string) :=
  match read_file filepath with
  | Return df => Return (map fst (DataProcessingAgent.columns df))
  | Raise e => Raise e
  end.

End Readers.

End FileHandler.

(** ** [agents/data_processing.py]: vocabulary for further properties *)

Module DataProcessingTerms.

Import DataProcessingAgent.

(** The operation strings of [_apply_filters] that compare with a scalar. *)
Definition comparison_named (operation : string) : option comparison_op :=
  if String.eqb operation "==" then Some OpEq
  else if String.eqb operation "!=" then Some OpNe
  else if String.eqb operation ">" then Some OpGt
  else if String.eqb operation ">=" then Some OpGe
  else if String.eqb operation "<" then Some OpLt
  else if String.eqb operation "<=" then Some OpLe
  else None.

(** The operation strings [_apply_filters] has a branch for. *)
Definition known_operations : list string :=
  ["=="; "!="; ">"; ">="; "<"; "<="; "in"; "contains"].

(** Stand-ins for pandas' grouping that raise. *)
Definition failing_size (df : DataFrame) (groupby_cols : list string)
    : outcome DataFrame := Raise "KeyError".

Definition failing_agg (df : DataFrame) (groupby_cols : list string)
    (agg_column agg_method : string) : outcome DataFrame := Raise "KeyError".

End DataProcessingTerms.

(** ** [agents/visualization.py] *)

Module VisualizationAgent.

Import DataProcessingAgent.

(** The keys of [visualization_info] the chart reads; [None] is a missing
    key. *)
Record chart_info : Type := mkChartInfo {
  c_type : option string;
  c_x_axis : option string;
  c_y_axis : option string;
  c_color : option string;
  c_title : option string
}.

(** The Altair marks of the five [_create_*_chart] methods. *)
Inductive mark : Type := Bar | Line | Circle | Arc | Area.

(** What a [_create_*_chart] method encodes. *)
Record chart : Type := mkChart {
  ch_mark : mark;
  ch_x : string;
  ch_y : string;
  ch_color : option string;
  ch_title : string
}.

Definition dq : string := String (ascii_of_nat 34) EmptyString.

Definition nl : string := String (ascii_of_nat 10) EmptyString.

(** The HTML returned when building the chart raises [e]. *)
Definition error_fragment (e : string) : string :=
  (nl ++ "            <div style=" ++ dq ++
   "color: red; padding: 20px; border: 1px solid #ddd; text-align: center;"
   ++ dq ++ ">" ++ nl ++
   "                <h3>Error Generating Visualization</h3>" ++ nl ++
   "                <p>" ++ e ++ "</p>" ++ nl ++
   "            </div>" ++ nl ++
   "            ")%string.

(** The dispatch on [chart_type] (lines 66-78). *)
Definition mark_of (chart_type : string) : mark :=
  if String.eqb chart_type "bar" then Bar
  else if String.eqb chart_type "line" then Line
  else if String.eqb chart_type "scatter" then Circle
  else if String.eqb chart_type "pie" then Arc
  else if String.eqb chart_type "area" then Area
  else Bar.

Section Charts.

(** [pd.api.types.is_numeric_dtype(df[col])] *)
Variable is_numeric_dtype : DataFrame -> string -> bool.
(** Building the Altair chart and [chart.to_html()]. *)
Variable to_html : DataFrame -> chart -> outcome string.

(** Lines 47-48. *)
Definition default_x (df : DataFrame) (x_axis : string) : string :=
  let names := map fst (columns df) in
  if negb (nonempty x_axis) && index_any names
  then default "" (head names)
  else x_axis.

(** Lines 49-55. *)
Definition default_y (df : DataFrame) (x_axis y_axis : string) : string :=
  let names := map fst (columns df) in
  if negb (nonempty y_axis) && (1 <? length names)%nat then
    let y_axis :=
      match List.find (fun col => negb (String.eqb col x_axis)
                                  && is_numeric_dtype df col) names with
      | Some col => col
      | None => y_axis
      end in
    if negb (nonempty y_axis) && (1 <? length names)%nat
    then nth 1 names ""
    else y_axis
  else y_axis.

(** The chart the [try] block builds. *)
Definition chart_of (df : DataFrame) (info : chart_info) : chart :=
  let chart_type := Py.lower (default "bar" (c_type info)) in
  let x_axis := default_x df (default "" (c_x_axis info)) in
  let y_axis := default_y df x_axis (default "" (c_y_axis info)) in
  let title := default "Data Visualization" (c_title info) in
  let m := mark_of chart_type in
  let color :=
    match m with
    | Arc => None
    | _ => if truthy (c_color info) then c_color info else None
    end in
  mkChart m x_axis y_axis color title.

(** [_generate_altair_chart(df, viz_info)] *)
Definition _generate_altair_chart (df : DataFrame) (info : chart_info)
    : string :=
  match to_html df (chart_of df info) with
  | Return chart_html => chart_html
  | Raise e => error_fragment e
  end.

End Charts.

(** Python truth value of a JSON value. *)
Definition value_truthy (v : value) : bool :=
  match v with
  | VNone => false
  | VBool b => b
  | VNum q => negb (Qeq_bool q 0)
  | VStr s => nonempty s
  | VList l => match l with [] => false | _ => true end
  | VDict d => match d with [] => false | _ => true end
  end.

Section Create.

Variable World : Type.
(** [pd.DataFrame(data)] and [_generate_altair_chart] on JSON values. *)
Variable generate_chart : value -> value -> Orchestrator.call World string.
(** [str(uuid.uuid4())] *)
Variable uuid4 : Orchestrator.call World string.

(** [create_visualization(data, visualization_info)] *)
Definition create_visualization (data visualization_info : value)
    : Orchestrator.call World (Orchestrator.visualization value) :=
  if negb (value_truthy data) || negb (value_truthy visualization_info)
  then Orchestrator.ret World
         (Orchestrator.VizError "Insufficient data or visualization information")
  else
    Orchestrator.bind World (generate_chart data visualization_info)
      (fun chart_html =>
         Orchestrator.bind World uuid4
           (fun viz_id =>
              Orchestrator.ret World
                (Orchestrator.Viz viz_id chart_html visualization_info))).

End Create.

End VisualizationAgent.

(** ** [models/llama_interface.py] *)

Module LlamaInterface.

(** [s.find(c)] for a one-character [c]: the first index, or -1. *)
Fixpoint find (c : ascii) (s : string) : Z :=
  match s with
  | EmptyString => (-1)%Z
  | String a rest =>
      if Ascii.eqb a c then 0%Z
      else let i := find c rest in if (i <? 0)%Z then (-1)%Z else (i + 1)%Z
  end.

(** [s.rfind(c)]: the last index, or -1. *)
Fixpoint rfind (c : ascii) (s : string) : Z :=
  match s with
  | EmptyString => (-1)%Z
  | String a rest =>
      let i := rfind c rest in
      if (0 <=? i)%Z then (i + 1)%Z
      else if Ascii.eqb a c then 0%Z else (-1)%Z
  end.

(** [s[a:b]] for [0 <= a <= b]. *)
Definition slice (s : string) (a b : Z) : string :=
  String.substring (Z.to_nat a) (Z.to_nat (b - a)) s.

(** The text handed to [json.loads]; [None] is the [else] branch. *)
Definition json_span (response : string) : option string :=
  let start_idx := find "{" response in
  let end_idx := (rfind "}" response + 1)%Z in
  if (0 <=? start_idx)%Z && (start_idx <? end_idx)%Z
  then Some (slice response start_idx end_idx)
  else None.

(** [{col: col.replace('_', ' ').title() for col in columns}] *)
Definition fallback_mapping (columns : list string) : list (string * string) :=
  PyDict.comprehension KnowledgeBase.humanize columns.

(** What [interpret_requirements] returns: the transformations and the
    ["visualization"] entry. *)
Record interpretation : Type := mkInterpretation {
  transformations : DataProcessingAgent.instructions;
  visualization : option VisualizationAgent.chart_info
}.

(** The dict returned when the response cannot be parsed (lines 123-128). *)
Definition default_interpretation : interpretation :=
  mkInterpretation
    (DataProcessingAgent.mkInstructions (Some []) (Some [])
       (Some (DataProcessingAgent.mkAggregation (Some "sum") (Some ""))))
    (Some (VisualizationAgent.mkChartInfo (Some "bar") (Some "") (Some "")
             None (Some "Data Visualization"))).

Section Json.

(** [json.loads] on the span, read as a mapping and as instructions;
    [None] is a [JSONDecodeError]. *)
Variable loads_mapping : string -> option (list (string * string)).
Variable loads_interpretation : string -> option interpretation.

(** [schema_mapping(columns)], given the [response] of [self.generate]. *)
Definition schema_mapping (response : string) (columns : list string)
    : list (string * string) :=
  match json_span response with
  | Some json_str =>
      match loads_mapping json_str with
      | Some d => d
      | None => fallback_mapping columns
      end
  | None => fallback_mapping columns
  end.

(** [interpret_requirements(...)], given the [response] of
    [self.generate]. *)
Definition interpret_requirements (response : string) : interpretation :=
  match json_span response with
  | Some json_str =>
      match loads_interpretation json_str with
      | Some i => i
      | None => default_interpretation
      end
  | None => default_interpretation
  end.

End Json.

(** *** Vocabulary for the properties of the extraction *)

(** The character occurs in the string. *)
Fixpoint occurs (c : ascii) (s : string) : bool :=
  match s with
  | EmptyString => false
  | String a rest => Ascii.eqb a c || occurs c rest
  end.

(** A parser that accepts nothing. *)
Definition loads_nothing {A : Type} (json_str : string) : option A := None.

End LlamaInterface.

(** ** [agents/schema_mapping.py] *)

Module SchemaMapperAgent.

Section Agent.

(** [get_file_headers] of [utils/file_handler.py], and
    [self.llm.schema_mapping]. *)
Variable get_file_headers : string -> outcome (list string).
Variable llm_schema_mapping : list string -> list (string * string).

(** [_check_knowledge_base(columns)]: the loop, from the dict built so
    far. *)
Fixpoint _check_knowledge_base (columns : list string)
    (mappings : list (string * string)) (kb : KnowledgeBase.t)
    : outcome (list (string * string)) * KnowledgeBase.t :=
  match columns with
  | [] => (Return mappings, kb)
  | column :: rest =>
      match KnowledgeBase.get_mapping column kb with
      | (Return label, kb') =>
          _check_knowledge_base rest (PyDict.set column label mappings) kb'
      | (Raise e, kb') => (Raise e, kb')
      end
  end.

(** Line 38: the columns whose label is the humanized name. *)
Definition columns_for_llm (columns : list string)
    (kb_mappings : list (string * string)) : list string :=
  List.filter
    (fun col => match PyDict.get col kb_mappings with
                | Some label => String.eqb label (KnowledgeBase.humanize col)
                | None => false
                end)
    columns.

(** Lines 44-46: the language model's labels, for the columns of the file
    only. *)
Definition update_mappings (kb_mappings llm_mappings : list (string * string))
    : list (string * string) :=
  fold_left
    (fun d item => if PyDict.mem (fst item) d
                   then PyDict.set (fst item) (snd item) d else d)
    llm_mappings kb_mappings.

(** [map_schema(filepath)]: the result and the knowledge base afterwards. *)
Definition map_schema (filepath : string) (kb : KnowledgeBase.t)
    : outcome (list (string * string)) * KnowledgeBase.t :=
  match get_file_headers filepath with
  | Raise e => (Raise e, kb)
  | Return columns =>
      match _check_knowledge_base columns [] kb with
      | (Raise e, kb') => (Raise e, kb')
      | (Return kb_mappings, kb') =>
          match columns_for_llm columns kb_mappings with
          | [] => (Return kb_mappings, kb')
          | asked =>
              let llm_mappings := llm_schema_mapping asked in
              (Return (update_mappings kb_mappings llm_mappings),
               KnowledgeBase.add_mappings llm_mappings
                 KnowledgeBase.default_confidence kb')
          end
      end
  end.

End Agent.

(** *** Vocabulary for the properties of [map_schema] *)

(** The label [get_mapping] returns for [column] (the empty string when it
    raises). *)
Definition label_of (kb : KnowledgeBase.t) (column : string) : string :=
  match fst (KnowledgeBase.get_mapping column kb) with
  | Return label => label
  | Raise _ => ""
  end.

(** The columns the knowledge base has no label of its own for. *)
Definition unresolved (kb : KnowledgeBase.t) (columns : list string)
    : list string :=
  List.filter
    (fun col => String.eqb (label_of kb col) (KnowledgeBase.humanize col))
    columns.

(** A file with two columns, and a language model that knows one of them. *)
Definition orders_headers (filepath : string) : outcome (list string) :=
  Return ["cust_id"; "order_amt"].

Definition knows_customer (columns : list string) : list (string * string) :=
  [("cust_id", "Customer")].

Definition knows_nothing (columns : list string) : list (string * string) :=
  LlamaInterface.fallback_mapping columns.

End SchemaMapperAgent.

(** ** [agents/orchestrator.py]: the queries *)

Module ResultStore.

Import Orchestrator.

Section Queries.

Variables (json World : Type).
Variable map_schema : string -> call World json.
Variable get_sample_data : string -> call World json.
(** [self.visualizer.get_downloadable_html] *)
Variable visualizer_html : string -> stored json -> string.

(** [process_file(filepath)]: what it returns or raises, and the
    orchestrator afterwards. *)
Definition process_file (filepath : string) (self : t json World)
    : outcome (string * json * json) * t json World :=
  match bind World (map_schema filepath)
          (fun schema_mappings =>
             bind World (get_sample_data filepath)
               (fun sample_data =>
                  ret World (filepath, schema_mappings, sample_data)))
          (world self) with
  | (r, w) => (r, mkOrchestrator w (visualization_store self) (files self))
  end.

Definition error_document (message : string) : string :=
  ("<html><body><h1>Error</h1><p>" ++ message ++ "</p></body></html>")%string.

(** [get_downloadable_html(viz_id)] *)
Definition get_downloadable_html (viz_id : string) (self : t json World)
    : string * t json World :=
  match get_visualization json World viz_id self with
  | (inl message, self') => (error_document message, self')
  | (inr viz_data, self') => (visualizer_html viz_id viz_data, self')
  end.

(** A new process over the same files: the in-memory store starts empty. *)
Definition restart (self : t json World) : t json World :=
  mkOrchestrator (world self) ∅ (files self).

End Queries.

End ResultStore.

(** ** Concrete inputs for the further properties *)

Module Samples.

Import KnowledgeBase DataProcessingAgent.

(** A store that knows both columns of the orders file. *)
Definition trained : KnowledgeBase.t :=
  add_mappings [("cust_id", "Customer"); ("order_amt", "Amount")]
    default_confidence (KB ∅ Missing).

(** Agents of a request that goes through: the world counts the calls. *)
Definition schema_agent (filepath : string) : Orchestrator.call nat unit :=
  Orchestrator.idle_agent tt.

Definition processing_agent (filepath requirements : string) (sm sd : unit)
    : Orchestrator.call nat (Orchestrator.processed_data unit) :=
  Orchestrator.idle_agent (Orchestrator.mkProcessed tt tt tt).

Definition drawing_agent (data info : unit)
    : Orchestrator.call nat (Orchestrator.visualization unit) :=
  Orchestrator.idle_agent (Orchestrator.Viz "viz-1" "<div></div>" tt).

Definition reviewing_agent (requirements : string)
    (v : Orchestrator.visualization unit) (summary : unit)
    : Orchestrator.call nat Orchestrator.qa_result :=
  Orchestrator.idle_agent (Orchestrator.mkQa "A bar chart." [] 10).

Definition drawn_result : Orchestrator.stored unit :=
  Orchestrator.mkStored unit
    (Orchestrator.mkResult "viz-1" "<div></div>" "A bar chart." [] 10)
    (Orchestrator.mkProcessed tt tt tt) "show me a bar chart" tt.

(** Agents over JSON values whose processing step returns no rows. *)
Definition value_agent (filepath : string) : Orchestrator.call nat value :=
  Orchestrator.idle_agent VNone.

Definition emptying_agent (filepath requirements : string) (sm sd : value)
    : Orchestrator.call nat (Orchestrator.processed_data value) :=
  Orchestrator.idle_agent
    (Orchestrator.mkProcessed (VList []) (VDict [("type", VStr "bar")]) VNone).

Definition value_reviewing_agent (requirements : string)
    (v : Orchestrator.visualization value) (summary : value)
    : Orchestrator.call nat Orchestrator.qa_result :=
  Orchestrator.idle_agent (Orchestrator.mkQa "" [] 10).

Definition chart_agent (data info : value) : Orchestrator.call nat string :=
  Orchestrator.idle_agent "<div></div>".

Definition uuid_agent : Orchestrator.call nat string :=
  Orchestrator.idle_agent "viz-1".

Definition empty_value_orchestrator : Orchestrator.t value nat :=
  Orchestrator.mkOrchestrator 0%nat ∅ ∅.

End Samples.

(** * Properties *)

(** ** Binary64 arithmetic *)

Section Float64Facts.

Import Float64.

Lemma pow2_pos e : (0 < pow2 e)%Q.
Proof.
  unfold pow2. destruct (0 <=? e)%Z eqn:E.
  - apply Z.leb_le in E. change 0%Q with (inject_Z 0). rewrite <- Zlt_Qlt.
    by apply Z.pow_pos_nonneg.
  - apply Z.leb_gt in E. apply Qinv_lt_0_compat.
    change 0%Q with (inject_Z 0). rewrite <- Zlt_Qlt.
    apply Z.pow_pos_nonneg; lia.
Qed.

Lemma pow2_small e : (e <= -52)%Z -> (pow2 e <= 2 * half_ulp)%Q.
Proof.
  intros He. unfold pow2. destruct (0 <=? e)%Z eqn:E.
  - apply Z.leb_le in E. lia.
  - apply Qle_shift_inv_r.
    + change 0%Q with (inject_Z 0). rewrite <- Zlt_Qlt.
      apply Z.pow_pos_nonneg; lia.
    + assert (2 ^ 52 <= 2 ^ (- e))%Z as H by (apply Z.pow_le_mono_r; lia).
      rewrite Zle_Qle in H. revert H.
      generalize (inject_Z (2 ^ (- e))). intros x H.
      change (inject_Z (2 ^ 52)) with (4503599627370496%Q) in H.
      unfold half_ulp. lra.
Qed.

Lemma nearest_even_error x :
  (x - (1 # 2) <= inject_Z (nearest_even x))%Q ∧
  (inject_Z (nearest_even x) <= x + (1 # 2))%Q.
Proof.
  unfold nearest_even.
  pose proof (Qfloor_le x) as Hlo. pose proof (Qlt_floor x) as Hhi.
  rewrite inject_Z_plus in Hhi. change (inject_Z 1) with 1%Q in Hhi.
  assert (∀ z, inject_Z (z + 1) == inject_Z z + 1)%Q as Hplus
    by (intros z; by rewrite inject_Z_plus).
  destruct (Qcompare_spec (x - inject_Z (Qfloor x)) (1 # 2)) as [H|H|H].
  - destruct (Z.even (Qfloor x)); rewrite ?Hplus; lra.
  - lra.
  - rewrite Hplus. lra.
Qed.

Lemma magnitude_small q : (- 2 < q)%Q -> (q < 2)%Q -> (magnitude q <= 0)%Z.
Proof.
  intros Hlo Hhi. unfold magnitude.
  set (n := Z.abs (Qnum q)). set (d := Zpos (Qden q)).
  assert (n < 2 * d)%Z as Hn.
  { unfold Qlt in Hlo, Hhi. simpl in Hlo, Hhi. subst n d. lia. }
  assert (Z.log2 n <= Z.log2 d + 1)%Z as Hlog.
  { etransitivity; [apply (Z.log2_le_mono n (2 * d)); lia|].
    rewrite Z.log2_double by (subst d; lia). lia. }
  destruct (Qle_bool _ _) eqn:E; [|lia].
  apply Qle_bool_iff in E.
  destruct (decide (Z.log2 n - Z.log2 d = 1)%Z) as [H1|]; [|lia].
  rewrite H1 in E. change (pow2 1) with 2%Q in E.
  assert (Qabs q < 2)%Q by (apply Qabs_Qlt_condition; split; lra). lra.
Qed.

(** Between -2 and 2 rounding moves a number by at most [2 ** -53]. *)
Lemma round_error q : (- 2 < q)%Q -> (q < 2)%Q -> near half_ulp q (round q).
Proof.
  intros Hlo Hhi. unfold near, round.
  destruct (Qeq_bool q 0) eqn:E.
  - apply Qeq_bool_eq in E. unfold half_ulp. lra.
  - rewrite Qred_correct. set (u := ulp_exponent q).
    assert (u <= -52)%Z as Hu.
    { subst u. unfold ulp_exponent.
      pose proof (magnitude_small q Hlo Hhi). lia. }
    pose proof (pow2_pos u) as Hp. pose proof (pow2_small u Hu) as Hs.
    destruct (nearest_even_error (q / pow2 u)) as [H1 H2].
    assert (q / pow2 u * pow2 u == q)%Q as Hq by (field; lra).
    apply (Qmult_le_compat_r _ _ (pow2 u)) in H1; [|lra].
    apply (Qmult_le_compat_r _ _ (pow2 u)) in H2; [|lra].
    revert H1 H2 Hq Hs Hp.
    generalize (inject_Z (nearest_even (q / pow2 u))) (q / pow2 u)%Q (pow2 u).
    intros i a p H1 H2 Hq Hs Hp. split; nra.
Qed.

(** The literals of the knowledge base, as binary64 values. *)
Lemma float_0_05 : (float 0.05 == 3602879701896397 # 72057594037927936)%Q.
Proof. by vm_compute. Qed.

Lemma float_0_1 : (float 0.1 == 3602879701896397 # 36028797018963968)%Q.
Proof. by vm_compute. Qed.

Lemma float_0_4 : (float 0.4 == 3602879701896397 # 9007199254740992)%Q.
Proof. by vm_compute. Qed.

Lemma float_0_6 : (float 0.6 == 5404319552844595 # 9007199254740992)%Q.
Proof. by vm_compute. Qed.

Lemma float_0_8 : (float 0.8 == 3602879701896397 # 4503599627370496)%Q.
Proof. by vm_compute. Qed.

(** Sums and differences of them, with the value Python prints. *)
Example sum_0_8_0_05 :  (* 0.8500000000000001 *)
  (add (float 0.8) (float 0.05) == 1914029841632461 # 2251799813685248)%Q.
Proof. by vm_compute. Qed.

Example difference_0_8_0_1 :  (* 0.7000000000000001 *)
  (sub (float 0.8) (float 0.1) == 6305039478318695 # 9007199254740992)%Q.
Proof. by vm_compute. Qed.

Example sum_0_6_0_1_0_1 :  (* 0.7999999999999999, below 0.8 *)
  (add (add (float 0.6) (float 0.1)) (float 0.1)
   == 7205759403792793 # 9007199254740992)%Q ∧
  (add (add (float 0.6) (float 0.1)) (float 0.1) < float 0.8)%Q.
Proof. split; by vm_compute. Qed.

Example difference_0_1_0_1 : (sub (float 0.1) (float 0.1) == 0)%Q.
Proof. by vm_compute. Qed.

(** Decimal operands stand for their literals. *)
Example sum_of_decimals :
  (add 0.8 0.05 == add (float 0.8) (float 0.05))%Q ∧
  (add 0.1 0.2 == 1351079888211149 # 4503599627370496)%Q.  (* 0.30000000000000004 *)
Proof. split; by vm_compute. Qed.

(** Rounding leaves them as they are. *)
Lemma round_float_0_05 : (round (float 0.05) == float 0.05)%Q.
Proof. by vm_compute. Qed.

Lemma round_float_0_1 : (round (float 0.1) == float 0.1)%Q.
Proof. by vm_compute. Qed.

(** Adding or subtracting one of these literals, within the range of a
    confidence, gives the decimal result up to [2 ** -51]. *)
Lemma add_0_05_near c : (0 <= c)%Q -> (c <= 1)%Q ->
  near slack (c + 0.05) (add c (float 0.05)).
Proof.
  intros H0 H1. pose proof float_0_05 as Hf. pose proof round_float_0_05 as Hr.
  destruct (round_error c) as [Hc Hc']; [lra..|]. unfold half_ulp in *.
  destruct (round_error (round c + round (float 0.05))) as [Ha Hb]; [lra..|].
  unfold near, add, slack, half_ulp in *. lra.
Qed.

Lemma add_0_1_near c : (0 <= c)%Q -> (c <= 1)%Q ->
  near slack (c + 0.1) (add c (float 0.1)).
Proof.
  intros H0 H1. pose proof float_0_1 as Hf. pose proof round_float_0_1 as Hr.
  destruct (round_error c) as [Hc Hc']; [lra..|]. unfold half_ulp in *.
  destruct (round_error (round c + round (float 0.1))) as [Ha Hb]; [lra..|].
  unfold near, add, slack, half_ulp in *. lra.
Qed.

Lemma sub_0_1_near c : (0 <= c)%Q -> (c <= 1)%Q ->
  near slack (c - 0.1) (sub c (float 0.1)).
Proof.
  intros H0 H1. pose proof float_0_1 as Hf. pose proof round_float_0_1 as Hr.
  destruct (round_error c) as [Hc Hc']; [lra..|]. unfold half_ulp in *.
  destruct (round_error (round c - round (float 0.1))) as [Ha Hb]; [lra..|].
  unfold near, sub, slack, half_ulp in *. lra.
Qed.

End Float64Facts.

(** ** The knowledge base *)

Section KnowledgeBaseFacts.

Import KnowledgeBase.

Implicit Types (l : list mapping) (m : mapping) (st : store) (self : t).

(** [simpl] exposes the instance behind [alter]; fold it back. *)
Ltac fold_alter :=
  repeat match goal with
         | |- context [list_alter ?u ?i ?l] =>
             change (list_alter u i l) with (alter u i l)
         end.

Lemma update_first_alter (u : mapping -> mapping) business l :
  update_first u business l = (fun i => alter u i l) <$> first_match business l.
Proof.
  induction l as [|m l IH]; simpl; [done|].
  destruct (same_entity m business); [done|].
  rewrite IH. by destruct (first_match business l).
Qed.

Lemma first_match_Some business l i :
  first_match business l = Some i ->
  ∃ m, l !! i = Some m ∧ same_entity m business = true ∧
       ∀ j m', (j < i)%nat -> l !! j = Some m' -> same_entity m' business = false.
Proof.
  revert i. induction l as [|m l IH]; intros i; simpl; [done|].
  destruct (same_entity m business) eqn:E.
  - intros [= <-]. exists m. split_and!; [done..|]. intros; lia.
  - destruct (first_match business l) as [k|]; simpl; [|done].
    intros [= <-]. destruct (IH k eq_refl) as (m0 & ? & ? & Hlt).
    exists m0. split_and!; [done..|].
    intros [|j] m' Hj; simpl; [by intros [= <-]|].
    apply Hlt. lia.
Qed.

Lemma first_match_None business l :
  first_match business l = None ->
  Forall (fun m => same_entity m business = false) l.
Proof.
  induction l as [|m l IH]; simpl; [by constructor|].
  destruct (same_entity m business) eqn:E; [done|].
  destruct (first_match business l); [done|].
  intros _. constructor; auto.
Qed.

(** An update that keeps the label keeps the position of the first match. *)
Lemma first_match_alter (u : mapping -> mapping) business l i :
  (∀ m, business_entity (u m) = business_entity m) ->
  first_match business (alter u i l) = first_match business l.
Proof.
  intros Hu. revert i.
  induction l as [|m l IH]; intros [|i]; simpl; fold_alter; try done.
  - unfold same_entity. by rewrite Hu.
  - by rewrite IH.
Qed.

Lemma labels_alter (u : mapping -> mapping) l i :
  (∀ m, business_entity (u m) = business_entity m) ->
  map (fun m => Py.lower (business_entity m)) (alter u i l)
  = map (fun m => Py.lower (business_entity m)) l.
Proof.
  intros Hu. revert i.
  induction l as [|m l IH]; intros [|i]; simpl; fold_alter; try done.
  - by rewrite Hu.
  - by rewrite IH.
Qed.

(** What one merged pair does to the store. *)
Lemma add_mapping_lookup confidence st technical business :
  add_mapping confidence st (technical, business) !! technical =
  Some match st !! technical with
       | None => [Mapping business confidence 1]
       | Some l =>
           match first_match business l with
           | Some i => alter reinforce i l
           | None => l ++ [Mapping business confidence 1]
           end
       end.
Proof.
  unfold add_mapping. destruct (st !! technical) as [l|] eqn:E.
  - rewrite update_first_alter.
    destruct (first_match business l); simpl; by rewrite lookup_insert_eq.
  - by rewrite lookup_insert_eq.
Qed.

Lemma add_mapping_lookup_ne confidence st technical business other :
  technical ≠ other ->
  add_mapping confidence st (technical, business) !! other = st !! other.
Proof.
  intros Hne. unfold add_mapping. destruct (st !! technical) as [l|].
  - destruct (update_first reinforce business l); by rewrite lookup_insert_ne.
  - by rewrite lookup_insert_ne.
Qed.

Lemma mappings_add_mappings items confidence self :
  mappings (add_mappings items confidence self)
  = fold_left (add_mapping confidence) items (mappings self).
Proof. done. Qed.

(** *** Merging *)

Lemma Qmin_cap_step (c c' q q' : Q) :
  (q' == q + 1)%Q -> (c <= 1)%Q -> (0 <= q)%Q ->
  (c' == Qmin 1 (c + q * 0.05))%Q ->
  (Qmin 1 (c' + 0.05) == Qmin 1 (c + q' * 0.05))%Q.
Proof.
  intros Hq Hc Hq0 Hc'.
  destruct (Q.min_spec 1 (c + q * 0.05)) as [[? E1]|[? E1]];
  destruct (Q.min_spec 1 (c' + 0.05)) as [[? E2]|[? E2]];
  destruct (Q.min_spec 1 (c + q' * 0.05)) as [[? E3]|[? E3]];
  rewrite ?E2, ?E3; rewrite E1 in Hc'; lra.
Qed.

Lemma inject_nat_succ (n : nat) :
  (inject_Z (Z.of_nat (S n)) == inject_Z (Z.of_nat n) + 1)%Q.
Proof. rewrite Nat2Z.inj_succ. unfold Z.succ. by rewrite inject_Z_plus. Qed.

Lemma inject_nat_nonneg (n : nat) : (0 <= inject_Z (Z.of_nat n))%Q.
Proof. change 0%Q with (inject_Z 0). rewrite <- Zle_Qle. lia. Qed.

(** One repeat, on a confidence of the range: it stays in the range, does
    not go down, goes up below the cap, and is the decimal
    [min(1, c + 0.05)] up to [2 ** -51]. *)
Lemma raised_bounds (c : Q) : (0 <= c)%Q -> (c <= 1)%Q ->
  (c <= raised c)%Q ∧ (raised c <= 1)%Q ∧
  ((c < 1)%Q -> (c < raised c)%Q) ∧
  Float64.near Float64.slack (Qmin 1 (c + 0.05)) (raised c).
Proof.
  intros H0 H1. destruct (add_0_05_near c H0 H1) as [Ha Hb].
  unfold raised, Float64.near, Float64.slack in *.
  destruct (Q.min_spec 1 (Float64.add c (Float64.float 0.05)))
    as [[? E]|[? E]];
  destruct (Q.min_spec 1 (c + 0.05)) as [[? E']|[? E']];
  rewrite E, E'; split_and!; lra.
Qed.

Lemma reinforce_le m : in_range m ->
  (confidence m <= confidence (reinforce m))%Q ∧ in_range (reinforce m).
Proof.
  intros [H0 H1]. destruct (raised_bounds (confidence m) H0 H1) as (? & ? & _).
  unfold in_range. change (confidence (reinforce m)) with (raised (confidence m)).
  split_and!; lra.
Qed.

(** [n] repeats. *)
Lemma iter_raised_bounds (n : nat) (c : Q) : (0 <= c)%Q -> (c <= 1)%Q ->
  (c <= Nat.iter n raised c)%Q ∧ (Nat.iter n raised c <= 1)%Q ∧
  ((0 < n)%nat -> (c < 1)%Q -> (c < Nat.iter n raised c)%Q) ∧
  Float64.near (inject_Z (Z.of_nat n) * Float64.slack)
    (Qmin 1 (c + inject_Z (Z.of_nat n) * 0.05)) (Nat.iter n raised c).
Proof.
  intros H0 H1. induction n as [|n (IHle & IHcap & _ & IHa & IHb)].
  - simpl. split_and!; [lra|lra|lia|]. unfold Float64.near.
    change (inject_Z (Z.of_nat 0)) with 0%Q.
    destruct (Q.min_spec 1 (c + 0 * 0.05)) as [[? E]|[? E]]; rewrite E; lra.
  - change (Nat.iter (S n) raised c) with (raised (Nat.iter n raised c)).
    set (x := Nat.iter n raised c) in *. clearbody x.
    assert (0 <= x)%Q as Hx0 by lra.
    destruct (raised_bounds x Hx0 IHcap) as (Hle & Hcap & Hlt & Ha & Hb).
    pose proof (inject_nat_succ n) as Hs. pose proof (inject_nat_nonneg n) as Hn.
    pose proof (Qmin_cap_step c (Qmin 1 (c + inject_Z (Z.of_nat n) * 0.05))
                  _ _ Hs H1 Hn (Qeq_refl _)) as Hstep.
    split_and!; [lra|lra| |].
    + intros _ Hc. destruct (Qlt_le_dec x 1) as [Hx|Hx]; [specialize (Hlt Hx); lra|].
      assert (x == 1)%Q as Hx1 by lra.
      unfold raised in *. 
      destruct (add_0_05_near x Hx0 IHcap) as [Hadd _].
      unfold Float64.slack in Hadd.
      destruct (Q.min_spec 1 (Float64.add x (Float64.float 0.05)))
        as [[? E]|[? E]]; rewrite E; lra.
    + unfold Float64.near, Float64.slack in *. clear Hn.
      revert Hstep IHa IHb Ha Hb Hs.
      generalize (Qmin 1 (c + inject_Z (Z.of_nat (S n)) * 0.05)).
      generalize (Qmin 1 (c + inject_Z (Z.of_nat n) * 0.05)).
      generalize (inject_Z (Z.of_nat (S n))) (inject_Z (Z.of_nat n)).
      intros q' q y z Hstep IHa IHb Ha Hb Hs.
      destruct (Q.min_spec 1 (x + 0.05)) as [[? E]|[? E]]; rewrite E in Ha, Hb;
      destruct (Q.min_spec 1 (y + 0.05)) as [[? E']|[? E']]; rewrite E' in Hstep;
      lra.
Qed.

(** One more merge of a pair that already has a candidate. *)
Lemma merge_existing technical business conf self l i :
  mappings self !! technical = Some l ->
  first_match business l = Some i ->
  mappings (add_mappings [(technical, business)] conf self) !! technical
  = Some (alter reinforce i l).
Proof.
  intros Hl Hi. rewrite mappings_add_mappings. cbn [fold_left].
  by rewrite add_mapping_lookup, Hl, Hi.
Qed.

(** [n] more merges of a pair that already has a candidate. *)
Lemma merge_repeated technical business conf (n : nat) self l i m :
  mappings self !! technical = Some l ->
  first_match business l = Some i ->
  l !! i = Some m ->
  ∃ l' m',
    mappings (Nat.iter n (add_mappings [(technical, business)] conf) self)
      !! technical = Some l' ∧
    first_match business l' = Some i ∧
    l' !! i = Some m' ∧
    length l' = length l ∧
    (∀ j, j ≠ i -> l' !! j = l !! j) ∧
    business_entity m' = business_entity m ∧
    count m' = (count m + n)%nat ∧
    confidence m' = Nat.iter n raised (confidence m).
Proof.
  intros Hl Hi Hm. induction n as [|n IH].
  - exists l, m. simpl. split_and!; try done; try lia.
  - destruct IH as (l' & m' & Hl' & Hi' & Hm' & Hlen & Hother & Hb & Hn & Hq).
    exists (alter reinforce i l'), (reinforce m'). simpl Nat.iter.
    split_and!.
    + by apply merge_existing.
    + by rewrite first_match_alter.
    + by rewrite list_lookup_alter_eq, Hm'.
    + by rewrite length_alter.
    + intros j Hj. rewrite list_lookup_alter_ne by done. by apply Hother.
    + done.
    + simpl. lia.
    + change (confidence (reinforce m')) with (raised (confidence m')).
      by rewrite Hq.
Qed.

(** A candidate whose confidence is within the range keeps its place and
    its label through one merged pair, and neither number goes down. *)
Lemma add_mapping_monotone conf st item technical l j m :
  st !! technical = Some l -> l !! j = Some m -> in_range m ->
  ∃ l' m', add_mapping conf st item !! technical = Some l' ∧
    l' !! j = Some m' ∧
    business_entity m' = business_entity m ∧
    (confidence m <= confidence m')%Q ∧ in_range m' ∧
    (count m <= count m')%nat.
Proof.
  intros Hl Hj Hc. destruct item as [technical' business].
  destruct (decide (technical' = technical)) as [->|Hne].
  - rewrite add_mapping_lookup, Hl.
    destruct (first_match business l) as [i|] eqn:Hi.
    + destruct (decide (i = j)) as [->|Hij].
      * exists (alter reinforce j l), (reinforce m).
        rewrite list_lookup_alter_eq, Hj.
        destruct (reinforce_le m Hc). split_and!; try done. simpl; lia.
      * exists (alter reinforce i l), m.
        rewrite list_lookup_alter_ne by done. split_and!; try done. lra.
    + exists (l ++ [Mapping business conf 1]), m.
      rewrite lookup_app_l by (by eapply lookup_lt_Some).
      split_and!; try done. lra.
  - exists l, m. rewrite add_mapping_lookup_ne by done.
    split_and!; try done. lra.
Qed.

Lemma add_mappings_monotone items conf self technical l j m :
  mappings self !! technical = Some l -> l !! j = Some m ->
  in_range m ->
  ∃ l' m', mappings (add_mappings items conf self) !! technical = Some l' ∧
    l' !! j = Some m' ∧
    business_entity m' = business_entity m ∧
    (confidence m <= confidence m')%Q ∧ in_range m' ∧
    (count m <= count m')%nat.
Proof.
  rewrite mappings_add_mappings. generalize (mappings self) as st.
  revert l m. induction items as [|item items IH]; intros l m st Hl Hj Hc.
  - exists l, m. simpl. split_and!; try done. lra.
  - cbn [fold_left].
    destruct (add_mapping_monotone conf st item technical l j m Hl Hj Hc)
      as (l1 & m1 & Hl1 & Hj1 & Hb1 & Hc1 & Hc1' & Hn1).
    destruct (IH l1 m1 _ Hl1 Hj1 Hc1')
      as (l2 & m2 & Hl2 & Hj2 & Hb2 & Hc2 & Hc2' & Hn2).
    exists l2, m2. split_and!; try done; [congruence|lra|lia].
Qed.

(** C1. Take any candidate of the store whose confidence is within the data
    model's range, 0.0 to 1.0. No call of [add_mappings] lowers its
    confidence or its count, moves it or changes its label. When it is the
    candidate that matches [business] for [technical], merging the pair
    [(technical, business)] [n] more times leaves it with [n] more
    observations and with the confidence that [n] applications of
    [c := min(1.0, c + 0.05)] give in binary64 arithmetic. That confidence
    is at most 1.0, is not below the one before, is above it as soon as
    there was a repeat and the confidence was below 1.0, and is the decimal
    [min(1.0, confidence + n * 0.05)] up to [2 ** -51] per repeat. The rest
    of the candidate list is as before. *)
Theorem merge_raises_confidence self technical l j m :
  mappings self !! technical = Some l ->
  l !! j = Some m ->
  in_range m ->
  (∀ items conf, ∃ l' m',
     mappings (add_mappings items conf self) !! technical = Some l' ∧
     l' !! j = Some m' ∧
     business_entity m' = business_entity m ∧
     (confidence m <= confidence m')%Q ∧
     (count m <= count m')%nat) ∧
  (∀ business conf (n : nat),
     first_match business l = Some j ->
     ∃ l' m',
       mappings (Nat.iter n (add_mappings [(technical, business)] conf) self)
         !! technical = Some l' ∧
       l' !! j = Some m' ∧
       length l' = length l ∧
       (∀ k, k ≠ j -> l' !! k = l !! k) ∧
       business_entity m' = business_entity m ∧
       count m' = (count m + n)%nat ∧
       confidence m' = Nat.iter n raised (confidence m) ∧
       (confidence m <= confidence m')%Q ∧
       (confidence m' <= 1)%Q ∧
       ((0 < n)%nat -> (confidence m < 1)%Q ->
        (confidence m < confidence m')%Q) ∧
       Float64.near (inject_Z (Z.of_nat n) * Float64.slack)
         (Qmin 1 (confidence m + inject_Z (Z.of_nat n) * 0.05))
         (confidence m')).
Proof.
  intros Hl Hj Hc. split.
  - intros items conf.
    destruct (add_mappings_monotone items conf self technical l j m Hl Hj Hc)
      as (l' & m' & ? & ? & ? & ? & ? & ?).
    by exists l', m'.
  - intros business conf n Hi.
    destruct (merge_repeated technical business conf n self l j m Hl Hi Hj)
      as (l' & m' & ? & ? & ? & ? & ? & ? & ? & Hq).
    destruct Hc as [Hc0 Hc1].
    destruct (iter_raised_bounds n (confidence m) Hc0 Hc1) as (? & ? & ? & ?).
    exists l', m'. rewrite Hq. by split_and!.
Qed.

(** Whatever the store, one merge of a pair leaves a candidate that matches
    the pair's label; further merges of the pair are repeats on it. *)
Lemma first_match_app_None business l m :
  first_match business l = None -> same_entity m business = true ->
  first_match business (l ++ [m]) = Some (length l).
Proof.
  intros Hnone Hm. induction l as [|x l IH]; simpl in *.
  - by rewrite Hm.
  - destruct (same_entity x business); [done|].
    destruct (first_match business l); [done|]. by rewrite IH.
Qed.

Lemma same_entity_new business conf (n : nat) :
  same_entity (Mapping business conf n) business = true.
Proof. unfold same_entity. apply String.eqb_refl. Qed.

Lemma merge_creates_match technical business conf self :
  ∃ l j, mappings (add_mappings [(technical, business)] conf self) !! technical
         = Some l ∧
         first_match business l = Some j.
Proof.
  rewrite mappings_add_mappings. cbn [fold_left]. rewrite add_mapping_lookup.
  destruct (mappings self !! technical) as [l|].
  - destruct (first_match business l) as [i|] eqn:Hi.
    + exists (alter reinforce i l), i. by rewrite first_match_alter.
    + exists (l ++ [Mapping business conf 1]), (length l).
      split; [done|]. apply first_match_app_None; [done|].
      apply same_entity_new.
  - exists [Mapping business conf 1], 0%nat. split; [done|].
    simpl. by rewrite same_entity_new.
Qed.

(** Confidences stay within the range [0, 1] as long as the merges pass a
    confidence within it. *)
Lemma in_range_reinforce m : in_range m -> in_range (reinforce m).
Proof. intros H. by destruct (reinforce_le m H). Qed.

Lemma in_range_nudge positive m : in_range m -> in_range (nudge positive m).
Proof.
  unfold in_range. intros [H0 H1]. pose proof float_0_1 as Hf.
  destruct positive; simpl.
  - destruct (add_0_1_near _ H0 H1) as [Ha Hb]. unfold Float64.slack in *.
    destruct (Q.min_spec 1 (Float64.add (confidence m) (Float64.float 0.1)))
      as [[? E]|[? E]]; rewrite E; lra.
  - destruct (sub_0_1_near _ H0 H1) as [Ha Hb]. unfold Float64.slack in *.
    destruct (Q.max_spec (Float64.float 0.1)
                (Float64.sub (confidence m) (Float64.float 0.1)))
      as [[? E]|[? E]]; rewrite E; lra.
Qed.

Lemma in_range_new business (positive : bool) :
  in_range (Mapping business
              (if positive then Float64.float 0.6 else Float64.float 0.4) 1).
Proof.
  pose proof float_0_6. pose proof float_0_4.
  unfold in_range. destruct positive; simpl; lra.
Qed.

Lemma Forall_alter_in_range (u : mapping -> mapping) l i :
  (∀ m, in_range m -> in_range (u m)) ->
  Forall in_range l -> Forall in_range (alter u i l).
Proof.
  intros Hu Hl. revert i.
  induction Hl as [|m l Hm Hl IH]; intros [|i]; simpl; fold_alter;
    constructor; auto.
Qed.

Lemma add_mapping_bounded conf st item :
  (0 <= conf)%Q -> (conf <= 1)%Q ->
  bounded_store st -> bounded_store (add_mapping conf st item).
Proof.
  intros H0 H1 H. destruct item as [technical business]. unfold add_mapping.
  assert (in_range (Mapping business conf 1)) as Hnew by done.
  destruct (st !! technical) as [l|] eqn:E.
  - pose proof (map_Forall_lookup_1 _ _ _ _ H E) as Hl. simpl in Hl.
    rewrite update_first_alter.
    destruct (first_match business l) as [i|]; simpl;
      apply map_Forall_insert_2; try done.
    + apply Forall_alter_in_range; [apply in_range_reinforce|done].
    + apply Forall_app. split; [done|]. by constructor.
  - apply map_Forall_insert_2; [|done]. by constructor.
Qed.

Lemma add_feedback_bounded technical business positive self :
  bounded_store (mappings self) ->
  bounded_store (mappings (add_feedback technical business positive self)).
Proof.
  intros H. unfold add_feedback.
  pose proof (in_range_new business true) as Hnew.
  destruct (mappings self !! technical) as [l|] eqn:E.
  - pose proof (map_Forall_lookup_1 _ _ _ _ H E) as Hl. simpl in Hl.
    rewrite update_first_alter.
    destruct (first_match business l) as [i|]; simpl.
    + apply map_Forall_insert_2; [|done].
      apply Forall_alter_in_range; [apply in_range_nudge|done].
    + destruct positive; [|done]. apply map_Forall_insert_2; [|done].
      apply Forall_app. split; [done|]. by constructor.
  - simpl. apply map_Forall_insert_2; [|done]. constructor; [|done].
    apply in_range_new.
Qed.

Lemma run_bounded ops self :
  Forall bounded_operation ops ->
  bounded_store (mappings self) -> bounded_store (mappings (run ops self)).
Proof.
  intros Hops. revert self.
  induction Hops as [|op ops Hop Hops IH]; intros self H; [done|].
  change (run (op :: ops) self) with (run ops (apply self op)).
  apply IH. destruct op as [items conf|technical business positive]; cbn [apply].
  - destruct Hop as [H0 H1]. rewrite mappings_add_mappings. revert H.
    generalize (mappings self). induction items as [|item items IHi]; [done|].
    intros st H. cbn [fold_left]. apply IHi. by apply add_mapping_bounded.
  - by apply add_feedback_bounded.
Qed.

(** *** Looking up *)

Lemma key_gt_lt a b : key_gt a b = true <-> key_lt b a.
Proof.
  unfold key_gt, key_lt.
  destruct (Qcompare_spec (confidence a) (confidence b)) as [E|E|E].
  - rewrite Nat.ltb_lt. split; [intros; right; split; [by symmetry|done]|].
    intros [?|[_ ?]]; [lra|done].
  - split; [done|]. intros [?|[? _]]; lra.
  - split; [by left|done].
Qed.

Lemma key_gt_le a b : key_gt a b = false <-> key_le a b.
Proof.
  unfold key_gt, key_le.
  destruct (Qcompare_spec (confidence a) (confidence b)) as [E|E|E].
  - rewrite Nat.ltb_ge. split; [by right|]. intros [?|[_ ?]]; [lra|done].
  - split; [by left|done].
  - split; [done|]. intros [?|[? _]]; lra.
Qed.

Lemma key_le_refl a : key_le a a.
Proof. right. split; [reflexivity|lia]. Qed.

Lemma key_le_lt_trans a b c : key_le a b -> key_lt b c -> key_lt a c.
Proof.
  unfold key_le, key_lt.
  intros [?|[? ?]] [?|[? ?]]; [left; lra..|right; split; [lra|lia]].
Qed.

Lemma key_lt_le a b : key_lt a b -> key_le a b.
Proof. unfold key_le, key_lt. intros [?|[? ?]]; [by left|right; split; [done|lia]]. Qed.

(** The loop of [max]: with [best] the first greatest element of the
    elements [pre] seen so far, the result is the first greatest element of
    all of them. *)
Lemma max_from_first_greatest rest : ∀ pre best (i : nat),
  pre !! i = Some best ->
  (∀ k x, pre !! k = Some x -> key_le x best) ->
  (∀ k x, (k < i)%nat -> pre !! k = Some x -> key_lt x best) ->
  ∃ i', (pre ++ rest) !! i' = Some (max_from best rest) ∧
    (∀ k x, (pre ++ rest) !! k = Some x -> key_le x (max_from best rest)) ∧
    (∀ k x, (k < i')%nat -> (pre ++ rest) !! k = Some x ->
            key_lt x (max_from best rest)).
Proof.
  induction rest as [|m rest IH]; intros pre best i Hi Hle Hlt.
  - rewrite app_nil_r. by exists i.
  - simpl max_from.
    replace (pre ++ m :: rest) with ((pre ++ [m]) ++ rest)
      by (by rewrite <- app_assoc).
    destruct (key_gt m best) eqn:Hgt.
    + apply key_gt_lt in Hgt.
      apply (IH (pre ++ [m]) m (length pre)).
      * by rewrite lookup_app_r, Nat.sub_diag.
      * intros k x Hk. apply lookup_app_Some in Hk as [Hk|[_ Hk]].
        -- apply key_lt_le. eapply key_le_lt_trans; eauto.
        -- apply list_lookup_singleton_Some in Hk as [_ <-]. apply key_le_refl.
      * intros k x Hlen Hk. rewrite lookup_app_l in Hk by done.
        eapply key_le_lt_trans; eauto.
    + apply key_gt_le in Hgt.
      apply (IH (pre ++ [m]) best i).
      * rewrite lookup_app_l; [done|]. by eapply lookup_lt_Some.
      * intros k x Hk. apply lookup_app_Some in Hk as [Hk|[_ Hk]]; [eauto|].
        by apply list_lookup_singleton_Some in Hk as [_ <-].
      * intros k x Hlen Hk.
        rewrite lookup_app_l in Hk
          by (apply lookup_lt_Some in Hi; lia).
        eauto.
Qed.

Lemma max_by_key_first_greatest l :
  l ≠ [] ->
  ∃ i best, max_by_key l = Return best ∧ l !! i = Some best ∧
    (∀ k x, l !! k = Some x -> key_le x best) ∧
    (∀ k x, (k < i)%nat -> l !! k = Some x -> key_lt x best).
Proof.
  destruct l as [|m rest]; [done|]. intros _.
  destruct (max_from_first_greatest rest [m] m 0%nat) as (i & Hi & Hle & Hlt).
  - done.
  - intros k x Hk. apply list_lookup_singleton_Some in Hk as [_ <-].
    apply key_le_refl.
  - intros; lia.
  - exists i, (max_from m rest). by split_and!.
Qed.

(** C2. For a technical name with a record (with at least one candidate, as
    every record the store creates has), [get_mapping] returns the label of
    the candidate whose [(confidence, count)] pair is greatest, and among
    several greatest ones the first of the list; the store is as before.
    With candidates at 0.9 with count 2 and at 0.9 with count 5, in either
    order, it returns the one with count 5. *)
Theorem lookup_returns_first_greatest self technical l :
  mappings self !! technical = Some l ->
  l ≠ [] ->
  (∃ i best,
     get_mapping technical self = (Return (business_entity best), self) ∧
     l !! i = Some best ∧
     (∀ k x, l !! k = Some x -> key_le x best) ∧
     (∀ k x, (k < i)%nat -> l !! k = Some x -> key_lt x best)) ∧
  (∀ a b, l = [Mapping a 0.9 2; Mapping b 0.9 5]
          ∨ l = [Mapping b 0.9 5; Mapping a 0.9 2] ->
     fst (get_mapping technical self) = Return b).
Proof.
  intros Hl Hne. split.
  - destruct (max_by_key_first_greatest l Hne) as (i & best & Hmax & ? & ? & ?).
    exists i, best. unfold get_mapping. by rewrite Hl, Hmax.
  - intros a b [->| ->]; unfold get_mapping; by rewrite Hl.
Qed.

(** Every record of a store built by merges and feedback has a candidate. *)
Lemma update_first_nonempty (u : mapping -> mapping) business l l' :
  update_first u business l = Some l' -> l' ≠ [].
Proof.
  destruct l as [|m l]; simpl; [done|].
  destruct (same_entity m business); [by intros [= <-]|].
  destruct (update_first u business l); simpl; [by intros [= <-]|done].
Qed.

Lemma add_mapping_nonempty conf st item :
  nonempty_store st -> nonempty_store (add_mapping conf st item).
Proof.
  intros H. destruct item as [technical business]. unfold add_mapping.
  destruct (st !! technical) as [l|] eqn:E.
  - destruct (update_first reinforce business l) as [l'|] eqn:U;
      apply map_Forall_insert_2; try done.
    + by eapply update_first_nonempty.
    + by destruct l.
  - by apply map_Forall_insert_2.
Qed.

Lemma add_feedback_nonempty technical business positive self :
  nonempty_store (mappings self) ->
  nonempty_store (mappings (add_feedback technical business positive self)).
Proof.
  intros H. unfold add_feedback.
  destruct (mappings self !! technical) as [l|] eqn:E.
  - destruct (update_first (nudge positive) business l) as [l'|] eqn:U.
    + apply map_Forall_insert_2; [|done]. by eapply update_first_nonempty.
    + destruct positive; [|done]. apply map_Forall_insert_2; [|done].
      by destruct l.
  - simpl. by apply map_Forall_insert_2.
Qed.

Lemma run_nonempty ops self :
  nonempty_store (mappings self) -> nonempty_store (mappings (run ops self)).
Proof.
  revert self. induction ops as [|op ops IH]; intros self H; [done|].
  change (run (op :: ops) self) with (run ops (apply self op)).
  apply IH. destruct op as [items conf|technical business positive]; cbn [apply].
  - rewrite mappings_add_mappings. revert H.
    generalize (mappings self). induction items as [|item items IHi]; [done|].
    intros st H. cbn [fold_left]. apply IHi. by apply add_mapping_nonempty.
  - by apply add_feedback_nonempty.
Qed.

(** *** Names without a record *)

Lemma is_cased_replaced (a : ascii) :
  Py.is_cased (if Ascii.eqb a "_" then " "%char else a) = Py.is_cased a.
Proof. destruct (Ascii.eqb_spec a "_") as [->|]; done. Qed.

Lemma humanize_get_from (s : string) : ∀ (before : option ascii) (i : nat) c,
  String.get i s = Some c ->
  String.get i (Py.title_from
                  (match before with Some p => Py.is_cased p | None => false end)
                  (Py.replace "_" " " s))
  = Some (humanized_char (match i with O => before | S k => String.get k s end) c).
Proof.
  induction s as [|a s IH]; intros before i c; [done|].
  destruct i as [|i]; simpl.
  - intros [= <-]. unfold humanized_char. by destruct before.
  - intros Hc. rewrite is_cased_replaced.
    apply (IH (Some a) i c Hc).
Qed.

Lemma title_from_length (f : ascii -> ascii) (s : string) : ∀ b,
  String.length (Py.title_from b (Py.map_chars f s)) = String.length s.
Proof. induction s as [|a s IH]; intros b; simpl; [done|]. by rewrite IH. Qed.

Lemma humanize_length (s : string) :
  String.length (humanize s) = String.length s.
Proof. apply title_from_length.
Qed.

(** C3. For a technical name without a record, [get_mapping] returns the
    humanized name and leaves the object as it was: no record is created.
    The humanized name has the length of the name; it has a space where the
    name has an underscore, an upper-case letter where a letter starts a
    word (follows no letter), and a lower-case letter elsewhere. *)
Theorem lookup_unseen_is_humanized self technical :
  mappings self !! technical = None ->
  get_mapping technical self = (Return (humanize technical), self) ∧
  mappings (snd (get_mapping technical self)) !! technical = None ∧
  String.length (humanize technical) = String.length technical ∧
  (∀ i c, String.get i technical = Some c ->
     String.get i (humanize technical)
     = Some (humanized_char
               (match i with O => None | S k => String.get k technical end) c)).
Proof.
  intros H. unfold get_mapping. rewrite H. split_and!; try done.
  - apply humanize_length.
  - intros i c Hc. apply (humanize_get_from technical None i c Hc).
Qed.

(** C10. For a technical name without a record, [get_all_mappings] returns
    one made-up entry: the humanized name at confidence 0.5 with count 0,
    a count below the 1 every stored entry starts from; the object is as it
    was and still has no record for the name. *)
Theorem candidates_unseen_is_placeholder self technical :
  mappings self !! technical = None ->
  get_all_mappings technical self
    = ([Mapping (humanize technical) 0.5 0], self) ∧
  Forall (fun m => (count m < 1)%nat) (fst (get_all_mappings technical self)) ∧
  mappings (snd (get_all_mappings technical self)) !! technical = None.
Proof.
  intros H. unfold get_all_mappings. rewrite H. split_and!; try done.
  repeat constructor.
Qed.

(** *** Feedback *)

Lemma feedback_existing technical business positive self l i :
  mappings self !! technical = Some l ->
  first_match business l = Some i ->
  mappings (add_feedback technical business positive self) !! technical
  = Some (alter (nudge positive) i l).
Proof.
  intros Hl Hi. unfold add_feedback.
  rewrite Hl, update_first_alter, Hi. simpl. by rewrite lookup_insert_eq.
Qed.

(** C4, as the code has it. Negative feedback on the candidate that matches
    [business] sets its confidence to [max(0.1, confidence - 0.1)], computed
    in binary64 arithmetic, which is never below 0.1. Its count goes up by
    one, it keeps its place and label, and the rest of the list is as
    before: nothing is removed. For a confidence within the data model's
    range, 0.0 to 1.0, the new confidence is strictly lower when the old one
    was above 0.1, and is 0.1 when the old one was 0.1 or less; it is the
    decimal [max(0.1, confidence - 0.1)] up to [2 ** -51], so lower by 0.1
    up to that much when the old one was at least 0.2. *)
Theorem negative_feedback_lowers_to_floor self technical business l i m :
  mappings self !! technical = Some l ->
  first_match business l = Some i ->
  l !! i = Some m ->
  ∃ l' m',
    mappings (add_feedback technical business false self) !! technical = Some l' ∧
    l' !! i = Some m' ∧
    length l' = length l ∧
    (∀ k, k ≠ i -> l' !! k = l !! k) ∧
    business_entity m' = business_entity m ∧
    count m' = (count m + 1)%nat ∧
    confidence m' = Qmax (Float64.float 0.1)
                      (Float64.sub (confidence m) (Float64.float 0.1)) ∧
    (Float64.float 0.1 <= confidence m')%Q ∧
    (in_range m ->
       ((Float64.float 0.1 < confidence m)%Q ->
        (confidence m' < confidence m)%Q) ∧
       ((confidence m <= Float64.float 0.1)%Q ->
        (confidence m' == Float64.float 0.1)%Q) ∧
       Float64.near Float64.slack (Qmax 0.1 (confidence m - 0.1))
         (confidence m') ∧
       ((0.2 <= confidence m)%Q ->
        Float64.near Float64.slack (confidence m - 0.1) (confidence m'))).
Proof.
  intros Hl Hi Hm.
  exists (alter (nudge false) i l), (nudge false m). split_and!.
  - by apply feedback_existing.
  - by rewrite list_lookup_alter_eq, Hm.
  - by rewrite length_alter.
  - intros k Hk. by rewrite list_lookup_alter_ne.
  - done.
  - done.
  - done.
  - simpl. apply Q.le_max_l.
  - intros [H0 H1]. pose proof float_0_1 as Hf.
    destruct (sub_0_1_near _ H0 H1) as [Ha Hb].
    unfold Float64.slack in *. simpl.
    destruct (Q.max_spec (Float64.float 0.1)
                (Float64.sub (confidence m) (Float64.float 0.1)))
      as [[? E]|[? E]];
    destruct (Q.max_spec 0.1 (confidence m - 0.1)) as [[? E']|[? E']];
      (split_and!;
       [intros ?; lra | intros ?; lra | unfold Float64.near; split; lra
       |intros ?; unfold Float64.near; split; lra]).
Qed.

(** C4, as stated, fails at the floor: after enough negative feedback the
    candidate sits at 0.1, and one more negative feedback leaves it there. *)
Lemma negative_feedback_not_strict_at_floor :
  ¬ (∀ self technical business l i m,
       mappings self !! technical = Some l ->
       first_match business l = Some i ->
       l !! i = Some m ->
       ∃ l' m',
         mappings (add_feedback technical business false self) !! technical
           = Some l' ∧
         l' !! i = Some m' ∧
         (confidence m' < confidence m)%Q).
Proof.
  intros H.
  destruct (H floor_example "cust_id" "customer"
              [Mapping "Customer" (Float64.float 0.1) 5] 0%nat
              (Mapping "Customer" (Float64.float 0.1) 5))
    as (l' & m' & Hl' & Hm' & Hlt); [by vm_compute..|].
  vm_compute in Hl'. injection Hl' as <-.
  injection Hm' as <-. vm_compute in Hlt. discriminate.
Qed.

(** *** Uniqueness of labels *)

Lemma unique_labels_alter (u : mapping -> mapping) l i :
  (∀ m, business_entity (u m) = business_entity m) ->
  unique_labels l -> unique_labels (alter u i l).
Proof. intros Hu. unfold unique_labels. by rewrite labels_alter. Qed.

Lemma unique_labels_append business conf (n : nat) l :
  unique_labels l -> first_match business l = None ->
  unique_labels (l ++ [Mapping business conf n]).
Proof.
  unfold unique_labels. intros Hl Hnone. rewrite map_app. simpl.
  apply NoDup_app. split_and!; [done| |apply NoDup_singleton].
  intros x Hx Hin. apply list_elem_of_singleton in Hin as ->.
  apply list_elem_of_fmap in Hx as (m & Heq & Hm).
  apply first_match_None in Hnone.
  rewrite Forall_forall in Hnone. specialize (Hnone m Hm).
  unfold same_entity in Hnone. apply String.eqb_neq in Hnone. congruence.
Qed.

Lemma unique_labels_singleton m : unique_labels [m].
Proof. apply NoDup_singleton. Qed.

Lemma add_mapping_unique conf st item :
  unique_store st -> unique_store (add_mapping conf st item).
Proof.
  intros H. destruct item as [technical business]. unfold add_mapping.
  destruct (st !! technical) as [l|] eqn:E.
  - pose proof (map_Forall_lookup_1 _ _ _ _ H E) as Hl. simpl in Hl.
    rewrite update_first_alter.
    destruct (first_match business l) as [i|] eqn:Hi; simpl;
      apply map_Forall_insert_2; try done.
    + by apply unique_labels_alter.
    + by apply unique_labels_append.
  - apply map_Forall_insert_2; [apply unique_labels_singleton|done].
Qed.

Lemma add_mappings_unique items conf self :
  unique_store (mappings self) ->
  unique_store (mappings (add_mappings items conf self)).
Proof.
  rewrite mappings_add_mappings. generalize (mappings self).
  induction items as [|item items IH]; intros st H; [done|].
  cbn [fold_left]. apply IH. by apply add_mapping_unique.
Qed.

Lemma add_feedback_unique technical business positive self :
  unique_store (mappings self) ->
  unique_store (mappings (add_feedback technical business positive self)).
Proof.
  intros H. unfold add_feedback.
  destruct (mappings self !! technical) as [l|] eqn:E.
  - pose proof (map_Forall_lookup_1 _ _ _ _ H E) as Hl. simpl in Hl.
    rewrite update_first_alter.
    destruct (first_match business l) as [i|] eqn:Hi; simpl.
    + apply map_Forall_insert_2; [|done]. by apply unique_labels_alter.
    + destruct positive; [|done].
      apply map_Forall_insert_2; [|done]. by apply unique_labels_append.
  - simpl. apply map_Forall_insert_2; [apply unique_labels_singleton|done].
Qed.

(** C5. Starting from a store whose candidate lists have labels that are
    pairwise different without regard to case, every sequence of
    [add_mappings] and [add_feedback] calls ends in such a store; and a call
    for a pair whose label already has a candidate updates that candidate
    where it is, so the list keeps its length. *)
Theorem labels_stay_unique ops self :
  unique_store (mappings self) ->
  unique_store (mappings (run ops self)) ∧
  (∀ technical business l conf positive,
     mappings self !! technical = Some l ->
     is_Some (first_match business l) ->
     (∃ l', mappings (add_mappings [(technical, business)] conf self)
              !! technical = Some l' ∧ length l' = length l) ∧
     (∃ l', mappings (add_feedback technical business positive self)
              !! technical = Some l' ∧ length l' = length l)).
Proof.
  intros H. split.
  - revert self H. induction ops as [|op ops IH]; intros self H; [done|].
    change (run (op :: ops) self) with (run ops (apply self op)).
    apply IH. destruct op as [items conf|technical business positive]; cbn [apply].
    + by apply add_mappings_unique.
    + by apply add_feedback_unique.
  - intros technical business l conf positive Hl [i Hi]. split.
    + exists (alter reinforce i l). split; [by apply merge_existing|].
      by rewrite length_alter.
    + exists (alter (nudge positive) i l). split; [by apply feedback_existing|].
      by rewrite length_alter.
Qed.

End KnowledgeBaseFacts.

(** ** The instruction applier *)

Section DataProcessingFacts.

Import DataProcessingAgent.

Variable series_compare : comparison_op -> Series -> value -> outcome (list bool).
Variable series_isin : Series -> list value -> outcome (list bool).
Variable series_str_contains : Series -> value -> outcome (list bool).
Variable groupby_size : DataFrame -> list string -> outcome DataFrame.
Variable groupby_agg :
  DataFrame -> list string -> string -> string -> outcome DataFrame.

Local Abbreviation filters_of := (_apply_filters series_compare series_isin series_str_contains).
Local Abbreviation filter_of := (apply_filter series_compare series_isin series_str_contains).
Local Abbreviation grouped_of := (_apply_groupby_aggregation groupby_size groupby_agg).
Local Abbreviation transform_of :=
  (transform series_compare series_isin series_str_contains groupby_size groupby_agg).

(** What is assumed of pandas: comparing a numeric column with a number
    compares cell by cell. *)
Hypothesis compare_numbers : ∀ op cells v,
  Forall (fun c => match c with CStr _ => False | _ => True end) cells ->
  series_compare op (mkSeries Number cells) (VNum v)
  = Return (map (fun c => compare_number op c v) cells).

Lemma mask_rows_map (f : list cell -> bool) rs :
  mask_rows rs (map f rs) = List.filter f rs.
Proof.
  induction rs as [|r rs IH]; simpl; [done|]. rewrite IH. by destruct (f r).
Qed.

Lemma exceeds_spec v c : exceeds v c = true <-> ∃ x, c = CNum x ∧ (v < x)%Q.
Proof.
  destruct c as [x| |]; simpl.
  - rewrite negb_true_iff. split.
    + intros H. exists x. split; [done|].
      apply Qnot_le_lt. intros Hle. apply Qle_bool_iff in Hle. congruence.
    + intros (y & [= <-] & Hlt). destruct (Qle_bool x v) eqn:E; [|done].
      apply Qle_bool_iff in E. lra.
  - split; [done|]. by intros (? & ? & _).
  - split; [done|]. by intros (? & ? & _).
Qed.

Lemma in_not_list_skipped df f :
  f_operation f = Some "in" -> is_list (f_value f) = false ->
  filter_of df f = df.
Proof.
  intros Hop Hv. unfold apply_filter. rewrite Hop.
  destruct (negb (truthy (f_column f)) || negb (truthy (Some "in"))); [done|].
  simpl. by destruct (f_value f).
Qed.

Lemma gt_number_filtered df column i v :
  nonempty column = true ->
  column_index column (columns df) = Some (i, Number) ->
  Forall (numeric_at i) (rows df) ->
  filter_of df (mkFilter (Some column) (Some ">") (VNum v))
  = mkDataFrame (columns df)
      (List.filter (fun r => exceeds v (nth i r CNaN)) (rows df)).
Proof.
  intros Hc Hi Hnum. unfold apply_filter. simpl. rewrite Hc. simpl.
  unfold apply_operation. simpl. unfold filter_compare, getitem. rewrite Hi.
  rewrite compare_numbers.
  - unfold getitem_mask. f_equal.
    rewrite <- (mask_rows_map (fun r => exceeds v (nth i r CNaN))).
    f_equal. rewrite map_map. apply map_ext. intros r.
    unfold exceeds, compare_number. by destruct (nth i r CNaN).
  - apply Forall_fmap. eapply Forall_impl; [exact Hnum|]. by intros r Hr.
Qed.

(** C7. A filter with operation [in] whose value is not a list is skipped:
    the table is as before and the filters after it apply as usual. The
    filter [{column, ">", v}] on a numeric column and a number [v] keeps the
    columns and keeps, in order, exactly the rows whose cell in that column
    is a number above [v]. [_apply_filters] returns a table on every input:
    it has no raising outcome. *)
Theorem filters_skip_or_select df :
  (∀ f rest,
     f_operation f = Some "in" -> is_list (f_value f) = false ->
     filters_of df [f] = df ∧ filters_of df (f :: rest) = filters_of df rest) ∧
  (∀ column i v,
     nonempty column = true ->
     column_index column (columns df) = Some (i, Number) ->
     Forall (numeric_at i) (rows df) ->
     let result := filters_of df [mkFilter (Some column) (Some ">") (VNum v)] in
     columns result = columns df ∧
     rows result = List.filter (fun r => exceeds v (nth i r CNaN)) (rows df) ∧
     ∀ r, In r (rows result) <->
          In r (rows df) ∧ ∃ x, nth i r CNaN = CNum x ∧ (v < x)%Q).
Proof.
  split.
  - intros f rest Hop Hv. unfold _apply_filters. cbn [fold_left].
    by rewrite in_not_list_skipped.
  - intros column i v Hc Hi Hnum result. subst result.
    unfold _apply_filters. cbn [fold_left].
    rewrite (gt_number_filtered df column i v Hc Hi Hnum). cbn [columns rows].
    split_and!; [done..|].
    intros r. rewrite filter_In. by rewrite exceeds_spec.
Qed.

(** Filters drop rows, never columns. *)
Lemma apply_filter_columns df f : columns (filter_of df f) = columns df.
Proof.
  unfold apply_filter.
  destruct (negb (truthy (f_column f)) || negb (truthy (f_operation f)));
    [done|].
  unfold apply_operation, filter_compare.
  repeat (match goal with
          | |- context [if String.eqb ?a ?b then _ else _] =>
              destruct (String.eqb a b)
          end);
    try done;
    try (destruct (getitem df (default "" (f_column f))) as [s|]; [|done];
         match goal with
         | |- context [series_compare ?op s ?v] =>
             by destruct (series_compare op s v)
         | |- context [series_str_contains s ?v] =>
             by destruct (series_str_contains s v)
         end).
  destruct (f_value f) as [| | | |l|]; try done.
  destruct (getitem df (default "" (f_column f))) as [s|]; [|done].
  by destruct (series_isin s l).
Qed.

Lemma apply_filters_columns fs : ∀ df, columns (filters_of df fs) = columns df.
Proof.
  unfold _apply_filters.
  induction fs as [|f fs IH]; intros df; [done|].
  cbn [fold_left]. by rewrite IH, apply_filter_columns.
Qed.

Lemma resolve_without_numbers df :
  number_columns df = [] -> resolve_agg_column df "" = "".
Proof. intros H. unfold resolve_agg_column. by rewrite H. Qed.

Lemma resolve_first_number df c rest :
  number_columns df = c :: rest -> nonempty c = true ->
  resolve_agg_column df "" = c.
Proof.
  intros H Hc. unfold resolve_agg_column. rewrite H. simpl.
  unfold nonempty in Hc. by rewrite Hc.
Qed.

(** C6, as the code has it. With group-by columns and no aggregation column
    given, the column aggregated is the first numeric column of the table,
    whether or not it is one of the group-by columns; a table without
    numeric columns is returned as it is, so that the two transformations
    together return the filtered table, not grouped. *)
Theorem default_target_is_first_number df ins g gs :
  i_groupby ins = Some (g :: gs) ->
  nonempty (default "" (a_column (default (mkAggregation None None)
                                          (i_aggregation ins)))) = false ->
  (∀ c rest,
     number_columns df = c :: rest -> nonempty c = true ->
     grouped_of df ins
     = aggregated_or_unchanged groupby_size groupby_agg df (g :: gs)
         (default "sum" (a_method (default (mkAggregation None None)
                                           (i_aggregation ins))))
         c) ∧
  (number_columns df = [] ->
     grouped_of df ins = df ∧
     transform_of df ins = filters_of df (default [] (i_filters ins))).
Proof.
  intros Hg Habsent.
  assert (default "" (a_column (default (mkAggregation None None)
                                        (i_aggregation ins))) = "") as Hempty.
  { apply String.eqb_eq. by apply negb_false_iff. }
  assert (∀ d, number_columns d = [] -> grouped_of d ins = d) as Hskip.
  { intros d Hnum. unfold _apply_groupby_aggregation.
    by rewrite Hg, Hempty, (resolve_without_numbers d Hnum). }
  split.
  - intros c rest Hnum Hc.
    unfold _apply_groupby_aggregation, aggregated_or_unchanged.
    by rewrite Hg, Hempty, (resolve_first_number df c rest Hnum Hc), Hc.
  - intros Hnum. split; [by apply Hskip|].
    unfold transform. rewrite Hg.
    destruct (i_filters ins) as [[|f fs]|]; cbn [default];
      try (by apply Hskip).
    apply Hskip. unfold number_columns in *.
    by rewrite apply_filters_columns.
Qed.

End DataProcessingFacts.

(** C6, as stated, fails: in the table [sales] grouped by [year] the first
    numeric column outside the group-by columns is [revenue], yet the column
    the code aggregates is [year], the first numeric column. *)
Lemma default_target_may_be_a_group_column :
  DataProcessingAgent.first_number_outside DataProcessingAgent.sales ["year"]
    = Some "revenue" ∧
  DataProcessingAgent.resolve_agg_column DataProcessingAgent.sales "" = "year" ∧
  DataProcessingAgent._apply_groupby_aggregation
    DataProcessingAgent.probe_size DataProcessingAgent.probe_agg
    DataProcessingAgent.sales
    (DataProcessingAgent.mkInstructions None (Some ["year"])
       (Some (DataProcessingAgent.mkAggregation (Some "sum") None)))
  ≠ DataProcessingAgent.aggregated_or_unchanged
      DataProcessingAgent.probe_size DataProcessingAgent.probe_agg
      DataProcessingAgent.sales ["year"] "sum" "revenue".
Proof. split_and!; [reflexivity..|]. vm_compute. discriminate. Qed.

(** ** The quality reviewer *)

Section QualityFacts.

Import QualityAssuranceAgent.

Lemma tally_cons sev (i : issue) l :
  (tally sev (i :: l)
   == tally sev l + (if String.eqb (severity i) sev then 1 else 0))%Q.
Proof.
  unfold tally. simpl. destruct (String.eqb (severity i) sev).
  - cbn [length]. rewrite inject_nat_succ. reflexivity.
  - lra.
Qed.

(** The loop of [_calculate_quality_score], from any starting score. *)
Lemma fold_deduct l : ∀ score : Q,
  (fold_left deduct l score
   == score - 2 * tally "error" l - 1 * tally "warning" l
      - 0.5 * tally "suggestion" l)%Q.
Proof.
  induction l as [|i l IH]; intros score.
  - unfold tally. simpl. change (inject_Z (Z.of_nat 0)) with 0%Q. lra.
  - cbn [fold_left]. rewrite IH, !tally_cons. unfold deduct.
    destruct (String.eqb (severity i) "error") eqn:E1.
    { apply String.eqb_eq in E1. rewrite E1. simpl. lra. }
    destruct (String.eqb (severity i) "warning") eqn:E2.
    { apply String.eqb_eq in E2. rewrite E2. simpl. lra. }
    destruct (String.eqb (severity i) "suggestion") eqn:E3; simpl; lra.
Qed.

Lemma check_categories_app chart limit msg viz_type info summary l :
  check_categories chart limit msg viz_type info summary l
  = l ++ categories_rule chart limit msg viz_type info summary.
Proof.
  unfold check_categories, categories_rule, x_axis_categories, rule.
  destruct (categorical_summary summary) as [cats|]; simpl.
  - destruct (cats !! default "" (v_x_axis info)) as [c|].
    + destruct (String.eqb viz_type chart); simpl; [|by rewrite app_nil_r].
      destruct (limit <? default 0%nat (unique_values c))%nat;
        by rewrite ?app_nil_r.
    + rewrite app_nil_r. by destruct (String.eqb viz_type chart).
  - rewrite andb_false_r. by rewrite app_nil_r.
Qed.

Lemma check_scatter_app viz_type info summary l :
  check_scatter viz_type info summary l = l ++ scatter_rule viz_type info summary.
Proof.
  unfold check_scatter, scatter_rule, rule.
  destruct (String.eqb viz_type "scatter"
            && (50 <? default 0%nat (row_count summary))%nat); simpl;
    [|by rewrite app_nil_r].
  destruct (negb (DataProcessingAgent.truthy (v_color info)));
    by rewrite ?app_nil_r.
Qed.

Lemma check_keyword_time requirements viz_type l :
  check_keyword requirements viz_type l "time"
  = l ++ keyword_rule requirements viz_type "time" ["line"; "area"]
           "a line chart or area chart.".
Proof.
  unfold check_keyword, keyword_rule, rule.
  destruct (Py.contains "time" (Py.lower requirements)); simpl;
    [|by rewrite app_nil_r].
  destruct (String.eqb viz_type "line"), (String.eqb viz_type "area");
    simpl; by rewrite ?app_nil_r.
Qed.

Lemma check_keyword_trend requirements viz_type l :
  check_keyword requirements viz_type l "trend"
  = l ++ keyword_rule requirements viz_type "trend" ["line"] "a line chart.".
Proof.
  unfold check_keyword, keyword_rule, rule.
  destruct (Py.contains "trend" (Py.lower requirements)); simpl;
    [|by rewrite app_nil_r].
  destruct (String.eqb viz_type "line"); simpl; by rewrite ?app_nil_r.
Qed.

Lemma check_keyword_distribution requirements viz_type l :
  check_keyword requirements viz_type l "distribution"
  = l ++ keyword_rule requirements viz_type "distribution"
           ["histogram"; "density"] "a histogram or density plot.".
Proof.
  unfold check_keyword, keyword_rule, rule.
  destruct (Py.contains "distribution" (Py.lower requirements)); simpl;
    [|by rewrite app_nil_r].
  destruct (String.eqb viz_type "histogram"), (String.eqb viz_type "density");
    simpl; by rewrite ?app_nil_r.
Qed.

Lemma check_keyword_correlation requirements viz_type l :
  check_keyword requirements viz_type l "correlation"
  = l ++ keyword_rule requirements viz_type "correlation" ["scatter"]
           "a scatter plot.".
Proof.
  unfold check_keyword, keyword_rule, rule.
  destruct (Py.contains "correlation" (Py.lower requirements)); simpl;
    [|by rewrite app_nil_r].
  destruct (String.eqb viz_type "scatter"); simpl; by rewrite ?app_nil_r.
Qed.

(** The keywords without a branch of their own add nothing. *)
Lemma check_keyword_compare requirements viz_type l :
  check_keyword requirements viz_type l "compare" = l.
Proof.
  unfold check_keyword.
  by destruct (Py.contains "compare" (Py.lower requirements)).
Qed.

Lemma check_keyword_relationship requirements viz_type l :
  check_keyword requirements viz_type l "relationship" = l.
Proof.
  unfold check_keyword.
  by destruct (Py.contains "relationship" (Py.lower requirements)).
Qed.

Lemma check_for_issues_by_rule requirements viz summary :
  _check_for_issues requirements viz summary
  = issues_by_rule requirements viz summary.
Proof.
  unfold _check_for_issues, issues_by_rule, important_keywords.
  cbn [fold_left].
  rewrite check_keyword_time, check_keyword_trend, check_keyword_compare,
    check_keyword_distribution, check_keyword_relationship,
    check_keyword_correlation.
  rewrite check_scatter_app, !check_categories_app.
  by rewrite <- !app_assoc.
Qed.

(** C8. The score of an issue list is 10.0 less 2.0 for each [error], 1.0
    for each [warning] and 0.5 for each [suggestion], and 0 when that is
    negative; so it lies between 0.0 and 10.0. The issues of a review are
    the issues of the rules taken one by one: each rule that applies adds
    its issue whatever the other rules do, and the score of the review
    counts all of them. *)
Theorem score_counts_every_issue :
  (∀ l : list issue,
     (_calculate_quality_score l
      == Qmax 0 (10 - 2 * tally "error" l - 1 * tally "warning" l
                 - 0.5 * tally "suggestion" l))%Q ∧
     (0 <= _calculate_quality_score l <= 10)%Q) ∧
  (∀ explain requirements viz summary,
     let r := review_visualization explain requirements viz summary in
     issues r = issues_by_rule requirements viz summary ∧
     quality_score r = _calculate_quality_score (issues r)).
Proof.
  split.
  - intros l. unfold _calculate_quality_score.
    pose proof (fold_deduct l 10.0%Q) as H.
    assert (0 <= tally "error" l)%Q by apply inject_nat_nonneg.
    assert (0 <= tally "warning" l)%Q by apply inject_nat_nonneg.
    assert (0 <= tally "suggestion" l)%Q by apply inject_nat_nonneg.
    destruct (Q.max_spec 0 (fold_left deduct l 10.0%Q)) as [[? E1]|[? E1]];
    destruct (Q.max_spec 0 (10 - 2 * tally "error" l - 1 * tally "warning" l
                             - 0.5 * tally "suggestion" l)) as [[? E2]|[? E2]];
    rewrite E1, E2; split; lra.
  - intros explain requirements viz summary r. subst r. simpl.
    by rewrite check_for_issues_by_rule.
Qed.

End QualityFacts.

(** ** The orchestrator *)

Section OrchestratorFacts.

Import Orchestrator.

Variables (json World : Type).
Variable map_schema : string -> call World json.
Variable get_sample_data : string -> call World json.
Variable process_data :
  string -> string -> json -> json -> call World (processed_data json).
Variable create_visualization : json -> json -> call World (visualization json).
Variable review_visualization :
  string -> visualization json -> json -> call World qa_result.
Variable writable : string -> bool.
Variable serializable : stored json -> bool.

Local Abbreviation request :=
  (process_request json World map_schema get_sample_data process_data
     create_visualization review_visualization writable serializable).

Local Abbreviation raises :=
  (raises_at json World map_schema get_sample_data process_data
     create_visualization review_visualization).

(** C9. When a stage of [process_request] raises, be it one of the five
    agent calls or the reading of the identifier off the rendering, the
    answer is the error dict with the exception's message, and both
    [visualization_store] and the files under [data/visualizations/] are
    what they were before the request. *)
Theorem failed_request_stores_nothing (s : stage) filepath requirements
    (self : t json World) (e : string) :
  raises s filepath requirements (world self) e ->
  fst (request filepath requirements self) = Error e ∧
  visualization_store (snd (request filepath requirements self))
    = visualization_store self ∧
  files (snd (request filepath requirements self)) = files self.
Proof.
  unfold process_request, run_stages, bind, raises_at.
  destruct s.
  - intros (w1 & H1). by rewrite H1.
  - intros (sm & w1 & w2 & H1 & H2). by rewrite H1, H2.
  - intros (sm & w1 & sd & w2 & w3 & H1 & H2 & H3). by rewrite H1, H2, H3.
  - intros (sm & w1 & sd & w2 & p & w3 & w4 & H1 & H2 & H3 & H4).
    by rewrite H1, H2, H3, H4.
  - intros (sm & w1 & sd & w2 & p & w3 & v & w4 & w5 & H1 & H2 & H3 & H4 & H5).
    by rewrite H1, H2, H3, H4, H5.
  - intros (sm & w1 & sd & w2 & p & w3 & m & w4 & qa & w5
            & H1 & H2 & H3 & H4 & H5 & ->).
    by rewrite H1, H2, H3, H4, H5.
Qed.

(** When no stage raises, the full result is in [visualization_store]
    under its identifier, whatever happens to the file. *)
Lemma successful_request_is_stored filepath requirements
    (self : t json World) full w :
  run_stages json World map_schema get_sample_data process_data
    create_visualization review_visualization filepath requirements
    (world self) = (Return full, w) ->
  fst (request filepath requirements self) = Ok (s_result json full) ∧
  visualization_store (snd (request filepath requirements self))
    !! r_viz_id (s_result json full) = Some full.
Proof.
  intros H. unfold process_request. rewrite H. split; [done|].
  unfold _store_visualization. cbn [snd].
  destruct (writable _); [destruct (serializable _)|];
    cbn [visualization_store]; apply lookup_insert_eq.
Qed.

End OrchestratorFacts.

(** ** The properties at concrete inputs *)

Section Instances.

Import KnowledgeBase DataProcessingAgent.

(** Two more merges of a pair first merged at 0.8 bring it to
    0.9000000000000001, and five more reach the cap. *)
Lemma merge_raises_confidence_witness :
  mappings merged_example !! "cust_id"
  = Some [Mapping "Customer" default_confidence 1] ∧
  (∃ l' m',
     mappings (Nat.iter 2 (add_mappings [("cust_id", "CUSTOMER")]
                             default_confidence)
                 merged_example) !! "cust_id" = Some l' ∧
     l' !! 0%nat = Some m' ∧ count m' = 3%nat ∧
     (confidence m' == 4053239664633447 # 4503599627370496)%Q) ∧
  (∃ l' m',
     mappings (Nat.iter 5 (add_mappings [("cust_id", "CUSTOMER")]
                             default_confidence)
                 merged_example) !! "cust_id" = Some l' ∧
     l' !! 0%nat = Some m' ∧ count m' = 6%nat ∧ (confidence m' == 1)%Q).
Proof.
  split; [reflexivity|].
  destruct (merge_raises_confidence merged_example "cust_id"
              [Mapping "Customer" default_confidence 1] 0%nat
              (Mapping "Customer" default_confidence 1))
    as [_ H]; [reflexivity|reflexivity|split; by vm_compute|].
  split.
  - destruct (H "CUSTOMER" default_confidence 2%nat eq_refl)
      as (l' & m' & Hl & Hm & _ & _ & _ & Hn & Hq & _).
    exists l', m'. split_and!; [exact Hl|exact Hm|exact Hn|].
    rewrite Hq. by vm_compute.
  - destruct (H "CUSTOMER" default_confidence 5%nat eq_refl)
      as (l' & m' & Hl & Hm & _ & _ & _ & Hn & Hq & _).
    exists l', m'. split_and!; [exact Hl|exact Hm|exact Hn|].
    rewrite Hq. by vm_compute.
Defined.

Lemma lookup_returns_first_greatest_witness :
  fst (get_mapping "cust_id" tie_example) = Return "Customer".
Proof.
  destruct (lookup_returns_first_greatest tie_example "cust_id"
              [Mapping "Client" 0.9 2; Mapping "Customer" 0.9 5])
    as [_ H]; [reflexivity|discriminate|].
  apply (H "Client" "Customer"). left. reflexivity.
Defined.

Lemma lookup_unseen_is_humanized_witness :
  get_mapping "cust_id" (KB ∅ Missing) = (Return "Cust Id", KB ∅ Missing).
Proof.
  destruct (lookup_unseen_is_humanized (KB ∅ Missing) "cust_id")
    as [H _]; [reflexivity|]. exact H.
Defined.

Lemma candidates_unseen_is_placeholder_witness :
  get_all_mappings "order_amt" (KB ∅ Missing)
  = ([Mapping "Order Amt" 0.5 0], KB ∅ Missing).
Proof.
  destruct (candidates_unseen_is_placeholder (KB ∅ Missing) "order_amt")
    as [H _]; [reflexivity|]. exact H.
Defined.

(** Negative feedback on a candidate at 0.8 brings it to
    0.7000000000000001, the binary64 value of [0.8 - 0.1]. *)
Lemma negative_feedback_lowers_to_floor_witness :
  ∃ l' m',
    mappings (add_feedback "cust_id" "customer" false merged_example)
      !! "cust_id" = Some l' ∧
    l' !! 0%nat = Some m' ∧ length l' = 1%nat ∧ count m' = 2%nat ∧
    (confidence m' == 6305039478318695 # 9007199254740992)%Q.
Proof.
  destruct (negative_feedback_lowers_to_floor merged_example "cust_id"
              "customer" [Mapping "Customer" default_confidence 1] 0%nat
              (Mapping "Customer" default_confidence 1))
    as (l' & m' & Hl & Hm & Hlen & _ & _ & Hn & Hq & _);
    [reflexivity..|].
  exists l', m'. split_and!; [exact Hl|exact Hm|exact Hlen|exact Hn|].
  rewrite Hq. by vm_compute.
Defined.

Lemma labels_stay_unique_witness :
  unique_store
    (mappings (run [Merge [("cust_id", "Customer"); ("order_amt", "Amount")] default_confidence;
                    Feedback "cust_id" "CUSTOMER" true;
                    Feedback "cust_id" "Client" true;
                    Merge [("cust_id", "client")] default_confidence;
                    Feedback "order_amt" "Total" false]
                   (KB ∅ Missing))).
Proof.
  apply (labels_stay_unique _ (KB ∅ Missing)). apply map_Forall_empty.
Defined.

(** Grouped by [region] with no aggregation column given, [sales] is
    aggregated on [year], its first numeric column. *)
Lemma default_target_is_first_number_witness :
  _apply_groupby_aggregation probe_size probe_agg sales
    (mkInstructions None (Some ["region"]) (Some (mkAggregation (Some "sum") None)))
  = aggregated_or_unchanged probe_size probe_agg sales ["region"] "sum" "year" ∧
  _apply_groupby_aggregation probe_size probe_agg names_only
    (mkInstructions None (Some ["region"]) None)
  = names_only.
Proof.
  split.
  - destruct (default_target_is_first_number numbers_compare no_isin
                no_str_contains probe_size probe_agg sales
                (mkInstructions None (Some ["region"])
                   (Some (mkAggregation (Some "sum") None)))
                "region" []) as [H _]; [reflexivity..|].
    apply (H "year" ["revenue"]); reflexivity.
  - destruct (default_target_is_first_number numbers_compare no_isin
                no_str_contains probe_size probe_agg names_only
                (mkInstructions None (Some ["region"]) None)
                "region" []) as [_ H]; [reflexivity..|].
    apply H. reflexivity.
Defined.

(** [age > 30] on [people] keeps bob (41) and eve (30.5). *)
Lemma filters_skip_or_select_witness :
  rows (_apply_filters numbers_compare no_isin no_str_contains people
          [mkFilter (Some "age") (Some ">") (VNum 30)])
  = [ [CStr "bob"; CNum 41]; [CStr "eve"; CNum 30.5] ] ∧
  _apply_filters numbers_compare no_isin no_str_contains people
    [mkFilter (Some "age") (Some "in") (VNum 30)]
  = people.
Proof.
  destruct (filters_skip_or_select numbers_compare no_isin no_str_contains
              (fun op cells v _ => eq_refl) people) as [Hin Hgt].
  split.
  - destruct (Hgt "age" 1%nat 30%Q) as (_ & Hrows & _);
      [reflexivity|reflexivity|repeat constructor|].
    exact Hrows.
  - apply (Hin (mkFilter (Some "age") (Some "in") (VNum 30)) []); reflexivity.
Defined.

(** A request for a file [read_file] rejects: the error comes back and the
    result store stays empty. *)
Lemma failed_request_stores_nothing_witness :
  let request :=
    Orchestrator.process_request unit nat
      Orchestrator.rejecting_map_schema
      (fun _ => Orchestrator.idle_agent tt)
      (fun _ _ _ _ => Orchestrator.idle_agent (Orchestrator.mkProcessed tt tt tt))
      (fun _ _ => Orchestrator.idle_agent (Orchestrator.VizError "unused"))
      (fun _ _ _ => Orchestrator.idle_agent (Orchestrator.mkQa "" [] 10))
      (fun _ => true) (fun _ => true)
      "notes.txt" "show me a bar chart" Orchestrator.empty_orchestrator in
  fst request = Orchestrator.Error "Unsupported file extension: txt" ∧
  Orchestrator.visualization_store (snd request) = ∅ ∧
  Orchestrator.files (snd request) = ∅.
Proof.
  apply (failed_request_stores_nothing unit nat
           Orchestrator.rejecting_map_schema
           (fun _ => Orchestrator.idle_agent tt)
           (fun _ _ _ _ => Orchestrator.idle_agent (Orchestrator.mkProcessed tt tt tt))
           (fun _ _ => Orchestrator.idle_agent (Orchestrator.VizError "unused"))
           (fun _ _ _ => Orchestrator.idle_agent (Orchestrator.mkQa "" [] 10))
           (fun _ => true) (fun _ => true)
           Orchestrator.SchemaMapping "notes.txt" "show me a bar chart"
           Orchestrator.empty_orchestrator).
  exists 1%nat. reflexivity.
Defined.

(** The examples of the specification's list of testable properties. *)

(** Rounding decides a lookup: a candidate created by positive feedback
    and confirmed twice stands at 0.7999999999999999, so a candidate merged
    at 0.8 afterwards is preferred to it. *)
Example rounding_decides_a_lookup :
  fst (get_mapping "cust_id"
         (run [Feedback "cust_id" "Client" true;
               Feedback "cust_id" "Client" true;
               Feedback "cust_id" "Client" true;
               Merge [("cust_id", "Customer")] default_confidence]
            (KB ∅ Missing)))
  = Return "Customer".
Proof. by vm_compute. Qed.

Example merge_then_lookup :
  fst (get_mapping "cust_id" merged_example) = Return "Customer".
Proof. reflexivity. Qed.

Example pie_with_trend_scores_8_5 :
  let r := QualityAssuranceAgent.review_visualization "" "show the trend"
             (QualityAssuranceAgent.mkVizResult
                (Some (QualityAssuranceAgent.mkVizInfo
                         (Some "pie") (Some "region") None)))
             (QualityAssuranceAgent.mkSummary (Some 10%nat)
                (Some {[ "region" := QualityAssuranceAgent.mkCategorical
                                       (Some 10%nat) ]})) in
  map QualityAssuranceAgent.severity (QualityAssuranceAgent.issues r)
    = ["warning"; "suggestion"] ∧
  (QualityAssuranceAgent.quality_score r == 8.5)%Q.
Proof. split; reflexivity. Qed.

Example unknown_result_is_an_error :
  fst (Orchestrator.get_visualization unit nat "no-such-id"
         Orchestrator.empty_orchestrator)
  = inl "Visualization not found".
Proof. reflexivity. Qed.

End Instances.

(** * Further properties *)

(** ** The knowledge base: creation, feedback, persistence *)

Section KnowledgeBaseMore.

Import KnowledgeBase.

Implicit Types (l : list mapping) (m : mapping) (st : store) (self : t).

Lemma fold_add_mapping_other conf items : ∀ st technical,
  technical ∉ map fst items ->
  fold_left (add_mapping conf) items st !! technical = st !! technical.
Proof.
  induction items as [|[t b] items IH]; intros st technical Hnot; [done|].
  cbn [fold_left]. rewrite IH.
  - apply add_mapping_lookup_ne. intros ->. apply Hnot. simpl. left.
  - intros Hin. apply Hnot. simpl. by right.
Qed.

Lemma fold_add_mapping_fresh conf items : ∀ st technical business,
  NoDup (map fst items) ->
  (technical, business) ∈ items ->
  st !! technical = None ->
  fold_left (add_mapping conf) items st !! technical
  = Some [Mapping business conf 1].
Proof.
  induction items as [|[t b] items IH]; intros st technical business Hnd Hin Hnone.
  - by apply not_elem_of_nil in Hin.
  - simpl in Hnd. apply NoDup_cons in Hnd as [Hnot Hnd].
    cbn [fold_left]. apply elem_of_cons in Hin as [[= <- <-]|Hin].
    + rewrite fold_add_mapping_other by done.
      by rewrite add_mapping_lookup, Hnone.
    + apply IH; [done..|].
      rewrite add_mapping_lookup_ne; [done|].
      intros ->. apply Hnot. apply list_elem_of_fmap. by exists (technical, business).
Qed.

(** X1. Merging a dict that gives a label to a name the store has no record
    for makes [get_mapping] return exactly that label for the name, with the
    spelling given. *)
Theorem lookup_after_first_merge items conf self technical business :
  NoDup (map fst items) ->
  (technical, business) ∈ items ->
  mappings self !! technical = None ->
  get_mapping technical (add_mappings items conf self)
  = (Return business, add_mappings items conf self).
Proof.
  intros Hnd Hin Hnone. unfold get_mapping.
  rewrite mappings_add_mappings.
  by rewrite (fold_add_mapping_fresh conf items _ technical business Hnd Hin Hnone).
Qed.



(** X3. Positive feedback on the candidate that matches [business] sets its
    confidence to [min(1.0, confidence + 0.1)], computed in binary64
    arithmetic, which is never above 1.0, and adds one to its count; it
    keeps its place and label and the other candidates are as before. For
    a confidence within the data model's range, 0.0 to 1.0, the new
    confidence is not below the old one, is above it when the old one was
    below 1.0, and is the decimal [min(1.0, confidence + 0.1)] up to
    [2 ** -51]. *)
Theorem positive_feedback_raises_to_cap self technical business l i m :
  mappings self !! technical = Some l ->
  first_match business l = Some i ->
  l !! i = Some m ->
  ∃ l' m',
    mappings (add_feedback technical business true self) !! technical = Some l' ∧
    l' !! i = Some m' ∧
    length l' = length l ∧
    (∀ k, k ≠ i -> l' !! k = l !! k) ∧
    business_entity m' = business_entity m ∧
    count m' = (count m + 1)%nat ∧
    confidence m' = Qmin 1 (Float64.add (confidence m) (Float64.float 0.1)) ∧
    (confidence m' <= 1)%Q ∧
    (in_range m ->
       (confidence m <= confidence m')%Q ∧
       ((confidence m < 1)%Q -> (confidence m < confidence m')%Q) ∧
       Float64.near Float64.slack (Qmin 1 (confidence m + 0.1))
         (confidence m') ∧
       ((confidence m <= 0.9)%Q ->
        Float64.near Float64.slack (confidence m + 0.1) (confidence m'))).
Proof.
  intros Hl Hi Hm.
  exists (alter (nudge true) i l), (nudge true m). split_and!.
  - by apply feedback_existing.
  - by rewrite list_lookup_alter_eq, Hm.
  - by rewrite length_alter.
  - intros k Hk. by rewrite list_lookup_alter_ne.
  - done.
  - done.
  - done.
  - simpl. apply Q.le_min_l.
  - intros [H0 H1]. destruct (add_0_1_near _ H0 H1) as [Ha Hb].
    unfold Float64.slack in *. simpl.
    destruct (Q.min_spec 1 (Float64.add (confidence m) (Float64.float 0.1)))
      as [[? E]|[? E]];
    destruct (Q.min_spec 1 (confidence m + 0.1)) as [[? E']|[? E']];
      (split_and!;
       [lra | intros ?; lra | unfold Float64.near; split; lra
       |intros ?; unfold Float64.near; split; lra]).
Qed.

Lemma add_feedback_lookup_ne technical business positive self other :
  technical ≠ other ->
  mappings (add_feedback technical business positive self) !! other
  = mappings self !! other.
Proof.
  intros Hne. unfold add_feedback.
  destruct (mappings self !! technical) as [l|].
  - destruct (update_first (nudge positive) business l).
    + simpl. by rewrite lookup_insert_ne.
    + destruct positive; [|done]. simpl. by rewrite lookup_insert_ne.
  - simpl. by rewrite lookup_insert_ne.
Qed.

(** X4. Feedback about a label the store has no candidate for: for a name
    without a record it creates the record with that label, at 0.6 when
    positive and at 0.4 when negative; for a name with a record, positive
    feedback appends the label at 0.6 with count 1 after the existing
    candidates, and negative feedback changes no mapping at all. No other
    name's record is touched. *)
Theorem feedback_on_unknown_label self technical business positive :
  (mappings self !! technical = None ->
     mappings (add_feedback technical business positive self) !! technical
     = Some [Mapping business
               (if positive then Float64.float 0.6 else Float64.float 0.4)
               1]) ∧
  (∀ l, mappings self !! technical = Some l ->
        first_match business l = None ->
        mappings (add_feedback technical business true self) !! technical
        = Some (l ++ [Mapping business (Float64.float 0.6) 1]) ∧
        mappings (add_feedback technical business false self) = mappings self) ∧
  (∀ other, other ≠ technical ->
     mappings (add_feedback technical business positive self) !! other
     = mappings self !! other).
Proof.
  split_and!.
  - intros Hnone. unfold add_feedback. rewrite Hnone. simpl.
    by rewrite lookup_insert_eq.
  - intros l Hl Hnone.
    split; unfold add_feedback; rewrite Hl, update_first_alter, Hnone; simpl;
      [by rewrite lookup_insert_eq|done].
  - intros other Hne. by apply add_feedback_lookup_ne.
Qed.

(** X5. Confidences stay within [0, 1]: starting from a store whose
    confidences are in that range (the empty store is one), any sequence of
    feedback calls and of merges whose confidence argument is in the range
    ends in such a store, and no record is ever left without candidates. *)
Theorem confidences_stay_in_range ops self :
  Forall bounded_operation ops ->
  bounded_store (mappings self) ->
  nonempty_store (mappings self) ->
  bounded_store (mappings (run ops self)) ∧
  nonempty_store (mappings (run ops self)) ∧
  bounded_store (mappings (run ops (KB ∅ Missing))) ∧
  nonempty_store (mappings (run ops (KB ∅ Missing))).
Proof.
  intros Hops Hb Hn. split_and!.
  - by apply run_bounded.
  - by apply run_nonempty.
  - apply run_bounded; [done|]. apply map_Forall_empty.
  - apply run_nonempty. apply map_Forall_empty.
Qed.

Lemma entities_alter (u : mapping -> mapping) l i :
  (∀ m, business_entity (u m) = business_entity m) ->
  map business_entity (alter u i l) = map business_entity l.
Proof.
  intros Hu. revert i.
  induction l as [|m l IH]; intros [|i]; simpl; try done.
  - by rewrite Hu.
  - f_equal. apply IH.
Qed.

Lemma add_mapping_keeps conf st item technical l :
  st !! technical = Some l ->
  ∃ l', add_mapping conf st item !! technical = Some l' ∧
        map business_entity l `prefix_of` map business_entity l'.
Proof.
  intros Hl. destruct item as [t b].
  destruct (decide (t = technical)) as [->|Hne].
  - rewrite add_mapping_lookup, Hl.
    destruct (first_match b l) as [i|].
    + exists (alter reinforce i l). split; [done|]. by rewrite entities_alter.
    + exists (l ++ [Mapping b conf 1]). split; [done|].
      rewrite map_app. by apply prefix_app_r.
  - exists l. by rewrite add_mapping_lookup_ne.
Qed.

Lemma add_feedback_keeps technical' business positive self technical l :
  mappings self !! technical = Some l ->
  ∃ l', mappings (add_feedback technical' business positive self) !! technical
        = Some l' ∧
        map business_entity l `prefix_of` map business_entity l'.
Proof.
  intros Hl. destruct (decide (technical' = technical)) as [->|Hne].
  - unfold add_feedback. rewrite Hl, update_first_alter.
    destruct (first_match business l) as [i|]; simpl.
    + exists (alter (nudge positive) i l).
      rewrite lookup_insert_eq. split; [done|]. by rewrite entities_alter.
    + destruct positive; simpl.
      * exists (l ++ [Mapping business (Float64.float 0.6) 1]).
        rewrite lookup_insert_eq. split; [done|].
        rewrite map_app. by apply prefix_app_r.
      * by exists l.
  - exists l. by rewrite add_feedback_lookup_ne.
Qed.

Lemma apply_keeps (op : operation) self technical l :
  mappings self !! technical = Some l ->
  ∃ l', mappings (apply self op) !! technical = Some l' ∧
        map business_entity l `prefix_of` map business_entity l'.
Proof.
  destruct op as [items conf|technical' business positive]; cbn [apply].
  - rewrite mappings_add_mappings. generalize (mappings self).
    revert l. induction items as [|item items IH]; intros l st Hl.
    + by exists l.
    + cbn [fold_left].
      destruct (add_mapping_keeps conf st item technical l Hl) as (l1 & Hl1 & Hp1).
      destruct (IH l1 _ Hl1) as (l2 & Hl2 & Hp2).
      exists l2. split; [done|]. by etrans.
  - by apply add_feedback_keeps.
Qed.

(** X6. Nothing is ever forgotten: through any sequence of merges and
    feedback a name that has a record keeps one, and its candidate labels
    stay where they are, in order and with their spelling; later calls only
    add labels after them. *)
Theorem records_only_grow ops self technical l :
  mappings self !! technical = Some l ->
  ∃ l', mappings (run ops self) !! technical = Some l' ∧
        map business_entity l `prefix_of` map business_entity l' ∧
        (length l <= length l')%nat.
Proof.
  revert self l. induction ops as [|op ops IH]; intros self l Hl.
  - exists l. by split_and!.
  - change (run (op :: ops) self) with (run ops (apply self op)).
    destruct (apply_keeps op self technical l Hl) as (l1 & Hl1 & Hp1).
    destruct (IH _ l1 Hl1) as (l2 & Hl2 & Hp2 & Hlen).
    exists l2. split_and!; [done|by etrans|].
    apply prefix_length in Hp1. rewrite !length_map in Hp1. lia.
Qed.

End KnowledgeBaseMore.

(** ** The schema resolver *)

Section SchemaMapperFacts.

Import KnowledgeBase SchemaMapperAgent.

Variable get_file_headers : string -> outcome (list string).

Local Abbreviation map_schema_with := (map_schema get_file_headers).

Lemma dict_get_set_eq {A} k (v : A) d : PyDict.get k (PyDict.set k v d) = Some v.
Proof.
  induction d as [|[k' v'] d IH]; simpl.
  - by rewrite String.eqb_refl.
  - destruct (String.eqb k' k) eqn:E; simpl.
    + by rewrite String.eqb_refl.
    + by rewrite E.
Qed.

Lemma dict_get_set_ne {A} k k' (v : A) d :
  k ≠ k' -> PyDict.get k' (PyDict.set k v d) = PyDict.get k' d.
Proof.
  intros Hne. induction d as [|[k0 v0] d IH]; simpl.
  - destruct (String.eqb_spec k k'); [done|done].
  - destruct (String.eqb_spec k0 k) as [->|]; simpl.
    + destruct (String.eqb_spec k k'); [done|done].
    + destruct (String.eqb_spec k0 k'); [done|done].
Qed.

Lemma dict_get_not_key {A} k (d : list (string * A)) :
  k ∉ map fst d -> PyDict.get k d = None.
Proof.
  induction d as [|[k' v'] d IH]; simpl; [done|].
  intros Hnot. destruct (String.eqb_spec k' k) as [->|].
  - exfalso. apply Hnot. left.
  - apply IH. intros Hin. apply Hnot. by right.
Qed.

Lemma comprehension_get {A} (f : string -> A) keys : ∀ d k,
  PyDict.get k (fold_left (fun d k => PyDict.set k (f k) d) keys d)
  = if decide (k ∈ keys) then Some (f k) else PyDict.get k d.
Proof.
  induction keys as [|c keys IH]; intros d k; cbn [fold_left].
  - destruct (decide (k ∈ [])) as [Hin|]; [by apply not_elem_of_nil in Hin|done].
  - rewrite IH. destruct (decide (k ∈ keys)) as [Hin|Hnot].
    + destruct (decide (k ∈ c :: keys)) as [|Hn]; [done|].
      exfalso. apply Hn. by right.
    + destruct (decide (k = c)) as [->|Hne].
      * rewrite dict_get_set_eq.
        destruct (decide (c ∈ c :: keys)) as [|Hn]; [done|].
        exfalso. apply Hn. left.
      * rewrite dict_get_set_ne by done.
        destruct (decide (k ∈ c :: keys)) as [Hin|]; [|done].
        apply elem_of_cons in Hin as [?|?]; done.
Qed.

Lemma filter_none {A} (f : A -> bool) (l : list A) :
  (∀ x, In x l -> f x = false) -> List.filter f l = [].
Proof.
  induction l as [|x l IH]; intros H; simpl; [done|].
  rewrite (H x) by (by left). apply IH. intros y Hy. apply H. by right.
Qed.

Lemma get_mapping_keeps column kb : snd (get_mapping column kb) = kb.
Proof.
  unfold get_mapping. destruct (mappings kb !! column) as [l|]; [|done].
  by destruct (max_by_key l).
Qed.

(** The loop of [_check_knowledge_base] when no lookup raises. *)
Lemma check_knowledge_base_returns columns : ∀ d kb,
  (∀ c, c ∈ columns -> ∃ s, fst (get_mapping c kb) = Return s) ->
  _check_knowledge_base columns d kb
  = (Return (fold_left (fun d c => PyDict.set c (label_of kb c) d) columns d), kb).
Proof.
  induction columns as [|c columns IH]; intros d kb Hok; [done|].
  cbn [_check_knowledge_base fold_left].
  destruct (Hok c) as [s Hs]; [left|].
  pose proof (get_mapping_keeps c kb) as Hk.
  destruct (get_mapping c kb) as [r kb'] eqn:E. simpl in Hs, Hk. subst r kb'.
  assert (label_of kb c = s) as -> by (unfold label_of; by rewrite E).
  apply IH. intros c' Hc'. apply Hok. by right.
Qed.

Lemma columns_for_llm_unresolved kb columns :
  columns_for_llm columns (PyDict.comprehension (label_of kb) columns)
  = unresolved kb columns.
Proof.
  unfold columns_for_llm, unresolved. apply filter_ext_in. intros c Hc.
  unfold PyDict.comprehension. rewrite comprehension_get.
  destruct (decide (c ∈ columns)) as [|Hn]; [done|].
  exfalso. apply Hn. by apply list_elem_of_In.
Qed.

(** [map_schema] when the headers are read and no lookup raises. *)
Lemma map_schema_returns llm filepath kb columns :
  get_file_headers filepath = Return columns ->
  (∀ c, c ∈ columns -> ∃ s, fst (get_mapping c kb) = Return s) ->
  map_schema_with llm filepath kb
  = match unresolved kb columns with
    | [] => (Return (PyDict.comprehension (label_of kb) columns), kb)
    | asked =>
        (Return (update_mappings (PyDict.comprehension (label_of kb) columns)
                   (llm asked)),
         add_mappings (llm asked) default_confidence kb)
    end.
Proof.
  intros Hh Hok. unfold map_schema. rewrite Hh.
  rewrite (check_knowledge_base_returns columns [] kb Hok).
  fold (PyDict.comprehension (label_of kb) columns).
  by rewrite columns_for_llm_unresolved.
Qed.

(** X7. When the knowledge base returns, for every column of the file, a
    label other than the humanized name, [map_schema] answers with those
    labels alone: the result is the same whatever the language model would
    say, and the knowledge base and its file are not touched. *)
Theorem resolved_columns_skip_the_model filepath kb columns :
  get_file_headers filepath = Return columns ->
  (∀ c, c ∈ columns ->
     ∃ s, fst (get_mapping c kb) = Return s ∧ s ≠ humanize c) ->
  ∃ d,
    (∀ llm, map_schema_with llm filepath kb = (Return d, kb)) ∧
    (∀ c, c ∈ columns -> PyDict.get c d = Some (label_of kb c)) ∧
    (∀ k, k ∉ columns -> PyDict.get k d = None).
Proof.
  intros Hh Hres.
  exists (PyDict.comprehension (label_of kb) columns). split_and!.
  - intros llm. rewrite (map_schema_returns llm filepath kb columns Hh).
    + assert (unresolved kb columns = []) as ->; [|done].
      unfold unresolved. apply filter_none. intros c Hc.
      destruct (Hres c) as (s & Hs & Hne); [by apply list_elem_of_In|].
      unfold label_of. rewrite Hs. by apply String.eqb_neq.
    + intros c Hc. destruct (Hres c Hc) as (s & Hs & _). by exists s.
  - intros c Hc. unfold PyDict.comprehension. rewrite comprehension_get.
    by destruct (decide (c ∈ columns)).
  - intros k Hk. unfold PyDict.comprehension. rewrite comprehension_get.
    by destruct (decide (k ∈ columns)).
Qed.

Lemma update_mappings_get ans : ∀ d k,
  NoDup (map fst ans) ->
  PyDict.get k (update_mappings d ans)
  = match PyDict.get k d with
    | Some old => Some (default old (PyDict.get k ans))
    | None => None
    end.
Proof.
  unfold update_mappings.
  induction ans as [|[a v] ans IH]; intros d k Hnd; cbn [fold_left].
  - by destruct (PyDict.get k d).
  - simpl in Hnd. apply NoDup_cons in Hnd as [Hnot Hnd].
    rewrite IH by done. cbn [fst snd]. unfold PyDict.mem.
    destruct (decide (a = k)) as [->|Hne].
    + rewrite (dict_get_not_key k ans Hnot). simpl. rewrite String.eqb_refl.
      destruct (PyDict.get k d) as [old|] eqn:E.
      * by rewrite dict_get_set_eq.
      * by rewrite E.
    + simpl. destruct (String.eqb_spec a k); [done|].
      destruct (PyDict.get a d); [|done]. by rewrite dict_get_set_ne.
Qed.

(** X8. [map_schema] labels the columns of the file and nothing else. When
    some column is unresolved the language model is asked, and every column
    of the file that its answer names gets the answer's label, also a column
    the knowledge base had a label for; a column the answer leaves out keeps
    the knowledge base's label or its humanized name. *)
Theorem model_labels_override llm filepath kb columns :
  get_file_headers filepath = Return columns ->
  (∀ c, c ∈ columns -> ∃ s, fst (get_mapping c kb) = Return s) ->
  unresolved kb columns ≠ [] ->
  NoDup (map fst (llm (unresolved kb columns))) ->
  ∃ d,
    fst (map_schema_with llm filepath kb) = Return d ∧
    (∀ c, c ∈ columns ->
       PyDict.get c d
       = Some (default (label_of kb c)
                       (PyDict.get c (llm (unresolved kb columns))))) ∧
    (∀ k, k ∉ columns -> PyDict.get k d = None).
Proof.
  intros Hh Hok Hne Hnd.
  rewrite (map_schema_returns llm filepath kb columns Hh Hok).
  destruct (unresolved kb columns) as [|a asked] eqn:E; [done|].
  eexists. split; [reflexivity|]. split.
  - intros c Hc. rewrite update_mappings_get by done.
    unfold PyDict.comprehension. rewrite comprehension_get.
    by destruct (decide (c ∈ columns)).
  - intros k Hk. rewrite update_mappings_get by done.
    unfold PyDict.comprehension. rewrite comprehension_get.
    by destruct (decide (k ∈ columns)).
Qed.

Lemma unresolved_fresh kb columns :
  (∀ c, c ∈ columns -> mappings kb !! c = None) ->
  unresolved kb columns = columns.
Proof.
  intros Hfresh. unfold unresolved.
  induction columns as [|c columns IH]; [done|].
  simpl. unfold label_of at 1, get_mapping.
  rewrite (Hfresh c) by left. simpl. rewrite String.eqb_refl.
  f_equal. apply IH. intros c' Hc'. apply Hfresh. by right.
Qed.

(** X9. What the language model answers is remembered: after [map_schema]
    on a file whose columns the knowledge base has never seen, every pair of
    the answer for a name without a record is what [get_mapping] returns
    from then on, so the name no longer counts as unresolved unless the
    answer was its humanized name. *)
Theorem model_answers_are_learned llm filepath kb columns technical business :
  get_file_headers filepath = Return columns ->
  columns ≠ [] ->
  (∀ c, c ∈ columns -> mappings kb !! c = None) ->
  NoDup (map fst (llm columns)) ->
  (technical, business) ∈ llm columns ->
  mappings kb !! technical = None ->
  let kb' := snd (map_schema_with llm filepath kb) in
  get_mapping technical kb' = (Return business, kb') ∧
  (business ≠ humanize technical -> unresolved kb' [technical] = []).
Proof.
  intros Hh Hne Hfresh Hnd Hin Hnone kb'.
  assert (kb' = add_mappings (llm columns) default_confidence kb) as Hkb'.
  { subst kb'. rewrite (map_schema_returns llm filepath kb columns Hh).
    - rewrite (unresolved_fresh kb columns Hfresh).
      by destruct columns.
    - intros c Hc. exists (humanize c). unfold get_mapping.
      by rewrite (Hfresh c Hc). }
  assert (get_mapping technical kb' = (Return business, kb')) as Hget.
  { rewrite Hkb'. unfold get_mapping. rewrite mappings_add_mappings.
    by rewrite (fold_add_mapping_fresh default_confidence (llm columns) _
                  technical business Hnd Hin Hnone). }
  split; [done|].
  intros Hdiff. unfold unresolved, label_of. simpl. rewrite Hget. simpl.
  apply String.eqb_neq in Hdiff. by rewrite Hdiff.
Qed.

End SchemaMapperFacts.

(** ** The instruction applier: filters *)

Section FilterMore.

Import DataProcessingAgent DataProcessingTerms.

Variable series_compare : comparison_op -> Series -> value -> outcome (list bool).
Variable series_isin : Series -> list value -> outcome (list bool).
Variable series_str_contains : Series -> value -> outcome (list bool).

Local Abbreviation filters_of := (_apply_filters series_compare series_isin series_str_contains).
Local Abbreviation filter_of := (apply_filter series_compare series_isin series_str_contains).
Local Abbreviation operation_of := (apply_operation series_compare series_isin series_str_contains).





Lemma getitem_missing df column :
  column_index column (columns df) = None -> getitem df column = Raise "KeyError".
Proof. intros H. unfold getitem. by rewrite H. Qed.

Lemma operation_on_missing_column df column operation v :
  column_index column (columns df) = None ->
  operation_of df column operation v = Return df
  ∨ ∃ e, operation_of df column operation v = Raise e.
Proof.
  intros H. unfold apply_operation, filter_compare.
  rewrite (getitem_missing df column H).
  repeat (match goal with
          | |- context [if String.eqb ?a ?b then _ else _] =>
              destruct (String.eqb a b)
          end);
    try (by left); try (right; by eexists).
  destruct v; try (by left); right; by eexists.
Qed.

Lemma unknown_operation_returns df column operation v :
  operation ∉ known_operations -> operation_of df column operation v = Return df.
Proof.
  intros H. unfold apply_operation.
  repeat (match goal with
          | |- context [if String.eqb ?a ?b then _ else _] =>
              destruct (String.eqb_spec a b) as [->|]
          end);
    try done;
    exfalso; apply H; unfold known_operations; set_solver.
Qed.

(** X11. A filter is skipped, leaving the table as it is and the later
    filters to run on it, when its column or its operation is missing or
    empty, when its operation is none of the eight known ones, or when the
    table has no column of that name, whatever the operation and value. *)
Theorem malformed_filters_are_skipped df f :
  truthy (f_column f) = false
  ∨ truthy (f_operation f) = false
  ∨ default "" (f_operation f) ∉ known_operations
  ∨ column_index (default "" (f_column f)) (columns df) = None ->
  filter_of df f = df ∧ ∀ rest, filters_of df (f :: rest) = filters_of df rest.
Proof.
  intros H.
  assert (filter_of df f = df) as E.
  { unfold apply_filter.
    destruct (truthy (f_column f)) eqn:Hc; [|done].
    destruct (truthy (f_operation f)) eqn:Ho; [|done]. simpl.
    destruct H as [?|[?|[H|H]]]; try done.
    - by rewrite unknown_operation_returns.
    - by destruct (operation_on_missing_column df (default "" (f_column f))
                     (default "" (f_operation f)) (f_value f) H)
        as [-> |[e ->]]. }
  split; [done|]. intros rest. unfold _apply_filters. cbn [fold_left].
  by rewrite E.
Qed.

(** What is assumed of pandas from here on: comparing a numeric column with
    a number compares cell by cell. *)
Hypothesis compare_numbers : ∀ op cells v,
  Forall (fun c => match c with CStr _ => False | _ => True end) cells ->
  series_compare op (mkSeries Number cells) (VNum v)
  = Return (map (fun c => compare_number op c v) cells).

Lemma comparison_filter_numbers operation op df column i v :
  comparison_named operation = Some op ->
  nonempty column = true ->
  column_index column (columns df) = Some (i, Number) ->
  Forall (numeric_at i) (rows df) ->
  filter_of df (mkFilter (Some column) (Some operation) (VNum v))
  = mkDataFrame (columns df)
      (List.filter (fun r => compare_number op (nth i r CNaN) v) (rows df)).
Proof.
  intros Hop Hc Hi Hnum.
  assert (operation_of df column operation (VNum v)
          = filter_compare series_compare op df column (VNum v)) as Hbranch.
  { unfold comparison_named in Hop. unfold apply_operation.
    repeat (match goal with
            | H : context [if String.eqb ?a ?b then _ else _] |- _ =>
                destruct (String.eqb a b)
            end); by simplify_eq. }
  assert (nonempty operation = true) as Ho.
  { unfold comparison_named in Hop. unfold nonempty.
    destruct (String.eqb_spec operation "") as [->|]; [done|done]. }
  unfold apply_filter. cbn [f_column f_operation f_value truthy default].
  rewrite Hc, Ho. cbn [negb orb]. unfold id. rewrite Hbranch.
  unfold filter_compare, getitem. rewrite Hi.
  rewrite compare_numbers.
  - unfold getitem_mask. f_equal. rewrite map_map.
    generalize (rows df). intros rs.
    induction rs as [|r rs IH]; simpl; [done|].
    rewrite IH. by destruct (compare_number op (nth i r CNaN) v).
  - apply Forall_fmap. eapply Forall_impl; [exact Hnum|]. by intros r Hr.
Qed.

(** X12. Each of the six comparison operations, on a numeric column and
    with a number as value, keeps the columns and keeps, in order, exactly
    the rows whose cell stands in that relation to the value; a row whose
    cell is missing is dropped by every operation except [!=], which keeps
    it. *)
Theorem comparison_filters_select operation op df column i v :
  comparison_named operation = Some op ->
  nonempty column = true ->
  column_index column (columns df) = Some (i, Number) ->
  Forall (numeric_at i) (rows df) ->
  filters_of df [mkFilter (Some column) (Some operation) (VNum v)]
  = mkDataFrame (columns df)
      (List.filter (fun r => compare_number op (nth i r CNaN) v) (rows df)) ∧
  (∀ r, nth i r CNaN = CNaN ->
     (In r (rows (filters_of df [mkFilter (Some column) (Some operation) (VNum v)]))
      <-> In r (rows df) ∧ operation = "!=")).
Proof.
  intros Hop Hc Hi Hnum. unfold _apply_filters. cbn [fold_left].
  rewrite (comparison_filter_numbers operation op df column i v Hop Hc Hi Hnum).
  split; [done|]. intros r Hr. cbn [rows]. rewrite filter_In.
  unfold compare_number. rewrite Hr.
  unfold comparison_named in Hop.
  repeat (match goal with
          | H : context [if String.eqb ?a ?b then _ else _] |- _ =>
              destruct (String.eqb_spec a b) as [->|]
          end); simplify_eq; split; intros [? ?]; try done.
Qed.

Lemma filter_filter {A} (f g : A -> bool) (l : list A) :
  List.filter f (List.filter g l) = List.filter (fun x => g x && f x) l.
Proof.
  induction l as [|x l IH]; simpl; [done|].
  destruct (g x); simpl; [destruct (f x)|]; by rewrite ?IH.
Qed.

Lemma Forall_filter_keeps {A} (P : A -> Prop) (f : A -> bool) (l : list A) :
  Forall P l -> Forall P (List.filter f l).
Proof.
  induction 1 as [|x l Hx Hl IH]; simpl; [constructor|].
  destruct (f x); [by constructor|done].
Qed.

(** X13. Two comparison filters on numeric columns, with numbers as values,
    keep the rows that pass both, so their order does not matter. *)
Theorem comparison_filters_commute df
    operation1 op1 column1 i1 v1 operation2 op2 column2 i2 v2 :
  comparison_named operation1 = Some op1 ->
  comparison_named operation2 = Some op2 ->
  nonempty column1 = true -> nonempty column2 = true ->
  column_index column1 (columns df) = Some (i1, Number) ->
  column_index column2 (columns df) = Some (i2, Number) ->
  Forall (numeric_at i1) (rows df) -> Forall (numeric_at i2) (rows df) ->
  let f1 := mkFilter (Some column1) (Some operation1) (VNum v1) in
  let f2 := mkFilter (Some column2) (Some operation2) (VNum v2) in
  filters_of df [f1; f2]
  = mkDataFrame (columns df)
      (List.filter (fun r => compare_number op1 (nth i1 r CNaN) v1
                             && compare_number op2 (nth i2 r CNaN) v2)
                   (rows df)) ∧
  filters_of df [f1; f2] = filters_of df [f2; f1].
Proof.
  intros Ho1 Ho2 Hc1 Hc2 Hi1 Hi2 Hn1 Hn2 f1 f2. subst f1 f2.
  assert (∀ operation op column i v operation' op' column' i' v',
            comparison_named operation = Some op ->
            comparison_named operation' = Some op' ->
            nonempty column = true -> nonempty column' = true ->
            column_index column (columns df) = Some (i, Number) ->
            column_index column' (columns df) = Some (i', Number) ->
            Forall (numeric_at i) (rows df) -> Forall (numeric_at i') (rows df) ->
            filters_of df [mkFilter (Some column) (Some operation) (VNum v);
                           mkFilter (Some column') (Some operation') (VNum v')]
            = mkDataFrame (columns df)
                (List.filter (fun r => compare_number op (nth i r CNaN) v
                                       && compare_number op' (nth i' r CNaN) v')
                             (rows df))) as Hboth.
  { intros operation op column i v operation' op' column' i' v'
      Ho Ho' Hc Hc' Hi Hi' Hn Hn'.
    unfold _apply_filters. cbn [fold_left].
    rewrite (comparison_filter_numbers operation op df column i v Ho Hc Hi Hn).
    rewrite (comparison_filter_numbers operation' op' _ column' i' v' Ho' Hc');
      cbn [columns rows]; [|done|by apply Forall_filter_keeps].
    by rewrite filter_filter. }
  split.
  - by apply Hboth.
  - rewrite (Hboth operation1 op1 column1 i1 v1 operation2 op2 column2 i2 v2)
      by done.
    rewrite (Hboth operation2 op2 column2 i2 v2 operation1 op1 column1 i1 v1)
      by done.
    f_equal. apply filter_ext. intros r. apply andb_comm.
Qed.

End FilterMore.

(** ** The instruction applier: grouping *)

Section GroupingMore.

Import DataProcessingAgent DataProcessingTerms.

Variable series_compare : comparison_op -> Series -> value -> outcome (list bool).
Variable series_isin : Series -> list value -> outcome (list bool).
Variable series_str_contains : Series -> value -> outcome (list bool).
Variable groupby_size : DataFrame -> list string -> outcome DataFrame.
Variable groupby_agg :
  DataFrame -> list string -> string -> string -> outcome DataFrame.

Local Abbreviation filters_of := (_apply_filters series_compare series_isin series_str_contains).
Local Abbreviation grouped_of := (_apply_groupby_aggregation groupby_size groupby_agg).
Local Abbreviation aggregate_of := (aggregate groupby_size groupby_agg).
Local Abbreviation transform_of :=
  (transform series_compare series_isin series_str_contains groupby_size groupby_agg).

Lemma resolve_given df column :
  nonempty column = true -> resolve_agg_column df column = column.
Proof. intros H. unfold resolve_agg_column. by rewrite H. Qed.

(** [_apply_groupby_aggregation] with an aggregation column given. *)
Lemma grouped_with_target df g gs method column :
  nonempty column = true ->
  grouped_of df (mkInstructions None (Some (g :: gs))
                   (Some (mkAggregation method (Some column))))
  = match aggregate_of df (g :: gs) (default "sum" method) column with
    | Return grouped_df => grouped_df
    | Raise _ => df
    end.
Proof.
  intros H. unfold _apply_groupby_aggregation.
  cbn [i_groupby i_aggregation a_method a_column default from_option id].
  unfold id. by rewrite (resolve_given df column H), H.
Qed.

(** X14. The table is never lost to a grouping that cannot be done: without
    group-by columns (the key missing or the list empty) the grouping step
    returns the table it was given and the two steps together return the
    filtered table; and when pandas raises while counting or aggregating,
    the grouping step returns the table it was given. *)
Theorem grouping_falls_back_to_the_table df :
  (∀ ins, i_groupby ins = None ∨ i_groupby ins = Some [] ->
     grouped_of df ins = df ∧
     transform_of df ins = filters_of df (default [] (i_filters ins))) ∧
  (∀ g gs column e,
     nonempty column = true ->
     groupby_size df (g :: gs) = Raise e ->
     grouped_of df (mkInstructions None (Some (g :: gs))
                      (Some (mkAggregation (Some "count") (Some column))))
     = df) ∧
  (∀ g gs method column e,
     nonempty column = true ->
     method ≠ "count" ->
     groupby_agg df (g :: gs) column method = Raise e ->
     grouped_of df (mkInstructions None (Some (g :: gs))
                      (Some (mkAggregation (Some method) (Some column))))
     = df).
Proof.
  split_and!.
  - intros ins H. split.
    + unfold _apply_groupby_aggregation. by destruct H as [-> | ->].
    + unfold transform.
      destruct H as [-> | ->]; by destruct (i_filters ins) as [[|f fs]|].
  - intros g gs column e Hc Hraise. rewrite grouped_with_target by done.
    unfold aggregate. cbn [default from_option id]. unfold id. simpl.
    by rewrite Hraise.
  - intros g gs method column e Hc Hm Hraise.
    rewrite grouped_with_target by done.
    unfold aggregate. cbn [default from_option id]. unfold id.
    apply String.eqb_neq in Hm. by rewrite Hm, Hraise.
Qed.

(** X15. Counting ignores the aggregation column: with method [count] and
    any aggregation column given, the result is pandas' group sizes (or the
    table itself if pandas raises), the same for every column name, also one
    the table does not have. *)
Theorem count_ignores_the_target df g gs column1 column2 :
  nonempty column1 = true ->
  nonempty column2 = true ->
  grouped_of df (mkInstructions None (Some (g :: gs))
                   (Some (mkAggregation (Some "count") (Some column1))))
  = grouped_of df (mkInstructions None (Some (g :: gs))
                     (Some (mkAggregation (Some "count") (Some column2)))) ∧
  grouped_of df (mkInstructions None (Some (g :: gs))
                   (Some (mkAggregation (Some "count") (Some column1))))
  = match groupby_size df (g :: gs) with
    | Return counted => counted
    | Raise _ => df
    end.
Proof.
  intros H1 H2. rewrite !grouped_with_target by done.
  unfold aggregate. cbn [default from_option id]. unfold id. by simpl.
Qed.

Lemma has_column_rename old new df :
  has_column old df = true -> has_column new (rename old new df) = true.
Proof.
  unfold has_column, rename. cbn [columns].
  induction (columns df) as [|[n d] cols IH]; simpl; [done|].
  destruct (String.eqb n old) eqn:E; simpl.
  - intros _. by rewrite String.eqb_refl.
  - intros H. rewrite IH by done. by rewrite orb_true_r.
Qed.

(** X16. The naming convention of aggregated columns: when a method other
    than [count] succeeds and pandas' result carries the aggregated column
    under its own name or as [column_method], the table returned has a
    column named [method_column], with the rows and the number of columns
    of pandas' result. *)
Theorem aggregated_column_is_prefixed df g gs method column grouped_df :
  nonempty column = true ->
  method ≠ "count" ->
  groupby_agg df (g :: gs) column method = Return grouped_df ->
  has_column column grouped_df = true
  ∨ has_column (column ++ "_" ++ method)%string grouped_df = true ->
  let result :=
    grouped_of df (mkInstructions None (Some (g :: gs))
                     (Some (mkAggregation (Some method) (Some column)))) in
  has_column (method ++ "_" ++ column)%string result = true ∧
  rows result = rows grouped_df ∧
  length (columns result) = length (columns grouped_df).
Proof.
  intros Hc Hm Hret Hhas result. subst result.
  rewrite grouped_with_target by done.
  unfold aggregate. cbn [default from_option id]. unfold id.
  apply String.eqb_neq in Hm. rewrite Hm, Hret.
  destruct (has_column (column ++ "_" ++ method)%string grouped_df) eqn:Hs.
  - split_and!; [by apply has_column_rename|done|].
    unfold rename. cbn [columns]. by rewrite length_map.
  - destruct Hhas as [Hown|?]; [|done]. rewrite Hown. cbn [andb].
    destruct (has_column (method ++ "_" ++ column)%string grouped_df) eqn:Hp;
      cbn [negb].
    + done.
    + split_and!; [by apply has_column_rename|done|].
      unfold rename. cbn [columns]. by rewrite length_map.
Qed.

End GroupingMore.

(** ** The quality reviewer: what a review can contain *)

Section ReviewMore.

Import QualityAssuranceAgent.

(** Seven rules of which the first two and the third and last exclude each
    other: at most one warning and four suggestions. *)
Lemma seven_rules_score (b1 b2 b3 b4 b5 b6 b7 : bool) (m1 m2 m3 m4 m5 m6 m7 : string) :
  b1 && b2 = false -> b3 && b7 = false ->
  let l := rule b1 (Issue "warning" m1) ++ rule b2 (Issue "warning" m2) ++
           rule b3 (Issue "suggestion" m3) ++ rule b4 (Issue "suggestion" m4) ++
           rule b5 (Issue "suggestion" m5) ++ rule b6 (Issue "suggestion" m6) ++
           rule b7 (Issue "suggestion" m7) in
  (7 <= _calculate_quality_score l)%Q ∧ (_calculate_quality_score l <= 10)%Q ∧
  Forall (fun i => severity i = "warning" ∨ severity i = "suggestion") l ∧
  (length (List.filter (fun i => String.eqb (severity i) "warning") l) <= 1)%nat ∧
  (length l <= 5)%nat.
Proof.
  destruct b1, b2, b3, b4, b5, b6, b7; try discriminate; intros _ _;
    cbv zeta; unfold rule; cbn [app];
    (split_and!;
     [ by vm_compute | by vm_compute
     | repeat constructor; by (left + right)
     | cbn; lia | cbn; lia ]).
Qed.

Lemma categories_rule_as_rule chart limit msg viz_type info summary :
  ∃ b m, categories_rule chart limit msg viz_type info summary
         = rule b (Issue "warning" m) ∧
         (b = true -> viz_type = chart).
Proof.
  unfold categories_rule. destruct (x_axis_categories info summary) as [n|].
  - exists (String.eqb viz_type chart && (limit <? n)%nat), (msg n).
    split; [done|]. intros H. apply andb_true_iff in H as [H _].
    by apply String.eqb_eq.
  - by exists false, "".
Qed.

(** X17. Whatever the requirements, the chart and the summary, a review has
    at most five issues, at most one of them a warning and none of severity
    [error], and its quality score lies between 7.0 and 10.0. *)
Theorem review_is_never_below_seven explain requirements viz summary :
  let r := review_visualization explain requirements viz summary in
  (7 <= quality_score r)%Q ∧ (quality_score r <= 10)%Q ∧
  Forall (fun i => severity i = "warning" ∨ severity i = "suggestion") (issues r) ∧
  (length (List.filter (fun i => String.eqb (severity i) "warning") (issues r))
   <= 1)%nat ∧
  (length (issues r) <= 5)%nat.
Proof.
  cbv zeta. unfold review_visualization. cbn [quality_score issues].
  rewrite check_for_issues_by_rule. unfold issues_by_rule.
  set (info := default (mkVizInfo None None None) (visualization_info viz)).
  set (viz_type := default "" (v_type info)).
  destruct (categories_rule_as_rule "pie" 7 pie_message viz_type info summary)
    as (b1 & m1 & -> & Hpie).
  destruct (categories_rule_as_rule "bar" 15 bar_message viz_type info summary)
    as (b2 & m2 & -> & Hbar).
  unfold scatter_rule, keyword_rule.
  apply seven_rules_score.
  - destruct b1, b2; try done. specialize (Hpie eq_refl).
    specialize (Hbar eq_refl). congruence.
  - destruct (String.eqb_spec viz_type "scatter") as [->|]; [|done].
    cbn [existsb]. rewrite String.eqb_refl. cbn. by rewrite !andb_false_r.
Qed.

Lemma tally_app sev (l l' : list issue) :
  (tally sev (l ++ l') == tally sev l + tally sev l')%Q.
Proof.
  induction l as [|i l IH].
  - unfold tally at 2. simpl. change (inject_Z (Z.of_nat 0)) with 0%Q. lra.
  - rewrite <- app_comm_cons, !tally_cons, IH. lra.
Qed.

Lemma tally_permutation sev (l l' : list issue) :
  l ≡ₚ l' -> (tally sev l == tally sev l')%Q.
Proof.
  induction 1 as [|i l l' _ IH|i j l|l l' l'' _ IH1 _ IH2].
  - reflexivity.
  - by rewrite !tally_cons, IH.
  - rewrite !tally_cons. lra.
  - by rewrite IH1.
Qed.

Lemma tally_other sev (l : list issue) :
  Forall (fun i => severity i ≠ sev) l -> (tally sev l == 0)%Q.
Proof.
  intros H. unfold tally.
  replace (List.filter (fun i => String.eqb (severity i) sev) l) with (@nil issue);
    [reflexivity|].
  symmetry. induction H as [|i rest Hi _ IH]; [done|].
  simpl. by destruct (String.eqb_spec (severity i) sev).
Qed.

(** X18. The score counts issues, it does not look at their order or their
    messages: two lists with the same issues in another order score the
    same, issues of a severity other than the three known ones change
    nothing, and adding issues never raises the score. *)
Theorem score_ignores_order_and_never_rises (l l' : list issue) :
  (l ≡ₚ l' -> (_calculate_quality_score l == _calculate_quality_score l')%Q) ∧
  (Forall (fun i => severity i ≠ "error" ∧ severity i ≠ "warning"
                    ∧ severity i ≠ "suggestion") l' ->
     (_calculate_quality_score (l ++ l') == _calculate_quality_score l)%Q) ∧
  (_calculate_quality_score (l ++ l') <= _calculate_quality_score l)%Q.
Proof.
  unfold _calculate_quality_score.
  pose proof (fold_deduct l 10.0%Q) as Hl.
  pose proof (fold_deduct (l ++ l') 10.0%Q) as Hll.
  rewrite !tally_app in Hll.
  assert (0 <= tally "error" l')%Q by apply inject_nat_nonneg.
  assert (0 <= tally "warning" l')%Q by apply inject_nat_nonneg.
  assert (0 <= tally "suggestion" l')%Q by apply inject_nat_nonneg.
  split_and!.
  - intros Hp. pose proof (fold_deduct l' 10.0%Q) as Hl'.
    rewrite <- !(tally_permutation _ l l' Hp) in Hl'.
    destruct (Q.max_spec 0 (fold_left deduct l 10.0%Q)) as [[? E1]|[? E1]];
    destruct (Q.max_spec 0 (fold_left deduct l' 10.0%Q)) as [[? E2]|[? E2]];
    rewrite E1, E2; lra.
  - intros Hother.
    assert (tally "error" l' == 0)%Q
      by (apply tally_other; eapply Forall_impl; [exact Hother|];
          by intros i (? & ? & ?)).
    assert (tally "warning" l' == 0)%Q
      by (apply tally_other; eapply Forall_impl; [exact Hother|];
          by intros i (? & ? & ?)).
    assert (tally "suggestion" l' == 0)%Q
      by (apply tally_other; eapply Forall_impl; [exact Hother|];
          by intros i (? & ? & ?)).
    destruct (Q.max_spec 0 (fold_left deduct l 10.0%Q)) as [[? E1]|[? E1]];
    destruct (Q.max_spec 0 (fold_left deduct (l ++ l') 10.0%Q)) as [[? E2]|[? E2]];
    rewrite E1, E2; lra.
  - destruct (Q.max_spec 0 (fold_left deduct l 10.0%Q)) as [[? E1]|[? E1]];
    destruct (Q.max_spec 0 (fold_left deduct (l ++ l') 10.0%Q)) as [[? E2]|[? E2]];
    rewrite E1, E2; lra.
Qed.

End ReviewMore.

(** ** The result store *)

Section ResultStoreFacts.

Import Orchestrator ResultStore.

Variables (json World : Type).
Variable map_schema : string -> call World json.
Variable get_sample_data : string -> call World json.
Variable process_data :
  string -> string -> json -> json -> call World (processed_data json).
Variable create_visualization : json -> json -> call World (visualization json).
Variable review_visualization :
  string -> visualization json -> json -> call World qa_result.
Variable writable : string -> bool.
Variable serializable : stored json -> bool.
Variable visualizer_html : string -> stored json -> string.

Local Abbreviation request :=
  (process_request json World map_schema get_sample_data process_data
     create_visualization review_visualization writable serializable).

Local Abbreviation stages :=
  (run_stages json World map_schema get_sample_data process_data
     create_visualization review_visualization).

Local Abbreviation lookup := (get_visualization json World).

Local Abbreviation store_of := (_store_visualization json World writable serializable).

Lemma request_returns filepath requirements (self : t json World) full w :
  stages filepath requirements (world self) = (Return full, w) ->
  request filepath requirements self
  = (Ok (s_result json full),
     store_of (r_viz_id (s_result json full)) full
       (mkOrchestrator w (visualization_store self) (files self))).
Proof. intros H. unfold process_request. by rewrite H. Qed.

Lemma request_raises filepath requirements (self : t json World) e w :
  stages filepath requirements (world self) = (Raise e, w) ->
  request filepath requirements self
  = (Error e, mkOrchestrator w (visualization_store self) (files self)).
Proof. intros H. unfold process_request. by rewrite H. Qed.

Lemma store_memory viz_id d (self : t json World) :
  visualization_store (store_of viz_id d self)
  = <[viz_id := d]> (visualization_store self).
Proof.
  unfold _store_visualization.
  by destruct (writable viz_id); [destruct (serializable d)|].
Qed.

Lemma store_files viz_id d (self : t json World) :
  files (store_of viz_id d self)
  = if writable viz_id
    then <[viz_id := if serializable d then Dumped d else Truncated]> (files self)
    else files self.
Proof.
  unfold _store_visualization.
  by destruct (writable viz_id); [destruct (serializable d)|].
Qed.

(** X19. What a successful request stores, [get_visualization] gives back:
    asked for the identifier of the result just returned, it answers with
    the full stored record (the result, the processed data, the
    requirements and the schema mapping) and changes nothing. *)
Theorem stored_result_is_returned filepath requirements (self : t json World)
    full w :
  stages filepath requirements (world self) = (Return full, w) ->
  let after := snd (request filepath requirements self) in
  fst (request filepath requirements self) = Ok (s_result json full) ∧
  lookup (r_viz_id (s_result json full)) after = (inr full, after).
Proof.
  intros H after. subst after. rewrite (request_returns _ _ _ _ _ H).
  split; [done|]. cbn [snd]. unfold get_visualization.
  by rewrite store_memory, lookup_insert_eq.
Qed.

(** X20. After a restart the store is read back from the files: a result
    whose file could be opened and written in full is returned again and
    put back in memory; a result whose file could not be opened, or whose
    data could not be serialised (the file is cut short), is no longer
    found. The identifier is taken to be new to the files. *)
Theorem restart_keeps_what_was_written filepath requirements
    (self : t json World) full w :
  stages filepath requirements (world self) = (Return full, w) ->
  files self !! r_viz_id (s_result json full) = None ->
  let viz_id := r_viz_id (s_result json full) in
  let restarted := restart json World (snd (request filepath requirements self)) in
  (writable viz_id = true -> serializable full = true ->
     fst (lookup viz_id restarted) = inr full ∧
     visualization_store (snd (lookup viz_id restarted)) !! viz_id = Some full) ∧
  (writable viz_id = false ∨ serializable full = false ->
     lookup viz_id restarted = (inl "Visualization not found", restarted)).
Proof.
  intros H Hnew viz_id restarted. subst viz_id restarted.
  rewrite (request_returns _ _ _ _ _ H). cbn [snd].
  unfold restart, get_visualization.
  cbn [visualization_store files]. rewrite lookup_empty, store_files.
  cbn [files]. split.
  - intros -> ->. rewrite lookup_insert_eq. split; [done|].
    cbn [snd visualization_store]. by rewrite lookup_insert_eq.
  - intros [-> | Hs].
    + by rewrite Hnew.
    + destruct (writable _); [|by rewrite Hnew].
      by rewrite lookup_insert_eq, Hs.
Qed.

(** X21. Results are never dropped: an identifier that is in
    [visualization_store], or has a file, still is and has one after any
    further request, failed or not; its record is the same unless the new
    request produced that very identifier again. *)
Theorem results_are_never_dropped filepath requirements (self : t json World)
    viz_id :
  let answer := fst (request filepath requirements self) in
  let after := snd (request filepath requirements self) in
  (∀ d, visualization_store self !! viz_id = Some d ->
     ∃ d', visualization_store after !! viz_id = Some d' ∧
           (d' = d ∨ ∃ r, answer = Ok r ∧ r_viz_id r = viz_id)) ∧
  (is_Some (files self !! viz_id) -> is_Some (files after !! viz_id)).
Proof.
  cbv zeta.
  destruct (stages filepath requirements (world self)) as [[full|e] w] eqn:H.
  - rewrite (request_returns _ _ _ _ _ H). cbn [fst snd].
    rewrite store_memory, store_files. cbn [visualization_store files].
    destruct (decide (r_viz_id (s_result json full) = viz_id)) as [E|Hne].
    + split.
      * intros d Hd. exists full. rewrite E, lookup_insert_eq.
        split; [done|]. right. by exists (s_result json full).
      * intros Hsome. destruct (writable _); [|done].
        rewrite E, lookup_insert_eq. by eexists.
    + split.
      * intros d Hd. exists d. rewrite lookup_insert_ne by done. by split; [|left].
      * intros Hsome. destruct (writable _); [|done].
        by rewrite lookup_insert_ne.
  - rewrite (request_raises _ _ _ _ _ H). cbn [fst snd visualization_store files].
    split; [|done]. intros d Hd. exists d. by split; [|left].
Qed.

(** X22. [get_visualization] is a read that can only fill the memory: it
    never changes a file, never changes or removes a record in memory, and
    asking again gives the same answer and changes nothing more. For an
    identifier that is neither in memory nor mirrored by a complete file the
    answer is the error and the orchestrator is as before; the download for
    it is the error page. *)
Theorem lookup_only_fills_memory viz_id (self : t json World) :
  let answer := fst (lookup viz_id self) in
  let after := snd (lookup viz_id self) in
  lookup viz_id after = (answer, after) ∧
  files after = files self ∧
  (∀ k d, visualization_store self !! k = Some d ->
          visualization_store after !! k = Some d) ∧
  (visualization_store self !! viz_id = None ->
   (∀ d, files self !! viz_id ≠ Some (Dumped d)) ->
   lookup viz_id self = (inl "Visualization not found", self) ∧
   get_downloadable_html json World visualizer_html viz_id self
   = (error_document "Visualization not found", self)).
Proof.
  cbv zeta. unfold get_downloadable_html, get_visualization.
  destruct (visualization_store self !! viz_id) as [d|] eqn:Hm.
  - cbn [fst snd]. rewrite Hm. by split_and!.
  - destruct (files self !! viz_id) as [[d|]|] eqn:Hf; cbn [fst snd].
    + cbn [visualization_store files]. rewrite lookup_insert_eq.
      split_and!; [done|done| |].
      * intros k d' Hk. rewrite lookup_insert_ne; [done|]. intros ->. congruence.
      * intros _ Hno. by destruct (Hno d).
    + rewrite Hm, Hf. by split_and!.
    + rewrite Hm, Hf. by split_and!.
Qed.

End ResultStoreFacts.

(** ** Rendering inside the pipeline *)

Section EmptyChartFacts.

Import DataProcessingAgent VisualizationAgent Orchestrator.

Variable World : Type.
Variable map_schema : string -> call World value.
Variable get_sample_data : string -> call World value.
Variable process_data :
  string -> string -> value -> value -> call World (processed_data value).
Variable generate_chart : value -> value -> call World string.
Variable uuid4 : call World string.
Variable review_visualization :
  string -> visualization value -> value -> call World qa_result.
Variable writable : string -> bool.
Variable serializable : stored value -> bool.

Local Abbreviation request :=
  (process_request value World map_schema get_sample_data process_data
     (create_visualization World generate_chart uuid4)
     review_visualization writable serializable).

(** X23. A request whose processed data is empty (every row filtered out,
    or an empty file) or whose instructions carry no visualization entry
    cannot succeed: [create_visualization] answers with its error dict
    without drawing a chart or making an identifier, and once the review
    returns, the request ends in the error ['viz_id'] and stores nothing. *)
Theorem empty_data_fails_the_request filepath requirements
    (self : t value World) sm w1 sd w2 p w3 qa w4 :
  map_schema filepath (world self) = (Return sm, w1) ->
  get_sample_data filepath w1 = (Return sd, w2) ->
  process_data filepath requirements sm sd w2 = (Return p, w3) ->
  value_truthy (data value p) = false
  ∨ value_truthy (visualization_info value p) = false ->
  review_visualization requirements
    (VizError "Insufficient data or visualization information")
    (data_summary value p) w3 = (Return qa, w4) ->
  create_visualization World generate_chart uuid4
    (data value p) (visualization_info value p) w3
  = (Return (VizError "Insufficient data or visualization information"), w3) ∧
  request filepath requirements self
  = (Error "'viz_id'",
     mkOrchestrator w4 (visualization_store self) (files self)).
Proof.
  intros H1 H2 H3 Hempty H5.
  assert (create_visualization World generate_chart uuid4
            (data value p) (visualization_info value p) w3
          = (Return (VizError "Insufficient data or visualization information"),
             w3)) as H4.
  { unfold create_visualization.
    destruct Hempty as [-> | ->]; by rewrite ?orb_true_r. }
  split; [done|].
  unfold process_request, run_stages, bind.
  by rewrite H1, H2, H3, H4, H5.
Qed.

End EmptyChartFacts.

(** ** Charts *)

Section ChartFacts.

Import DataProcessingAgent VisualizationAgent.

Variable is_numeric_dtype : DataFrame -> string -> bool.

Local Abbreviation y_of := (default_y is_numeric_dtype).

Lemma find_first {A} (f : A -> bool) before x after :
  (∀ c, In c before -> f c = false) -> f x = true ->
  List.find f (before ++ x :: after) = Some x.
Proof.
  intros Hbefore Hx. induction before as [|c before IH]; simpl.
  - by rewrite Hx.
  - rewrite (Hbefore c) by (by left). apply IH.
    intros c' Hc'. apply Hbefore. by right.
Qed.

(** X24. How the axes are filled in. An axis that is given is kept. A
    missing x-axis becomes the first column. A missing y-axis, in a table of
    two or more columns with non-empty names, becomes the first numeric
    column other than the x-axis when there is one: the column before which
    every column is the x-axis or not numeric. It is then a numeric column
    of the table different from the x-axis. When there is none it becomes
    the second column, whatever that is. *)
Theorem axes_are_filled_in df x_axis :
  let names := map fst (columns df) in
  (∀ given, nonempty given = true ->
     default_x df given = given ∧ y_of df x_axis given = given) ∧
  (∀ c rest, names = c :: rest -> nonempty c = true -> default_x df "" = c) ∧
  ((1 < length names)%nat ->
   Forall (fun n => nonempty n = true) names ->
   ∀ before col after,
     names = before ++ col :: after ->
     (∀ c, In c before -> c = x_axis ∨ is_numeric_dtype df c = false) ->
     col ≠ x_axis -> is_numeric_dtype df col = true ->
     y_of df x_axis "" = col) ∧
  ((1 < length names)%nat ->
   Forall (fun n => nonempty n = true) names ->
   (∃ col, In col names ∧ col ≠ x_axis ∧ is_numeric_dtype df col = true) ->
   In (y_of df x_axis "") names ∧
   y_of df x_axis "" ≠ x_axis ∧
   is_numeric_dtype df (y_of df x_axis "") = true) ∧
  ((1 < length names)%nat ->
   (∀ col, In col names -> col = x_axis ∨ is_numeric_dtype df col = false) ->
   y_of df x_axis "" = nth 1 names "").
Proof.
  cbv zeta. split_and!.
  - intros given H. unfold default_x, default_y. by rewrite H.
  - intros c rest Hn Hc. unfold default_x. rewrite Hn. cbn.
    unfold nonempty in Hc. by rewrite Hc.
  - intros Hlen Hnames before col after Hsplit Hbefore Hne Hnum.
    unfold default_y. apply Nat.ltb_lt in Hlen as Hlt. rewrite Hlt. cbn [nonempty].
    change (negb (negb (String.eqb "" "")) && true) with true. cbv iota.
    rewrite Hsplit, find_first.
    + rewrite Forall_forall in Hnames.
      rewrite (Hnames col); [done|].
      rewrite Hsplit. apply list_elem_of_In, in_elt.
    + intros c Hc. destruct (Hbefore c Hc) as [->|Hno].
      * by rewrite String.eqb_refl.
      * rewrite Hno. apply andb_false_r.
    + apply String.eqb_neq in Hne. by rewrite Hne, Hnum.
  - intros Hlen Hnames (col & Hin & Hne & Hnum).
    unfold default_y. apply Nat.ltb_lt in Hlen as Hlt. rewrite Hlt. cbn [nonempty].
    change (negb (negb (String.eqb "" "")) && true) with true. cbv iota.
    destruct (List.find
                (fun col => negb (String.eqb col x_axis) && is_numeric_dtype df col)
                (map fst (columns df))) as [y|] eqn:Hfind.
    + apply find_some in Hfind as [Hy Hp].
      apply andb_true_iff in Hp as [Hp1 Hp2].
      rewrite Forall_forall in Hnames.
      rewrite (Hnames y) by (by apply list_elem_of_In). cbn [negb andb].
      split_and!; [done| |done].
      apply negb_true_iff in Hp1. by apply String.eqb_neq.
    + exfalso. pose proof (find_none _ _ Hfind col Hin) as Hno. simpl in Hno.
      apply String.eqb_neq in Hne. by rewrite Hne, Hnum in Hno.
  - intros Hlen Hnone.
    unfold default_y. apply Nat.ltb_lt in Hlen as Hlt. rewrite Hlt. cbn [nonempty].
    change (negb (negb (String.eqb "" "")) && true) with true. cbv iota.
    destruct (List.find
                (fun col => negb (String.eqb col x_axis) && is_numeric_dtype df col)
                (map fst (columns df))) as [y|] eqn:Hfind.
    + exfalso. apply find_some in Hfind as [Hy Hp].
      apply andb_true_iff in Hp as [Hp1 Hp2].
      apply negb_true_iff in Hp1. apply String.eqb_neq in Hp1.
      destruct (Hnone y Hy); congruence.
    + done.
Qed.

(** X25. The chart type is read without regard to case by the renderer but
    not by the reviewer: a chart whose type is a spelling of [pie] or [bar]
    other than the lower-case one is drawn as a pie or bar chart, yet the
    review never warns about its number of categories. A pie chart is drawn
    without a colour column. *)
Theorem chart_type_case_is_read_differently to_html df chart_type x y color title
    requirements summary :
  Py.lower chart_type = "pie" ∨ Py.lower chart_type = "bar" ->
  chart_type ≠ Py.lower chart_type ->
  let drawn :=
    chart_of is_numeric_dtype df
      (mkChartInfo (Some chart_type) x y color title) in
  let reviewed :=
    QualityAssuranceAgent._check_for_issues requirements
      (QualityAssuranceAgent.mkVizResult
         (Some (QualityAssuranceAgent.mkVizInfo (Some chart_type) x color)))
      summary in
  (Py.lower chart_type = "pie" -> ch_mark drawn = Arc ∧ ch_color drawn = None) ∧
  (Py.lower chart_type = "bar" -> ch_mark drawn = Bar) ∧
  Forall (fun i => QualityAssuranceAgent.severity i ≠ "warning") reviewed ∧
  _generate_altair_chart is_numeric_dtype to_html df
    (mkChartInfo (Some chart_type) x y color title)
  = match to_html df drawn with
    | Return html => html
    | Raise e => error_fragment e
    end.
Proof.
  intros Hkind Hcase. cbv zeta. split_and!.
  - intros H. unfold chart_of. cbn [c_type default from_option id]. unfold id.
    by rewrite H.
  - intros H. unfold chart_of. cbn [c_type default from_option id]. unfold id.
    by rewrite H.
  - assert (String.eqb chart_type "pie" = false) as Hpie.
    { apply String.eqb_neq. intros ->. by destruct Hkind as [H|H]. }
    assert (String.eqb chart_type "bar" = false) as Hbar.
    { apply String.eqb_neq. intros ->. by destruct Hkind as [H|H]. }
    rewrite check_for_issues_by_rule.
    unfold QualityAssuranceAgent.issues_by_rule,
      QualityAssuranceAgent.categories_rule,
      QualityAssuranceAgent.scatter_rule, QualityAssuranceAgent.keyword_rule,
      QualityAssuranceAgent.rule.
    cbn [QualityAssuranceAgent.visualization_info QualityAssuranceAgent.v_type
           default from_option id]. unfold id.
    rewrite Hpie, Hbar. cbn [andb].
    destruct (QualityAssuranceAgent.x_axis_categories _ summary);
    repeat (match goal with
            | |- context [if ?b then _ else _] => destruct b
            end); repeat constructor; done.
  - done.
Qed.

End ChartFacts.

(** ** Uploaded files *)

Section FileFacts.

Import FileHandler.

Variable read_csv read_excel : string -> outcome DataProcessingAgent.DataFrame.

Lemma rsplit_tail_has_dot s ext :
  rsplit_tail s = Some ext -> Py.contains "." s = true.
Proof.
  revert ext. induction s as [|c s IH]; intros ext; [done|].
  cbn [rsplit_tail Py.contains].
  destruct (rsplit_tail s) as [e|].
  - intros _. rewrite (IH e eq_refl). apply orb_true_r.
  - destruct (Ascii.eqb_spec c ".") as [->|]; [|done]. intros _.
    simpl. by destruct s.
Qed.

(** X26. The upload check and the reader agree: a file name [allowed_file]
    accepts is one [read_file] hands to [pd.read_csv] or [pd.read_excel],
    and a name it rejects is one [read_file] raises on without reading:
    [list index out of range] when the name has no dot, the unsupported
    extension otherwise. Only the text after the last dot counts, without
    regard to case. *)
Theorem allowed_files_are_the_readable_ones filename :
  (allowed_file filename = true ->
     read_file read_csv read_excel filename = read_csv filename
     ∨ read_file read_csv read_excel filename = read_excel filename) ∧
  (allowed_file filename = false ->
     (rsplit_tail filename = None ∧
      read_file read_csv read_excel filename = Raise "list index out of range")
     ∨ ∃ ext, rsplit_tail filename = Some ext ∧
              read_file read_csv read_excel filename
              = Raise ("Unsupported file extension: " ++ Py.lower ext)%string).
Proof.
  unfold allowed_file, read_file, ALLOWED_EXTENSIONS.
  destruct (rsplit_tail filename) as [ext|] eqn:E.
  - rewrite (rsplit_tail_has_dot filename ext E). cbn [andb existsb].
    destruct (String.eqb (Py.lower ext) "csv"); cbn [orb].
    + split; [by left|done].
    + destruct (String.eqb (Py.lower ext) "xls"); cbn [orb].
      * split; [by right|done].
      * destruct (String.eqb (Py.lower ext) "xlsx"); cbn [orb].
        -- split; [by right|done].
        -- split; [done|]. intros _. right. by exists ext.
  - rewrite andb_false_r. split; [done|]. intros _. by left.
Qed.

End FileFacts.

(** ** Reading the language model's reply *)

Section ReplyFacts.

Import LlamaInterface.

Local Open Scope string_scope.

Lemma sapp_cons x (a b : string) : String x a ++ b = String x (a ++ b).
Proof. reflexivity. Qed.

Lemma sapp_nil (b : string) : "" ++ b = b.
Proof. reflexivity. Qed.

Lemma sapp_assoc (a b c : string) : (a ++ b) ++ c = a ++ (b ++ c).
Proof.
  induction a as [|x a IH]; [done|]. rewrite !sapp_cons. f_equal. exact IH.
Qed.

Lemma sapp_length (a b : string) :
  String.length (a ++ b) = (String.length a + String.length b)%nat.
Proof.
  induction a as [|x a IH]; [done|]. rewrite sapp_cons. simpl. f_equal. exact IH.
Qed.

Lemma find_none c s : occurs c s = false -> find c s = (-1)%Z.
Proof.
  induction s as [|a s IH]; simpl; [done|].
  intros H. apply orb_false_iff in H as [Ha Hs]. rewrite Ha, (IH Hs). done.
Qed.

Lemma rfind_none c s : occurs c s = false -> rfind c s = (-1)%Z.
Proof.
  induction s as [|a s IH]; simpl; [done|].
  intros H. apply orb_false_iff in H as [Ha Hs]. rewrite Ha, (IH Hs). done.
Qed.

Lemma find_app c pre rest :
  occurs c pre = false ->
  find c (pre ++ String c rest) = Z.of_nat (String.length pre).
Proof.
  induction pre as [|a pre IH]; simpl.
  - intros _. by rewrite Ascii.eqb_refl.
  - intros H. apply orb_false_iff in H as [Ha Hp]. rewrite Ha, (IH Hp).
    destruct (Z.ltb_spec (Z.of_nat (String.length pre)) 0); lia.
Qed.

Lemma rfind_app c a post :
  occurs c post = false ->
  rfind c (a ++ String c post) = Z.of_nat (String.length a).
Proof.
  intros Hpost. induction a as [|x a IH]; simpl.
  - rewrite (rfind_none c post Hpost). simpl. by rewrite Ascii.eqb_refl.
  - rewrite IH.
    destruct (Z.leb_spec 0 (Z.of_nat (String.length a))); lia.
Qed.

Lemma find_found c s :
  (0 <= find c s)%Z ->
  ∃ pre rest, s = pre ++ String c rest ∧ occurs c pre = false.
Proof.
  induction s as [|a s IH]; simpl; [lia|].
  destruct (Ascii.eqb_spec a c) as [->|Hne].
  - intros _. by exists "", s.
  - destruct (Z.ltb_spec (find c s) 0); [lia|]. intros _.
    destruct IH as (pre & rest & -> & Hpre); [lia|].
    exists (String a pre), rest. split; [done|]. simpl.
    apply Ascii.eqb_neq in Hne. by rewrite Hne.
Qed.

Lemma rfind_found c s :
  (0 <= rfind c s)%Z ->
  ∃ a post, s = a ++ String c post ∧ occurs c post = false.
Proof.
  induction s as [|x s IH]; simpl; [lia|].
  destruct (Z.leb_spec 0 (rfind c s)) as [Hge|Hlt].
  - intros _. destruct (IH Hge) as (a & post & -> & Hpost).
    by exists (String x a), post.
  - destruct (Ascii.eqb_spec x c) as [->|]; [|lia]. intros _.
    exists "", s. split; [done|].
    clear IH. induction s as [|y s IHs]; simpl in *; [done|].
    destruct (Z.leb_spec 0 (rfind c s)); [lia|].
    destruct (Ascii.eqb_spec y c); [lia|]. simpl. apply IHs. lia.
Qed.

Lemma substring_skip pre s (n : nat) :
  String.substring (String.length pre) n (pre ++ s) = String.substring 0 n s.
Proof. induction pre as [|x pre IH]; simpl; [done|]. apply IH. Qed.

Lemma substring_take j post :
  String.substring 0 (String.length j) (j ++ post) = j.
Proof.
  induction j as [|x j IH]; simpl.
  - by destruct post.
  - by rewrite IH.
Qed.

(** The span of a reply that begins its first object at [pre] and ends its
    last one before [post]. *)
Lemma json_span_of_parts pre mid post :
  occurs "{" pre = false -> occurs "}" post = false ->
  json_span (pre ++ String "{" (mid ++ String "}" post))
  = Some (String "{" (mid ++ String "}" "")).
Proof.
  intros Hpre Hpost. unfold json_span, slice.
  rewrite (find_app "{" pre _ Hpre).
  replace (pre ++ String "{" (mid ++ String "}" post))
    with ((pre ++ String "{" mid) ++ String "}" post)
    by (by rewrite sapp_assoc).
  rewrite (rfind_app "}" _ post Hpost), sapp_length. simpl String.length.
  destruct (Z.leb_spec 0 (Z.of_nat (String.length pre))); [|lia].
  destruct (Z.ltb_spec (Z.of_nat (String.length pre))
              (Z.of_nat (String.length pre + S (String.length mid)) + 1));
    [|lia].
  cbn [andb]. f_equal. rewrite Nat2Z.id.
  replace (Z.to_nat (Z.of_nat (String.length pre + S (String.length mid)) + 1
                     - Z.of_nat (String.length pre)))
    with (String.length (String "{" (mid ++ String "}" "")))
    by (simpl; rewrite sapp_length; simpl; lia).
  rewrite sapp_assoc, substring_skip.
  replace (String "{" mid ++ String "}" post)
    with (String "{" (mid ++ String "}" "") ++ post)
    by (by rewrite !sapp_cons, sapp_assoc, sapp_cons, sapp_nil).
  apply substring_take.
Qed.

Lemma split_between (x y : ascii) pre : ∀ a rest post,
  x ≠ y ->
  pre ++ String x rest = a ++ String y post ->
  (String.length pre <= String.length a)%nat ->
  ∃ mid, rest = mid ++ String y post.
Proof.
  induction pre as [|p pre IH]; intros a rest post Hxy Heq Hlen.
  - destruct a as [|q a]; rewrite ?sapp_nil, ?sapp_cons in Heq.
    + injection Heq as ? _. congruence.
    + injection Heq as _ ->. by exists a.
  - destruct a as [|q a]; simpl in Hlen; [lia|].
    rewrite !sapp_cons in Heq. injection Heq as _ Heq.
    apply (IH a rest post Hxy Heq). lia.
Qed.

(** X27. The text handed to the JSON parser is the reply from its first
    opening brace to its last closing brace, both included: a reply
    [pre {mid} post] with no opening brace in [pre] and no closing brace in
    [post] yields [{mid}], every span is of that form, and a reply that
    lacks either brace yields none. *)
Theorem json_span_is_first_to_last_brace response :
  (∀ pre mid post,
     response = pre ++ "{" ++ mid ++ "}" ++ post ->
     occurs "{" pre = false -> occurs "}" post = false ->
     json_span response = Some ("{" ++ mid ++ "}")) ∧
  (∀ j, json_span response = Some j ->
     ∃ pre mid post,
       response = pre ++ j ++ post ∧ j = "{" ++ mid ++ "}" ∧
       occurs "{" pre = false ∧ occurs "}" post = false) ∧
  (occurs "{" response = false ∨ occurs "}" response = false ->
     json_span response = None).
Proof.
  split_and!.
  - intros pre mid post -> Hpre Hpost.
    by apply json_span_of_parts.
  - intros j Hj.
    assert ((0 <= find "{" response)%Z ∧
            (find "{" response < rfind "}" response + 1)%Z) as [Hstart Hend].
    { unfold json_span in Hj.
      destruct (Z.leb_spec 0 (find "{" response)); [|done].
      destruct (Z.ltb_spec (find "{" response) (rfind "}" response + 1));
        [done|done]. }
    destruct (find_found "{" response Hstart) as (pre & rest & E1 & Hpre).
    destruct (rfind_found "}" response) as (a & post & E2 & Hpost); [lia|].
    assert (String.length pre <= String.length a)%nat as Hlen.
    { rewrite E1 in Hend at 1. rewrite (find_app "{" pre rest Hpre) in Hend.
      rewrite E2 in Hend. rewrite (rfind_app "}" a post Hpost) in Hend. lia. }
    destruct (split_between "{" "}" pre a rest post) as [mid ->];
      [done|congruence|done|].
    exists pre, mid, post.
    rewrite E1 in Hj. rewrite (json_span_of_parts pre mid post Hpre Hpost) in Hj.
    injection Hj as <-. split_and!; try done.
    rewrite E1. by rewrite sapp_cons, sapp_assoc, sapp_cons, sapp_nil.
  - intros [H|H]; unfold json_span.
    + by rewrite (find_none _ _ H).
    + rewrite (rfind_none _ _ H).
      destruct (Z.leb_spec 0 (find "{" response)); [|done].
      destruct (Z.ltb_spec (find "{" response) (-1 + 1)); [lia|done].
Qed.

Variable loads_mapping : string -> option (list (string * string)).
Variable loads_interpretation : string -> option interpretation.

(** X28. A reply without a JSON object, or with a span the parser rejects,
    never fails the caller: [schema_mapping] answers with the humanized name
    of every column asked and of no other name, and
    [interpret_requirements] answers with the default instructions, under
    which the table is transformed into itself, whatever pandas does. *)
Theorem unreadable_replies_fall_back response columns :
  match json_span response with
  | Some j => loads_mapping j = None ∧ loads_interpretation j = None
  | None => True
  end ->
  schema_mapping loads_mapping response columns = fallback_mapping columns ∧
  (∀ c, PyDict.get c (fallback_mapping columns)
        = if decide (c ∈ columns) then Some (KnowledgeBase.humanize c) else None) ∧
  interpret_requirements loads_interpretation response = default_interpretation ∧
  (∀ series_compare series_isin series_str_contains groupby_size groupby_agg df,
     DataProcessingAgent.transform series_compare series_isin
       series_str_contains groupby_size groupby_agg df
       (transformations default_interpretation) = df).
Proof.
  intros H. unfold schema_mapping, interpret_requirements.
  destruct (json_span response) as [j|].
  - destruct H as [-> ->]. split_and!; try done.
    intros c. unfold fallback_mapping, PyDict.comprehension.
    by rewrite comprehension_get.
  - split_and!; try done.
    intros c. unfold fallback_mapping, PyDict.comprehension.
    by rewrite comprehension_get.
Qed.

End ReplyFacts.

(** ** The further properties at concrete inputs *)

Section MoreInstances.

Import KnowledgeBase DataProcessingAgent DataProcessingTerms Samples.

Lemma lookup_after_first_merge_witness :
  fst (get_mapping "order_amt" trained) = Return "Amount".
Proof.
  unfold trained.
  rewrite (lookup_after_first_merge
             [("cust_id", "Customer"); ("order_amt", "Amount")]
             default_confidence (KB ∅ Missing) "order_amt" "Amount");
    [reflexivity|compute_done|compute_done|reflexivity].
Defined.

(** Positive feedback on a candidate at 0.8 brings it to 0.9, the binary64
    value of that literal. *)
Lemma positive_feedback_raises_to_cap_witness :
  ∃ l' m',
    mappings (add_feedback "cust_id" "customer" true merged_example)
      !! "cust_id" = Some l' ∧
    l' !! 0%nat = Some m' ∧ count m' = 2%nat ∧
    (confidence m' == 8106479329266893 # 9007199254740992)%Q.
Proof.
  destruct (positive_feedback_raises_to_cap merged_example "cust_id"
              "customer" [Mapping "Customer" default_confidence 1] 0%nat
              (Mapping "Customer" default_confidence 1))
    as (l' & m' & Hl & Hm & _ & _ & _ & Hn & Hq & _);
    [reflexivity..|].
  exists l', m'. split_and!; [exact Hl|exact Hm|exact Hn|].
  rewrite Hq. by vm_compute.
Defined.

Lemma confidences_stay_in_range_witness :
  bounded_store
    (mappings (run [Merge [("cust_id", "Customer")] default_confidence;
                    Feedback "cust_id" "customer" true;
                    Feedback "cust_id" "customer" true;
                    Feedback "cust_id" "customer" true;
                    Feedback "order_amt" "Total" false]
                 (KB ∅ Missing))).
Proof.
  apply (confidences_stay_in_range _ (KB ∅ Missing)).
  - repeat constructor; by vm_compute.
  - apply map_Forall_empty.
  - apply map_Forall_empty.
Defined.

Lemma records_only_grow_witness :
  ∃ l', mappings (run [Feedback "cust_id" "Client" true;
                       Merge [("cust_id", "CUSTOMER")] default_confidence;
                       Feedback "cust_id" "Buyer" false]
                    merged_example) !! "cust_id" = Some l' ∧
        ["Customer"] `prefix_of` map business_entity l'.
Proof.
  destruct (records_only_grow
              [Feedback "cust_id" "Client" true;
               Merge [("cust_id", "CUSTOMER")] default_confidence;
               Feedback "cust_id" "Buyer" false]
              merged_example "cust_id"
              [Mapping "Customer" default_confidence 1])
    as (l' & Hl & Hp & _); [reflexivity|].
  exists l'. split; [exact Hl|exact Hp].
Defined.

Lemma resolved_columns_skip_the_model_witness :
  ∃ d, ∀ llm,
    SchemaMapperAgent.map_schema SchemaMapperAgent.orders_headers llm
      "orders.csv" trained = (Return d, trained).
Proof.
  destruct (resolved_columns_skip_the_model SchemaMapperAgent.orders_headers
              "orders.csv" trained ["cust_id"; "order_amt"])
    as (d & Hd & _); [reflexivity| |by exists d].
  intros c Hc. apply elem_of_cons in Hc as [->|Hc].
  - exists "Customer". split; [reflexivity|discriminate].
  - apply list_elem_of_singleton in Hc as ->.
    exists "Amount". split; [reflexivity|discriminate].
Defined.

Lemma model_labels_override_witness :
  ∃ d,
    fst (SchemaMapperAgent.map_schema SchemaMapperAgent.orders_headers
           SchemaMapperAgent.knows_customer "orders.csv" (KB ∅ Missing))
    = Return d ∧
    PyDict.get "cust_id" d = Some "Customer" ∧
    PyDict.get "order_amt" d = Some "Order Amt".
Proof.
  destruct (model_labels_override SchemaMapperAgent.orders_headers
              SchemaMapperAgent.knows_customer "orders.csv" (KB ∅ Missing)
              ["cust_id"; "order_amt"])
    as (d & Hd & Hcols & _); [reflexivity| |discriminate|compute_done|].
  - intros c _. exists (humanize c). reflexivity.
  - exists d. split_and!; [exact Hd| |].
    + rewrite (Hcols "cust_id"); [reflexivity|compute_done].
    + rewrite (Hcols "order_amt"); [reflexivity|compute_done].
Defined.

Lemma model_answers_are_learned_witness :
  fst (get_mapping "cust_id"
         (snd (SchemaMapperAgent.map_schema SchemaMapperAgent.orders_headers
                 SchemaMapperAgent.knows_customer "orders.csv" (KB ∅ Missing))))
  = Return "Customer".
Proof.
  destruct (model_answers_are_learned SchemaMapperAgent.orders_headers
              SchemaMapperAgent.knows_customer "orders.csv" (KB ∅ Missing)
              ["cust_id"; "order_amt"] "cust_id" "Customer")
    as [H _];
    [reflexivity|discriminate|by intros|compute_done|compute_done|reflexivity|].
  by rewrite H.
Defined.

(** [people] has no column [height]: the filter is skipped. *)
Lemma malformed_filters_are_skipped_witness :
  _apply_filters numbers_compare no_isin no_str_contains people
    [mkFilter (Some "height") (Some ">") (VNum 150);
     mkFilter (Some "age") (Some ">") (VNum 30)]
  = _apply_filters numbers_compare no_isin no_str_contains people
      [mkFilter (Some "age") (Some ">") (VNum 30)].
Proof.
  destruct (malformed_filters_are_skipped numbers_compare no_isin
              no_str_contains people
              (mkFilter (Some "height") (Some ">") (VNum 150)))
    as [_ H]; [right; right; right; reflexivity|].
  apply H.
Defined.

(** [age <= 30] on [people] keeps ann (25) and dee (30). *)
Lemma comparison_filters_select_witness :
  rows (_apply_filters numbers_compare no_isin no_str_contains people
          [mkFilter (Some "age") (Some "<=") (VNum 30)])
  = [ [CStr "ann"; CNum 25]; [CStr "dee"; CNum 30] ].
Proof.
  destruct (comparison_filters_select numbers_compare no_isin no_str_contains
              (fun op cells v _ => eq_refl) "<=" OpLe people "age" 1%nat 30%Q)
    as [H _]; [reflexivity|reflexivity|reflexivity|repeat constructor|].
  rewrite H. reflexivity.
Defined.

(** [age > 25] and [age != 41] on [people], in either order. *)
Lemma comparison_filters_commute_witness :
  _apply_filters numbers_compare no_isin no_str_contains people
    [mkFilter (Some "age") (Some ">") (VNum 25);
     mkFilter (Some "age") (Some "!=") (VNum 41)]
  = _apply_filters numbers_compare no_isin no_str_contains people
      [mkFilter (Some "age") (Some "!=") (VNum 41);
       mkFilter (Some "age") (Some ">") (VNum 25)].
Proof.
  destruct (comparison_filters_commute numbers_compare no_isin no_str_contains
              (fun op cells v _ => eq_refl) people
              ">" OpGt "age" 1%nat 25%Q "!=" OpNe "age" 1%nat 41%Q)
    as [_ H];
    [reflexivity|reflexivity|reflexivity|reflexivity|reflexivity|reflexivity
    |repeat constructor|repeat constructor|].
  exact H.
Defined.

Lemma count_ignores_the_target_witness :
  _apply_groupby_aggregation probe_size probe_agg sales
    (mkInstructions None (Some ["region"])
       (Some (mkAggregation (Some "count") (Some "revenue"))))
  = _apply_groupby_aggregation probe_size probe_agg sales
      (mkInstructions None (Some ["region"])
         (Some (mkAggregation (Some "count") (Some "no_such_column")))).
Proof.
  destruct (count_ignores_the_target probe_size probe_agg sales "region" []
              "revenue" "no_such_column") as [H _]; [reflexivity..|].
  exact H.
Defined.

(** [sales] by [region] with the sum of [revenue]: a column [sum_revenue]. *)
Lemma aggregated_column_is_prefixed_witness :
  has_column "sum_revenue"
    (_apply_groupby_aggregation probe_size probe_agg sales
       (mkInstructions None (Some ["region"])
          (Some (mkAggregation (Some "sum") (Some "revenue"))))) = true.
Proof.
  destruct (aggregated_column_is_prefixed probe_size probe_agg sales
              "region" [] "sum" "revenue"
              (mkDataFrame [("region", Object); ("revenue", Number)] []))
    as [H _]; [reflexivity|discriminate|reflexivity|left; reflexivity|].
  exact H.
Defined.

Lemma stored_result_is_returned_witness :
  let after :=
    snd (Orchestrator.process_request unit nat schema_agent schema_agent
           processing_agent drawing_agent reviewing_agent
           (fun _ => true) (fun _ => true)
           "orders.csv" "show me a bar chart" Orchestrator.empty_orchestrator) in
  Orchestrator.get_visualization unit nat "viz-1" after
  = (inr drawn_result, after).
Proof.
  destruct (stored_result_is_returned unit nat schema_agent schema_agent
              processing_agent drawing_agent reviewing_agent
              (fun _ => true) (fun _ => true)
              "orders.csv" "show me a bar chart"
              Orchestrator.empty_orchestrator drawn_result 5%nat)
    as [_ H]; [reflexivity|].
  exact H.
Defined.

Lemma restart_keeps_what_was_written_witness :
  let restarted (writable : bool) :=
    ResultStore.restart unit nat
      (snd (Orchestrator.process_request unit nat schema_agent schema_agent
              processing_agent drawing_agent reviewing_agent
              (fun _ => writable) (fun _ => true)
              "orders.csv" "show me a bar chart"
              Orchestrator.empty_orchestrator)) in
  fst (Orchestrator.get_visualization unit nat "viz-1" (restarted true))
  = inr drawn_result ∧
  fst (Orchestrator.get_visualization unit nat "viz-1" (restarted false))
  = inl "Visualization not found".
Proof.
  split.
  - destruct (restart_keeps_what_was_written unit nat schema_agent schema_agent
                processing_agent drawing_agent reviewing_agent
                (fun _ => true) (fun _ => true)
                "orders.csv" "show me a bar chart"
                Orchestrator.empty_orchestrator drawn_result 5%nat)
      as [H _]; [reflexivity|reflexivity|].
    destruct (H eq_refl eq_refl) as [H1 _]. exact H1.
  - destruct (restart_keeps_what_was_written unit nat schema_agent schema_agent
                processing_agent drawing_agent reviewing_agent
                (fun _ => false) (fun _ => true)
                "orders.csv" "show me a bar chart"
                Orchestrator.empty_orchestrator drawn_result 5%nat)
      as [_ H]; [reflexivity|reflexivity|].
    exact (f_equal fst (H (or_introl eq_refl))).
Defined.

Lemma empty_data_fails_the_request_witness :
  fst (Orchestrator.process_request value nat value_agent value_agent
         emptying_agent
         (VisualizationAgent.create_visualization nat chart_agent uuid_agent)
         value_reviewing_agent (fun _ => true) (fun _ => true)
         "orders.csv" "show me a bar chart" empty_value_orchestrator)
  = Orchestrator.Error "'viz_id'".
Proof.
  destruct (empty_data_fails_the_request nat value_agent value_agent
              emptying_agent chart_agent uuid_agent value_reviewing_agent
              (fun _ => true) (fun _ => true)
              "orders.csv" "show me a bar chart" empty_value_orchestrator
              VNone 1%nat VNone 2%nat
              (Orchestrator.mkProcessed (VList [])
                 (VDict [("type", VStr "bar")]) VNone)
              3%nat (Orchestrator.mkQa "" [] 10) 4%nat)
    as [_ H]; [reflexivity|reflexivity|reflexivity|left; reflexivity
              |reflexivity|].
  rewrite H. reflexivity.
Defined.

(** A chart typed [Pie] is drawn as a pie chart. *)
Lemma chart_type_case_is_read_differently_witness :
  VisualizationAgent.ch_mark
    (VisualizationAgent.chart_of (fun _ _ => true) people
       (VisualizationAgent.mkChartInfo (Some "Pie") (Some "name") (Some "age")
          None None))
  = VisualizationAgent.Arc.
Proof.
  destruct (chart_type_case_is_read_differently (fun _ _ => true)
              (fun _ _ => Return "<div></div>") people "Pie"
              (Some "name") (Some "age") None None "show shares"
              (QualityAssuranceAgent.mkSummary (Some 5%nat) None))
    as [H _]; [left; reflexivity|discriminate|].
  destruct (H eq_refl) as [Hmark _]. exact Hmark.
Defined.

Lemma unreadable_replies_fall_back_witness :
  LlamaInterface.schema_mapping LlamaInterface.loads_nothing
    "Error generating response: connection refused" ["cust_id"; "order_amt"]
  = [("cust_id", "Cust Id"); ("order_amt", "Order Amt")].
Proof.
  destruct (unreadable_replies_fall_back LlamaInterface.loads_nothing
              LlamaInterface.loads_nothing
              "Error generating response: connection refused"
              ["cust_id"; "order_amt"]) as [H _]; [exact I|].
  rewrite H. reflexivity.
Defined.

End MoreInstances.
